(** * The syllabus parser of the Syllabus-Assignment tracker

    A shallow embedding of [parse_syllabus] (src/main.py, lines 20-200) and
    of the text it is applied to at start-up ([pdf_text]), with the
    properties of the parser stated in the specification; then of the code
    of the application that computes on the parsed records and on the list
    of tasks (the chapter selector, the mapping of ongoing chapters, the
    rows of the table model, the handlers that add and update a task), with
    properties read off that code.

    Python strings are sequences of Unicode code points: a character is a
    code point ([N]), a string a list of them.  Regular expressions are
    values of a small syntax tree, run by a backtracking matcher that tries
    alternatives in the priority order of Python's [re] module. *)

From Stdlib Require Import String Ascii NArith ZArith PeanoNat Bool Lia List.
Import ListNotations.
Open Scope string_scope.
Open Scope list_scope.
Open Scope nat_scope.

Set Implicit Arguments.

(** ** Characters and strings *)

Module Text.

Definition char := N.
Definition str := list char.

Definition LF : char := 10%N.
Definition QUOTE : char := 34%N.

Definition char_eqb (a b : char) : bool := N.eqb a b.

Fixpoint str_eqb (a b : str) : bool :=
  match a, b with
  | [], [] => true
  | x :: a', y :: b' => char_eqb x y && str_eqb a' b'
  | _, _ => false
  end.

(** Decoding of the UTF-8 bytes of a source literal into code points. *)
Definition byte_val (a : ascii) : N := N_of_ascii a.

Fixpoint utf8_decode_bytes (bs : list N) : str :=
  match bs with
  | [] => []
  | b0 :: r0 =>
    if (b0 <? 128)%N then b0 :: utf8_decode_bytes r0
    else match r0 with
    | b1 :: r1 =>
      if (b0 <? 224)%N then
        ((b0 - 192) * 64 + (b1 - 128))%N :: utf8_decode_bytes r1
      else match r1 with
      | b2 :: r2 =>
        if (b0 <? 240)%N then
          ((b0 - 224) * 4096 + (b1 - 128) * 64 + (b2 - 128))%N
            :: utf8_decode_bytes r2
        else match r2 with
        | b3 :: r3 =>
          ((b0 - 240) * 262144 + (b1 - 128) * 4096 + (b2 - 128) * 64
             + (b3 - 128))%N :: utf8_decode_bytes r3
        | [] => [b0]
        end
      | [] => [b0]
      end
    | [] => [b0]
    end
  end.

Fixpoint bytes_of (s : string) : list N :=
  match s with
  | EmptyString => []
  | String a s' => byte_val a :: bytes_of s'
  end.

(** [u "..."] is the Python string written by the literal. *)
Definition u (s : string) : str := utf8_decode_bytes (bytes_of s).

(** [str.isspace] on one character, which is also the class [\s] of a
    Unicode pattern. *)
Definition isspace (c : char) : bool :=
  ((9 <=? c) && (c <=? 13) || (28 <=? c) && (c <=? 32)
   || (c =? 133) || (c =? 160) || (c =? 5760)
   || (8192 <=? c) && (c <=? 8202)
   || (c =? 8232) || (c =? 8233) || (c =? 8239) || (c =? 8287)
   || (c =? 12288))%N.

(** First code points of the runs of ten decimal digits (category Nd,
    Unicode 14), and the mathematical digits U+1D7CE..U+1D7FF: the class
    [\d] of a Unicode pattern. *)
Definition decimal_blocks : list N :=
  [48; 1632; 1776; 1984; 2406; 2534; 2662; 2790; 2918; 3046; 3174; 3302;
   3430; 3558; 3664; 3792; 3872; 4160; 4240; 6112; 6160; 6470; 6608; 6784;
   6800; 6992; 7088; 7232; 7248; 42528; 43216; 43264; 43472; 43504; 43600;
   44016; 65296; 66720; 68912; 69734; 69872; 69942; 70096; 70384; 70736;
   70864; 71248; 71360; 71472; 71904; 72016; 72784; 73040; 73120; 92768;
   92864; 93008; 123200; 123632; 125264; 130032]%N.

Definition isdecimal (c : char) : bool :=
  existsb (fun b => (b <=? c) && (c <? b + 10))%N decimal_blocks
  || ((120782 <=? c) && (c <=? 120831))%N.

Definition is_upper_ascii (c : char) : bool := ((65 <=? c) && (c <=? 90))%N.
Definition is_lower_ascii (c : char) : bool := ((97 <=? c) && (c <=? 122))%N.
Definition is_digit_ascii (c : char) : bool := ((48 <=? c) && (c <=? 57))%N.

(** The simple lower-case mapping used by the matcher under IGNORECASE.  It
    is exact on the ASCII range and on the two other code points whose
    lower case is an ASCII letter (U+0130 and U+212A); the patterns below
    only compare its result with ASCII letters, U+0131 and U+017F, which no
    other code point is mapped to. *)
Definition sre_lower (c : char) : char :=
  if is_upper_ascii c then (c + 32)%N
  else if (c =? 304)%N then 105%N
  else if (c =? 8490)%N then 107%N
  else c.

(** The extra characters that IGNORECASE lets a lower-case letter match. *)
Definition ignorecase_fixes (lo : char) : list char :=
  if (lo =? 105)%N then [305%N]
  else if (lo =? 115)%N then [383%N]
  else [].

Fixpoint lstrip (s : str) : str :=
  match s with
  | c :: s' => if isspace c then lstrip s' else s
  | [] => []
  end.

Definition rstrip (s : str) : str := rev (lstrip (rev s)).

(** [s.strip()] *)
Definition strip (s : str) : str := rstrip (lstrip s).

(** [s.split('\n')] *)
Fixpoint split_lines (s : str) : list str :=
  match s with
  | [] => [[]]
  | c :: s' =>
    if char_eqb c LF then [] :: split_lines s'
    else match split_lines s' with
         | l :: ls => (c :: l) :: ls
         | [] => [[c]]
         end
  end.

(** ["\n".join(ls)] *)
Fixpoint join_lines (ls : list str) : str :=
  match ls with
  | [] => []
  | [l] => l
  | l :: ls' => l ++ LF :: join_lines ls'
  end.

(** [s.startswith(p)] *)
Fixpoint startswith (p s : str) : bool :=
  match p, s with
  | [], _ => true
  | x :: p', y :: s' => char_eqb x y && startswith p' s'
  | _ :: _, [] => false
  end.

(** [s.replace(old, "")]: every occurrence of [old], left to right and
    without overlap, is removed; [skip] counts the characters of an
    occurrence still to drop. *)
Fixpoint remove_from (old : str) (skip : nat) (s : str) : str :=
  match s with
  | [] => []
  | c :: s' =>
    match skip with
    | S k => remove_from old k s'
    | O => if startswith old s then remove_from old (List.length old - 1) s'
           else c :: remove_from old 0 s'
    end
  end.

Definition remove_all (old s : str) : str :=
  match old with
  | [] => s
  | _ :: _ => remove_from old 0 s
  end.

(** Truth value of a string: it is not empty. *)
Definition nonempty (s : str) : bool :=
  match s with [] => false | _ :: _ => true end.

End Text.
Import Text.

(** ** Regular expressions

    The fragment of Python's [re] syntax used by the parser, and a
    backtracking matcher: alternatives are tried left to right, a greedy
    repetition tries one more iteration before it tries to stop, a lazy one
    the other way round, and the first way of matching the whole pattern is
    the match. *)

Module Re.

Inductive regex : Type :=
| Eps                                   (* the empty pattern *)
| Chr (p : char -> bool)                (* one character: literal or class *)
| Seq (r1 r2 : regex)
| Alt (r1 r2 : regex)                   (* r1|r2 *)
| Star (greedy : bool) (r : regex)      (* r* and r*? *)
| Group (r : regex)                     (* ( r ), the group numbered 1 *)
| Bol                                   (* ^ *)
| Eol.                                  (* $ *)

(** A position of the matcher: [pos] characters are behind it, [rest] are
    ahead, [grp] is the text captured by the group if it has been closed. *)
Record mstate : Type := MState { pos : nat; rest : str; grp : option str }.

Section Exec.
Variable A : Type.

Fixpoint exec (r : regex) (st : mstate) (k : mstate -> option A)
  {struct r} : option A :=
  match r with
  | Eps => k st
  | Chr p =>
    match rest st with
    | c :: s' => if p c then k (MState (S (pos st)) s' (grp st)) else None
    | [] => None
    end
  | Seq r1 r2 => exec r1 st (fun st' => exec r2 st' k)
  | Alt r1 r2 =>
    match exec r1 st k with
    | Some a => Some a
    | None => exec r2 st k
    end
  | Star greedy r1 =>
    (fix iter (n : nat) (st : mstate) {struct n} : option A :=
       match n with
       | O => k st
       | S n' =>
         if greedy then
           match exec r1 st (fun st' =>
                   if pos st <? pos st' then iter n' st' else None) with
           | Some a => Some a
           | None => k st
           end
         else
           match k st with
           | Some a => Some a
           | None => exec r1 st (fun st' =>
                       if pos st <? pos st' then iter n' st' else None)
           end
       end) (List.length (rest st)) st
  | Group r1 =>
    exec r1 st (fun st' =>
      k (MState (pos st') (rest st')
                (Some (firstn (pos st' - pos st) (rest st)))))
  | Bol => if pos st =? 0 then k st else None
  | Eol =>
    match rest st with
    | [] => k st
    | [c] => if char_eqb c LF then k st else None
    | _ => None
    end
  end.

End Exec.

(** [pattern.match(s)]: the match that starts at the first character. *)
Definition re_match (r : regex) (s : str) : option mstate :=
  exec r (MState 0 s None) (fun st => Some st).

(** [pattern.search(s)]: the match at the leftmost position that has one.
    The result carries the text from that position on. *)
Fixpoint search_from (r : regex) (p : nat) (s : str)
  : option (str * mstate) :=
  match exec r (MState p s None) (fun st => Some st) with
  | Some st => Some (s, st)
  | None =>
    match s with
    | [] => None
    | _ :: s' => search_from r (S p) s'
    end
  end.

Definition re_search (r : regex) (s : str) : option (str * mstate) :=
  search_from r 0 s.

Definition matches (r : regex) (s : str) : bool :=
  match re_match r s with Some _ => true | None => false end.

Definition found (r : regex) (s : str) : bool :=
  match re_search r s with Some _ => true | None => false end.

(** [m.group(0)] of a match of [s] from its first character. *)
Definition group0 (s : str) (m : mstate) : str := firstn (pos m) s.

(** Pattern syntax. *)
Fixpoint cat (rs : list regex) : regex :=
  match rs with
  | [] => Eps
  | [r] => r
  | r :: rs' => Seq r (cat rs')
  end.

Definition star (r : regex) : regex := Star true r.          (* r*  *)
Definition lazy_star (r : regex) : regex := Star false r.    (* r*? *)
Definition plus (r : regex) : regex := Seq r (Star true r).  (* r+  *)
Definition lazy_plus (r : regex) : regex := Seq r (Star false r). (* r+? *)
Definition opt (r : regex) : regex := Alt r Eps.             (* r?  *)

Fixpoint alt (rs : list regex) : regex :=
  match rs with
  | [] => Chr (fun _ => false)
  | [r] => r
  | r :: rs' => Alt r (alt rs')
  end.

Definition space : regex := Chr isspace.                       (* \s *)
Definition nonspace : regex := Chr (fun c => negb (isspace c)). (* \S *)
Definition digit : regex := Chr isdecimal.                     (* \d *)
Definition dot : regex := Chr (fun c => negb (char_eqb c LF)). (* .  *)
Definition chr (c : char) : regex := Chr (char_eqb c).

(** A literal character under IGNORECASE: a cased letter matches every
    character whose lower case is its own lower case or one of the fixes;
    any other character matches itself. *)
Definition is_cased (c : char) : bool := is_upper_ascii c || is_lower_ascii c.

Definition ichar_test (c x : char) : bool :=
  if is_cased c then
    let lo := sre_lower c in
    existsb (char_eqb (sre_lower x)) (lo :: ignorecase_fixes lo)
  else char_eqb c x.

(** A set of characters under IGNORECASE. *)
Definition iset_test (cs : str) (x : char) : bool :=
  existsb (fun c => ichar_test c x) cs.

Definition lit (s : string) : regex := cat (map chr (u s)).
Definition ilit (s : string) : regex :=
  cat (map (fun c => Chr (ichar_test c)) (u s)).

End Re.
Import Re.

(** ** Values of the parser *)

(** A Python [dict] with string keys, in insertion order. *)
Definition dict (V : Type) : Type := list (str * V).

Fixpoint dict_get {V : Type} (d : dict V) (k : str) : option V :=
  match d with
  | [] => None
  | (k', v) :: d' => if str_eqb k' k then Some v else dict_get d' k
  end.

(** [d[k] = v]: the value of an existing key is replaced where it stands,
    a new key is added at the end. *)
Fixpoint dict_set {V : Type} (d : dict V) (k : str) (v : V) : dict V :=
  match d with
  | [] => [(k, v)]
  | (k', v') :: d' =>
    if str_eqb k' k then (k', v) :: d' else (k', v') :: dict_set d' k v
  end.

Definition keys {V : Type} (d : dict V) : list str := map fst d.

(** The record of one course: the dictionary with the keys "Units",
    "Lab Work" and "Details" that the default factory creates. *)
Record course : Type := Course {
  Units : list str;
  Lab_Work : str;
  Details : dict str
}.

Definition default_course : course := Course [] [] [].

(** [syllabus_data[k]] of the [defaultdict], followed by an update [f] of
    the record found or created there. *)
Definition dd_update (sd : dict course) (k : str) (f : course -> course)
  : dict course :=
  match dict_get sd k with
  | Some c => dict_set sd k (f c)
  | None => dict_set sd k (f default_course)
  end.

Definition append_unit (x : str) (c : course) : course :=
  Course (Units c ++ [x]) (Lab_Work c) (Details c).

Definition set_lab_work (x : str) (c : course) : course :=
  Course (Units c) x (Details c).

Definition set_details (f : dict str -> dict str) (c : course) : course :=
  Course (Units c) (Lab_Work c) (f (Details c)).

(** ** Exceptions *)

Inductive exn : Type := IndexError | AttributeError | OverflowError.

Inductive res (A : Type) : Type :=
| Ok (a : A)
| Raise (e : exn).
Arguments Raise {A} e.

Definition bind {A B : Type} (m : res A) (f : A -> res B) : res B :=
  match m with
  | Ok a => f a
  | Raise e => Raise e
  end.

Notation "x <- m ;; k" := (bind m (fun x => k))
  (at level 61, m at next level, right associativity).

(** [lines[i]], with Python's indexing: a negative index counts from the
    end, an index outside the list raises [IndexError]. *)
Definition line_at (lines : list str) (i : Z) : res str :=
  let n := Z.of_nat (List.length lines) in
  let j := if (i <? 0)%Z then (i + n)%Z else i in
  if (j <? 0)%Z then Raise IndexError
  else match nth_error lines (Z.to_nat j) with
       | Some l => Ok l
       | None => Raise IndexError
       end.

(** The number of values of [range(a, b)]. *)
Definition range_len (a b : Z) : nat := Z.to_nat (b - a).

(** ** The patterns of [parse_syllabus] *)

Definition c_ (a : ascii) : char := N_of_ascii a.

(** r"^\s*\"?Course Title:\s*(.*?)\"?\s*$", IGNORECASE *)
Definition course_title_pattern : regex :=
  cat [Bol; star space; opt (chr QUOTE); ilit "Course Title:"; star space;
       Group (lazy_star dot); opt (chr QUOTE); star space; Eol].

(** [A-Za-z0-9\s\(\)\-\:] *)
Definition title_char (c : char) : bool :=
  is_upper_ascii c || is_lower_ascii c || is_digit_ascii c || isspace c
  || char_eqb c (c_ "(") || char_eqb c (c_ ")") || char_eqb c (c_ "-")
  || char_eqb c (c_ ":").

(** r"^\s*\"?([A-Z][A-Za-z0-9\s\(\)\-\:]+?)\"?\s*$" *)
Definition general_title_pattern : regex :=
  cat [Bol; star space; opt (chr QUOTE);
       Group (Seq (Chr is_upper_ascii) (lazy_plus (Chr title_char)));
       opt (chr QUOTE); star space; Eol].

(** r"Course No:|Nature of the Course:|Semester:|Full Marks:|Pass Marks:|Credit Hrs:",
    IGNORECASE *)
Definition detail_keywords_re : regex :=
  alt [ilit "Course No:"; ilit "Nature of the Course:"; ilit "Semester:";
       ilit "Full Marks:"; ilit "Pass Marks:"; ilit "Credit Hrs:"].

(** r"^\s*Unit\s+[IVXLCDM]+[:\s(]", IGNORECASE *)
Definition unit_start_re : regex :=
  cat [Bol; star space; ilit "Unit"; plus space;
       plus (Chr (iset_test (u "IVXLCDM")));
       Chr (fun c => char_eqb c (c_ ":") || isspace c || char_eqb c (c_ "("))].

(** r"^\s*(Laboratory Works?:|Lab Work:)", IGNORECASE *)
Definition lab_work_start_re : regex :=
  cat [Bol; star space;
       Group (Alt (cat [ilit "Laboratory Work"; opt (Chr (ichar_test (c_ "s")));
                        chr (c_ ":")])
                  (ilit "Lab Work:"))].

(** r"^\s*(Text Books?:|Reference Books?:)", IGNORECASE *)
Definition books_start_re : regex :=
  cat [Bol; star space;
       Group (Alt (cat [ilit "Text Book"; opt (Chr (ichar_test (c_ "s")));
                        chr (c_ ":")])
                  (cat [ilit "Reference Book"; opt (Chr (ichar_test (c_ "s")));
                        chr (c_ ":")]))].

(** r"<label>\s*(\S+)", IGNORECASE *)
Definition token_after (label : string) : regex :=
  cat [ilit label; star space; Group (plus nonspace)].

(** r"Nature of the Course:\s*(.+)", IGNORECASE *)
Definition nature_re : regex :=
  cat [ilit "Nature of the Course:"; star space; Group (plus dot)].

(** r"^\s*\d+\.\d+(\.\d+)*\s+" *)
Definition decimal_item_re : regex :=
  cat [Bol; star space; plus digit; chr (c_ "."); plus digit;
       star (Group (Seq (chr (c_ ".")) (plus digit))); plus space].

(** r"^\s*[a-zA-Z][.)]\s+" *)
Definition letter_item_re : regex :=
  cat [Bol; star space; Chr (fun c => is_lower_ascii c || is_upper_ascii c);
       Chr (fun c => char_eqb c (c_ ".") || char_eqb c (c_ ")")); plus space].

(** [m.group(1)].  The group is not optional in any of the patterns above,
    so it has been closed in every match (see [exec_group_closed]). *)
Definition group1 (m : mstate) : str :=
  match grp m with
  | Some g => g
  | None => []
  end.

(** ** The parser *)

(** The local variables of [parse_syllabus] that live across iterations of
    its [while] loop. *)
Record state : Type := State {
  syllabus_data : dict course;
  current_subject : option str;        (* [None] or a title *)
  parsing_contents : bool;
  current_unit_content : list str;
  line_idx : Z
}.

Definition initial_state : state := State [] None false [] 0.

(** The truth value of [current_subject]: the title, when there is one and
    it is not the empty string. *)
Definition subject (cs : option str) : option str :=
  match cs with
  | Some (c :: s) => Some (c :: s)
  | _ => None
  end.

(** if current_subject and current_unit_content:
        unit_text = "\n".join(current_unit_content).strip()
        if unit_text: syllabus_data[current_subject]["Units"].append(unit_text) *)
Definition save_unit (sd : dict course) (cs : option str) (buf : list str)
  : dict course :=
  match subject cs, buf with
  | Some s, _ :: _ =>
    let unit_text := strip (join_lines buf) in
    if nonempty unit_text then dd_update sd s (append_unit unit_text) else sd
  | _, _ => sd
  end.

(** for i in range(start, start + n): if test(lines[i]): found; break *)
Fixpoint any_line (lines : list str) (test : str -> bool) (start : Z) (n : nat)
  : res bool :=
  match n with
  | O => Ok false
  | S n' =>
    l <- line_at lines start ;;
    if test l then Ok true else any_line lines test (start + 1)%Z n'
  end.

Definition len (lines : list str) : Z := Z.of_nat (List.length lines).

(** The lines from which the details of a title are read (lines 94-101). *)
Fixpoint details_block (lines : list str) (i : Z) (n : nat) (block : list str)
  : res (list str) :=
  match n with
  | O => Ok block
  | S n' =>
    l <- line_at lines i ;;
    let block' := block ++ [l] in
    stop <-
      (if (1 <? List.length block') && negb (nonempty (strip l))
          && (i + 1 <? len lines)%Z
       then
         nl <- line_at lines (i + 1)%Z ;;
         Ok (matches course_title_pattern nl || matches general_title_pattern nl)
       else Ok false) ;;
    if stop then Ok block' else details_block lines (i + 1)%Z n' block'
  end.

(** m = re.search(rx, details_text, re.IGNORECASE)
    if m: details[key] = post(m.group(1)) *)
Definition extract (key : string) (rx : regex) (post : str -> str)
  (details_text : str) (ds : dict str) : dict str :=
  match re_search rx details_text with
  | Some (_, m) => dict_set ds (u key) (post (group1 m))
  | None => ds
  end.

Definition extract_details (details_text : str) (ds : dict str) : dict str :=
  let ds := extract "Course No" (token_after "Course No:") id details_text ds in
  let ds := extract "Credit Hrs" (token_after "Credit Hrs:") id details_text ds in
  let ds := extract "Semester" (token_after "Semester:") id details_text ds in
  let ds := extract "Full Marks" (token_after "Full Marks:") id details_text ds in
  let ds := extract "Pass Marks" (token_after "Pass Marks:") id details_text ds in
  extract "Nature" nature_re strip details_text ds.

(** The line after [lines[i]] exists and, stripped, starts with "Course No:". *)
Definition course_no_follows (lines : list str) (i : Z) : res bool :=
  if (i + 1 <? len lines)%Z then
    l <- line_at lines (i + 1)%Z ;;
    Ok (startswith (u "Course No:") (strip l))
  else Ok false.

(** The inner [while] loop of the lab-work branch (lines 150-165), [n] lines
    before the end of the text.  It returns [temp_idx] and [lab_desc]. *)
Fixpoint lab_scan (lines : list str) (temp_idx : Z) (n : nat)
  (blank_line_count : nat) (lab_desc : list str) : res (Z * list str) :=
  match n with
  | O => Ok (temp_idx, lab_desc)
  | S n' =>
    raw <- line_at lines temp_idx ;;
    let next_line := strip raw in
    let count := if nonempty next_line then 0 else S blank_line_count in
    if negb (nonempty next_line) && (2 <=? count) then Ok (temp_idx, lab_desc)
    else
      stop <-
        (if matches books_start_re next_line then Ok true
         else if matches course_title_pattern next_line then Ok true
         else if matches general_title_pattern next_line
              then course_no_follows lines temp_idx
              else Ok false) ;;
      if stop then Ok (temp_idx, lab_desc)
      else lab_scan lines (temp_idx + 1)%Z n' count (lab_desc ++ [next_line])
  end.

(** The test of lines 173-177: the line looks like a part of the unit. *)
Definition unit_content_line (line : str) : bool :=
  matches decimal_item_re line
  || matches letter_item_re line
  || (startswith (u "  ") line || startswith [9%N] line)
  || negb (matches unit_start_re line || matches lab_work_start_re line
           || matches books_start_re line || matches course_title_pattern line).

(** Lines 56-63: the explicit marker.  The result is [potential_title] and
    [title_found_this_iteration]. *)
Definition explicit_title (lines : list str) (i : Z) (line : str)
  : res (option str * bool) :=
  match re_match course_title_pattern line with
  | Some m =>
    f <- any_line lines (found detail_keywords_re) i
           (range_len i (Z.min (i + 4) (len lines))) ;;
    Ok (Some (strip (group1 m)), f)
  | None => Ok (None, false)
  end.

(** Lines 67-81: the general title format, tried when the explicit marker
    has not been accepted. *)
Definition general_title (lines : list str) (i : Z) (line : str)
  (t : option str * bool) : res (option str * bool) :=
  if snd t then Ok t
  else
    match re_match general_title_pattern line with
    | Some m =>
      let temp_title := strip (group1 m) in
      if (4 <? List.length temp_title)
         && negb (matches unit_start_re temp_title)
         && negb (matches lab_work_start_re temp_title)
         && negb (matches books_start_re temp_title)
         && negb (found detail_keywords_re temp_title)
      then
        f <- any_line lines (fun l => startswith (u "Course No:") (strip l))
               (i + 1)%Z (range_len (i + 1) (Z.min (i + 4) (len lines))) ;;
        if f then Ok (Some temp_title, true) else Ok t
      else Ok t
    | None => Ok t
    end.

(** [title_found_this_iteration and potential_title] *)
Definition accepted_title (t : option str * bool) : option str :=
  if snd t then subject (fst t) else None.

(** Lines 84-121: a new course starts. *)
Definition start_course (lines : list str) (st : state) (title : str)
  : res state :=
  let i := line_idx st in
  let sd := save_unit (syllabus_data st) (current_subject st)
                      (current_unit_content st) in
  let sd := dd_update sd title id in
  block <- details_block lines i (range_len i (Z.min (i + 7) (len lines))) [] ;;
  let details_text := join_lines block in
  let sd := dd_update sd title (set_details (extract_details details_text)) in
  Ok (State sd (Some title) false [] i).

(** Lines 140-168: the lab-work section of the current course [s]. *)
Definition lab_work (lines : list str) (st : state) (s : str) (line : str)
  : res state :=
  let i := line_idx st in
  let sd := save_unit (syllabus_data st) (current_subject st)
                      (current_unit_content st) in
  m <- match re_match lab_work_start_re line with
       | Some m => Ok m
       | None => Raise AttributeError
       end ;;
  let lab_desc := [strip (remove_all (group0 line m) line)] in
  r <- lab_scan lines (i + 1)%Z (range_len (i + 1) (len lines)) 0 lab_desc ;;
  let sd := dd_update sd s
              (set_lab_work (strip (join_lines (filter nonempty (snd r))))) in
  Ok (State sd (current_subject st) false [] (fst r - 1)%Z).

(** The [elif] branches of lines 124-184. *)
Definition other_line (lines : list str) (st : state) (line : str)
  : res state :=
  let sd := syllabus_data st in
  let cs := current_subject st in
  let buf := current_unit_content st in
  let i := line_idx st in
  if startswith (u "Course Contents:") line then
    match subject cs with
    | Some _ => Ok (State (save_unit sd cs buf) cs true [] i)
    | None => Ok st
    end
  else
    match subject cs with
    | Some s =>
      if parsing_contents st && matches unit_start_re line then
        Ok (State (save_unit sd cs buf) cs (parsing_contents st) [line] i)
      else if matches lab_work_start_re line then lab_work lines st s line
      else if parsing_contents st && negb (Nat.eqb (List.length buf) 0)
              && nonempty line then
        if unit_content_line line then
          Ok (State sd cs (parsing_contents st) (buf ++ [line]) i)
        else
          Ok (State (save_unit sd cs buf) cs (parsing_contents st) []
                    (i - 1)%Z)
      else Ok st
    | None => Ok st
    end.

(** Lines 52-81: the title that the line starts, if it starts one. *)
Definition find_title (lines : list str) (i : Z) (line : str)
  : res (option str) :=
  t <- explicit_title lines i line ;;
  t <- general_title lines i line t ;;
  Ok (accepted_title t).

(** [line_idx += 1] *)
Definition advance (st : state) : state :=
  State (syllabus_data st) (current_subject st) (parsing_contents st)
        (current_unit_content st) (line_idx st + 1)%Z.

(** One iteration of the [while] loop (lines 51-186). *)
Definition step (lines : list str) (st : state) : res state :=
  let i := line_idx st in
  raw <- line_at lines i ;;
  let line := strip raw in
  t <- find_title lines i line ;;
  st' <- match t with
         | Some title => start_course lines st title
         | None => other_line lines st line
         end ;;
  Ok (advance st').

(** The [while] loop.  [None] stands for a loop that has not ended after
    [fuel] iterations. *)
Fixpoint run (fuel : nat) (lines : list str) (st : state)
  : option (res state) :=
  if (line_idx st <? len lines)%Z then
    match fuel with
    | O => None
    | S fuel' =>
      match step lines st with
      | Ok st' => run fuel' lines st'
      | Raise e => Some (Raise e)
      end
    end
  else Some (Ok st).

(** The condition of the final comprehension (line 195). *)
Definition substantial (v : course) : bool :=
  negb (Nat.eqb (List.length (Units v)) 0)
  || nonempty (Lab_Work v)
  || (negb (Nat.eqb (List.length (Details v)) 0)
      && match dict_get (Details v) (u "Course No") with
         | Some n => nonempty n
         | None => false
         end).

(** Every line is the subject of at most two iterations. *)
Definition iterations (lines : list str) : nat := 2 * List.length lines + 1.

(** Lines 31-190: the records collected by the scan, before the final
    clean-up. *)
Definition collect (text : str) : option (res (dict course)) :=
  let lines := split_lines text in
  match run (iterations lines) lines initial_state with
  | Some (Ok st) =>
    Some (Ok (save_unit (syllabus_data st) (current_subject st)
                        (current_unit_content st)))
  | Some (Raise e) => Some (Raise e)
  | None => None
  end.

(** Lines 193-199: the records without substantial content are left out.
    "Units" is a field of every record, so that the loop of lines 197-199
    has nothing to add. *)
Definition cleanup (sd : dict course) : dict course :=
  filter (fun kv => substantial (snd kv)) sd.

Definition parse_syllabus (text : str) : option (res (dict course)) :=
  match collect text with
  | Some (Ok sd) => Some (Ok (cleanup sd))
  | Some (Raise e) => Some (Raise e)
  | None => None
  end.

(** ** The text parsed at start-up

    The lines of the literal [pdf_text] of src/main.py (lines 205-794); the
    literal starts and ends with a line break. *)

Definition quote : string := String (ascii_of_nat 34) EmptyString.
Definition newline : string := String (ascii_of_nat 10) EmptyString.

(** The text written as the list of its lines. *)
Definition text_of_lines (ls : list string) : str :=
  u (String.concat newline ls).

Definition pdf_lines : list string := [
  EmptyString;
  "--- PAGE 1 ---";
  EmptyString;
  "Course Title: Theory of Computation";
  "Course No: CSC257";
  "Nature of the Course: Theory + Lab";
  "Semester: IV";
  "Full Marks: $60+20+20$";
  "Pass Marks: $24+8+8$";
  "Credit Hrs: 3";
  EmptyString;
  "Course Description: This course presents a study of Finite State Machines and their languages.";
  "It covers the details of finite state automata, regular expressions, context free grammars. More,";
  "the course includes design of the Push-down automata and Turing Machines. The course also";
  "includes basics of undecidabilty and intractability.";
  EmptyString;
  "Course Objectives: The main objective of the course is to introduce concepts of the models of";
  "computation and formal language approach to computation. The general objectives of this";
  "course are to, introduce concepts in automata theory and theory of computation, design different";
  "finite state machines and grammars and recognizers for different formal languages, identify";
  "different formal language classes and their relationships, determine the decidability and";
  "intractability of computational problems.";
  EmptyString;
  "Course Contents:";
  EmptyString;
  "Unit I: Basic Foundations (3 Hrs.)";
  "1.1. Review of Set Theory, Logic, Functions, Proofs";
  "1.2. Automata, Computability and Complexity: Complexity Theory, Computability Theory,";
  "Automata Theory";
  "1.3. Basic concepts of Automata Theory: Alphabets, Power of Alphabet, Kleen Closure";
  "Alphabet, Positive Closure of Alphabet, Strings, Empty String, Substring of a string,";
  "Concatenation of strings, Languages, Empty Language";
  EmptyString;
  "Unit II: Introduction to Finite Automata (8 Hrs.)";
  "2.1 Introduction to Finite Automata, Introduction of Finite State Machine";
  "2.2 Deterministic Finite Automata (DFA), Notations for DFA, Language of DFA, Extended";
  "Transition Function of DFA Non-Deterministic Finite Automaton (NFA), Notations for";
  "NFA, Language of NFA, Extended Transition";
  "2.3 Equivalence of DFA and NFA, Subset-Construction";
  "2.4 Method for reduction of NFA to DFA, Theorems for equivalence of Language accepted";
  "by DFA and NFA";
  "2.5 Finite Automaton with Epsilon Transition (Œµ - NFA), Notations for  NFA, Epsilon";
  "Closure of a State, Extended Transition Function of  NFA, Removing Epsilon";
  "Transition using the concept of Epsilon Closure, Equivalence of NFA and  -NFA,";
  "Equivalence of DFA and  - NFA";
  "2.6 Finite State Machines with output: Moore machine and Mealy Machines";
  EmptyString;
  "Unit III: Regular Expressions (6 Hrs.)";
  "3.1 Regular Expressions, Regular Operators, Regular Languages and their applications,";
  "Algebraic Rules for Regular Expressions";
  EmptyString;
  "36";
  EmptyString;
  EmptyString;
  "--- PAGE 2 ---";
  EmptyString;
  "3.2 Equivalence of Regular Expression and Finite Automata, Reduction of Regular";
  "Expression to  ‚Äì NFA, Conversion of DFA to Regular Expression";
  "3.3 Properties of Regular Languages, Pumping Lemma, Application of Pumping Lemma,";
  "Closure Properties of Regular Languages over (Union, Intersection, Complement)";
  "Minimization of Finite State Machines: Table Filling Algorithm";
  EmptyString;
  "Unit IV: Context Free Grammar (9 Hrs.)";
  "4.1 Introduction to Context Free Grammar (CFG), Components of CFG, Use of CFG,";
  "Context Free Language (CFL)";
  "4.2 Types of derivations: Bottomup and Topdown approach, Leftmost and Rightmost,";
  "Language of a grammar";
  "4.3 Parse tree and its construction, Ambiguous grammar, Use of parse tree to show ambiguity";
  "in grammar";
  "4.4 Regular Grammars: Right Linear and Left Linear, Equivalence of regular grammar and";
  "finite automata";
  "4.5 Simplification of CFG: Removal of Useless symbols, Nullable Symbols, and Unit";
  "Productions, Chomsky Normal Form (CNF), Greibach Normal Form (GNF), Backus-";
  "Naur Form (BNF)";
  "4.6 Context Sensitive Grammar, Chomsky Hierarchy Pumping Lemma for CFL, Application";
  "of Pumping Lemma, Closure Properties of CFL";
  EmptyString;
  "Unit V: Push Down Automata (7 Hrs.)";
  "5.1 Introduction to Push Down Automata (PDA), Representation of PDA, Operations of";
  "PDA, Move of a PDA, Instantaneous Description for PDA";
  "5.2 Deterministic PDA, Non Deterministic PDA, Acceptance of strings by PDA, Language";
  "of PDA";
  "5.3 Construction of PDA by Final State, Construction of PDA by Empty Stack,";
  "5.4 Conversion of PDA by Final State to PDA accepting by Empty Stack and vice-versa,";
  "Conversion of CFG to PDA, Conversion of PDA to CFG";
  EmptyString;
  "Unit VI: Turing Machines (10 Hrs.)";
  "6.1 Introduction to Turing Machines (TM), Notations of Turing Machine, Language of a";
  "Turing Machine, Instantaneous Description for Turing Machine, Acceptance of a string";
  "by a Turing Machines";
  "6.2 Turing Machine as a Language Recognizer, Turing Machine as a Computing Function,";
  "Turing Machine with Storage in its State, Turing Machine as a enumerator of stings of a";
  "language, Turing Machine as Subroutine";
  "6.3 Turing Machine with Multiple Tracks, Turing Machine with Multiple Tapes, Equivalence";
  "of Multitape-TM and Multitrack-TM, Non-Deterministic Turing Machines, Restricted";
  "Turing Machines: With Semi-infinite Tape, Multistack Machines, Counter Machines";
  "6.4 Curch Turing Thesis, Universal Turing Machine, Turing Machine and Computers,";
  "Encoding of Turing Machine, Enumerating Binary Strings, Codes of Turing Machine,";
  "Universal Turing Machine for encoding of Turing Machine";
  EmptyString;
  "37";
  EmptyString;
  EmptyString;
  "--- PAGE 3 ---";
  EmptyString;
  "Unit VII: Undecidability and Intractability (5 Hrs.)";
  "7.1 Computational Complexity, Time and Space complexity of A Turing Machine,";
  "Intractability";
  "7.2 Complexity Classes, Problem and its types: Absract, Decision, Optimization";
  "7.3 Reducibility, Turing Reducible, Circuit Satisfiability, Cook's Theorem,";
  "7.4 Undecidability, Undecidable Problems: Post's Correspondence Problem, Halting";
  "Problem and its proof, Undecidable Problem about Turing Machines";
  EmptyString;
  "Laboratory Works:";
  "The laboratory work consists of design and implementation of finite state machines like DFA,";
  "NFA, PDA, and Turing Machine. Students are highly recommended to construct Tokenizers/";
  "Lexers over/for some language. Students are advised to use regex and Perl (for using regular";
  "expressions), or any other higher level language for the laboratory works.";
  EmptyString;
  "Text Books:";
  "1. John E. Hopcroft, Rajeev Motwani, Jeffrey D. Ullman, Introduction to Automata";
  "Theory, Languages, and Computation, 3rd Edition, Pearson - Addison-Wesley.";
  EmptyString;
  "Reference Books:";
  "1. Harry R. Lewis and Christos H. Papadimitriou, Elements of the Theory of Computation,";
  "$2^{nd}$ Edition, Prentice Hall.";
  "2. Michael Sipser, Introduction to the Theory of Computation, $3^{rd}$ Edition, Thomson Course";
  "Technology";
  "3. Efim Kinber, Carl Smith, Theory of Computing: A Gentle introduction, Prentice- Hall.";
  "4. John Martin, Introduction to Languages and the Theory of Computation, 3rd Edition, Tata";
  "McGraw Hill.";
  "5. Kenneth H. Rosen, Discrete Mathematics and its Applications to Computers Science,";
  "WCB/Mc-Graw Hill.";
  EmptyString;
  "38";
  EmptyString;
  EmptyString;
  "--- PAGE 4 ---";
  EmptyString;
  "Course Title: Computer Networks";
  "Course No: CSC258";
  "Nature of the Course: Theory + Lab";
  "Semester: IV";
  "Full Marks: $60+20+20$";
  "Pass Marks: $24+8+8$";
  "Credit Hrs: 3";
  EmptyString;
  "Course Description: This course introduces concept of computer networking and discuss the";
  "different layers of networking model.";
  EmptyString;
  "Course Objective: The main objective of this course is to introduce the understanding of the";
  "concept of computer networking with its layers, topologies, protocols & standards, IPv4/IPv6";
  "addressing, Routing and Latest Networking Standards";
  EmptyString;
  "Course Contents:";
  EmptyString;
  "Unit 1: Introduction to Computer Network (6Hrs.)";
  "1.1. Definitions, Uses, Benefits";
  "1.2. Overview of Network Topologies (Star, Tree, Bus,...)";
  "1.3. Overview of Network Types (PAN, LAN, CAN, MAN,...)";
  "1.4. Networking Types (Client/Server, P2P)";
  "1.5. Overview of Protocols and Standards";
  "1.6. OSI Reference Model";
  "1.7. TCP/IP Models and its comparison with OSI.";
  "1.8. Connection and Connection-Oriented Network Services";
  "1.9. Internet, ISPs, Backbone Network Overview";
  EmptyString;
  "Unit 2: Physical Layer and Network Media (4Hrs.)";
  "2.1. Network Devices: Repeater, Hub, Switch, Bridge, Router";
  "2.2. Different types of transmission medias (wired: twisted pair, coaxial, fiber optic, Wireless:";
  "Radio waves, micro waves, infrared)";
  "2.3. Ethernet Cable Standards (UTP & Fiber cable standards)";
  "2.4. Circuit, Message & Packet Switching";
  "2.5. ISDN: Interface and Standards";
  EmptyString;
  "Unit 3: Data Link Layer (8Hrs.)";
  "3.1. Function of Data Link Layer (DLL)";
  "3.2. Overview of Logical Link Control (LLC) and Media Access Control (MAC)";
  "3.3. Framing and Flow Control Mechanisms";
  "3.4. Error Detection and Correction techniques";
  "3.5. Channel Allocation Techniques (ALOHA, Slotted ALOHA)";
  "3.6. Ethernet Standards (802.3 CSMA/CD, 802.4 Token Bus, 802.5 Token Ring)";
  "3.7. Wireless LAN: Spread Spectrum, Bluetooth, Wi-Fi";
  "3.8. Overview Virtual Circuit Switching, Frame Relay& ATM";
  "3.9. DLL Protocol: HDLC, PPP";
  EmptyString;
  "39";
  EmptyString;
  EmptyString;
  "--- PAGE 5 ---";
  EmptyString;
  "Unit 4: Network Layer (10Hrs.)";
  "4.1. Introduction and Functions";
  "4.2. IPv4 Addressing & Sub-netting";
  "4.3. Class-full and Classless Addressing";
  "4.4. IPv6 Addressing and its Features";
  "4.5. IPv4 and IPv6 Datagram Formats";
  "4.6. Comparison of IPv4 and IPv6 Addressing";
  "4.7. Example Addresses: Unicast, Multicast and Broadcast";
  "4.8. Routing";
  "4.8.1. Introduction and Definition";
  "4.8.2. Types of Routing (Static vs Dynamic, Unicast vs Multicast, Link State vs";
  "Distance Vector, Interior vs Exterior)";
  "4.8.3. Path Computation Algorithms: Bellman Ford, Dijkstra's";
  "4.8.4. Routing Protocols: RIP, OSPF & BGP";
  "4.9. Overview of IPv4 to IPv6 Transition Mechanisms";
  "4.10. Overview of ICMP/ICMPv6&NATing";
  "4.11. Overview of Network Traffic Analysis";
  "4.12. Security Concepts: Firewall & Router Access Control";
  EmptyString;
  "Unit 5: Transport Layer (6Hrs.)";
  "5.1. Introduction, Functions and Services";
  "5.2. Transport Protocols: TCP, UDP and Their Comparisons";
  "5.3. Connection Oriented and Connectionless Services";
  "5.4. Congestion Control: Open Loop & Closed Loop, TCP Congestion Control";
  "5.5. Traffic Shaping Algorithms: Leaky Bucket & Token Bucket";
  "5.6. Queuing Techniques for Scheduling";
  "5.7. Introduction to Ports and Sockets, Socket Programming";
  EmptyString;
  "Unit 6: Application Layer (7Hrs.)";
  "6.1. Introduction and Functions";
  "6.2. Web &HTTP";
  "6.3. DNS and the Query Types";
  "6.4. File Transfer and Email Protocols: FTP, SFTP, SMTP, IMAP, POP3";
  "6.5. Overview of Application Server Concepts: Proxy, Web, Mail";
  "6.6. Network Management: SNMP";
  EmptyString;
  "Unit 7: Multimedia & Future Networking (4Hrs.)";
  "7.1. Overview Multimedia Streaming Protocols: SCTP";
  "7.2. Overview of SDN and its Features, Data and Control Plane";
  "7.3. Overview of NFV";
  "7.4. Overview of NGN";
  EmptyString;
  "Laboratory Works:";
  "The lab activities under this subject should accommodate at least the following;";
  "1. Understanding of Network equipment, wiring in details";
  "2. OS (Ubuntu/CentOS/Windows) installation, practice on basic Networking commands";
  EmptyString;
  "40";
  EmptyString;
  EmptyString;
  "--- PAGE 6 ---";
  EmptyString;
  "(ifconfig/ipconfig, tcpdump, netstat, dnsip, hostname, route...)";
  "3. Overview of IP Addressing and sub-netting, static ip setting on Linux/windows machine,";
  "testing";
  "4. Introduction to Packet Tracer, creating of a LAN and connectivity test in the LAN,";
  "creation of VLAN and VLAN trunking.";
  "5. Basic Router Configuration, Static Routing Implementation";
  "6. Implementation of Dyanmic/interior/exterior routing (RIP, OSPF, BGP)";
  "7. Firewall Implementation, Router Access Control List (ACL)";
  "8. Packet capture and header analysis by wire-shark (TCP, UDP, IP)";
  "9. DNS, Web, FTP server configuration (shall use packet tracer, GNS3)";
  "10. Case Study: Network Operation Center Visit (ISP, Telecom, University Network)";
  "11. LAB Exam, Report and VIVA";
  EmptyString;
  "Text Books:";
  "1. Data Communications and Networking, 4th Edition, Behrouz A Forouzan. McGraw-Hill";
  "2. Computer Networking; A Top Down Approach Featuring The Internet, 2nd Edition,";
  "Kurose James F., Ross W. Keith PEARSON EDUCATION ASIA";
  EmptyString;
  "41";
  EmptyString;
  EmptyString;
  "--- PAGE 7 ---";
  EmptyString;
  "Course Title: Operating Systems";
  "Course No: CSC259";
  "Nature of the Course: Theory + Lab";
  "Semester: IV";
  "Full Marks: $60+20+20$";
  "Pass Marks: 24+8+8";
  "Credit Hrs: 3";
  EmptyString;
  "Course Description: This course includes the basic concepts of operating system components. It";
  "consists of process management, deadlocks and process synchronization, memory management";
  "techniques, File system implementation, and I/O device management principles. It also includes";
  "case study on Linux operating system.";
  EmptyString;
  "Course Objectives:";
  "‚Ä¢ Describe need and role of operating system.";
  "‚Ä¢ Understand OS components such a scheduler, memory manager, file system handlers and";
  "I/O device managers.";
  "‚Ä¢ Analyze and criticize techniques used in OS components";
  "‚Ä¢ Demonstrate and simulate algorithms used in OS components";
  "‚Ä¢ Identify algorithms and techniques used in different components of Linux";
  EmptyString;
  "Course Contents:";
  EmptyString;
  "Unit 1: Operating System Overview (4 Hrs.)";
  "1.1. Definition, Two views of operating system, Evolution of operating system, Types of OS.";
  "1.2. System Call, Handling System Calls, System Programs, Operating System Structures,";
  "The Shell, Open Source Operating Systems";
  EmptyString;
  "Unit 2: Process Management (10 Hrs.)";
  "2.1. Process vs Program, Multiprogramming, Process Model, Process States, Process Control";
  "Block.";
  "2.2. Threads, Thread vs Process, User and Kernel Space Threads.";
  "2.3. Inter Process Communication, Race Condition, Critical Section";
  "2.4. Implementing Mutual Exclusion: Mutual Exclusion with Busy Waiting (Disabling";
  "Interrupts, Lock Variables, Strict Alteration, Peterson's Solution, Test and Set Lock),";
  "Sleep and Wakeup, Semaphore, Monitors, Message Passing,";
  "2.5. Classical IPC problems: Producer Consumer, Sleeping Barber, Dining Philosopher";
  "Problem";
  "2.6. Process Scheduling: Goals, Batch System Scheduling (First-Come First-Served, Shortest";
  "Job First, Shortest Remaining Time Next), Interactive System Scheduling (Round-Robin";
  "Scheduling, Priority Scheduling, Multiple Queues), Overview of Real Time System";
  "Scheduling";
  EmptyString;
  "Unit 3: Process Deadlocks (6 Hrs.)";
  "3.1. Introduction, Deadlock Characterization, Preemptable and Non-preemptable Resources,";
  "Resource - Allocation Graph, Conditions for Deadlock";
  EmptyString;
  "42";
  EmptyString;
  EmptyString;
  "--- PAGE 8 ---";
  EmptyString;
  "3.2. Handling Deadlocks: Ostrich Algorithm, Deadlock prevention, Deadlock Avoidance,";
  "Deadlock Detection (For Single and Multiple Resource Instances), Recovery From";
  "Deadlock (Through Preemption and Rollback)";
  EmptyString;
  "Unit 4: Memory Management (8 Hrs.)";
  "4.1. Introduction, Monoprogramming VS. Multi-programming, Modelling";
  "Multiprogramming, Multiprogramming with fixed and variable partitions, Relocation";
  "and Protection.";
  "4.2. Memory management (Bitmaps & Linked-list), Memory Allocation Strategies";
  "4.3. Virtual memory: Paging, Page Table, Page Table Structure, Handling Page Faults,";
  "TLB's";
  "4.4. Page Replacement Algorithms: FIFO, Second Chance, LRU, Optimal, LFU, Clock, WS-";
  "Clock, Concept of Locality of Reference, Belady's Anomaly";
  "4.5. Segmentation: Need of Segmentation, its Drawbacks, Segmentation with Paging(MULTICS)";
  EmptyString;
  "Unit 5: File Management (6 Hrs.)";
  "5.1. File Overview: File Naming, File Structure, File Types, File Access, File Attributes, File";
  "Operations, Single Level, two Level and Hierarchical Directory Systems, File System";
  "Layout.";
  "5.2. Implementing Files: Contiguous allocation, Linked List Allocation, Linked List";
  "Allocation using Table in Memory, Inodes.";
  "5.3. Directory Operations, Path Names, Directory Implementation, Shared Files";
  "5.4. Free Space Management: Bitmaps, Linked List";
  EmptyString;
  "Unit 6: Device Management (6 Hrs.)";
  "6.1. Classification of IO devices, Controllers, Memory Mapped IO, DMA Operation,";
  "Interrupts";
  "6.2. Goals of IO Software, Handling IO(Programmed IO, Interrupt Driven IO, IO using";
  "DMA), IO Software Layers (Interrupt Handlers, Device Drivers)";
  "6.3. Disk Structure, Disk Scheduling (FCFS, SSTF, SCAN, CSCAN, LOOK, CLOOK), Disk";
  "Formatting (Cylinder Skew, Interleaving, Error handling), RAID";
  EmptyString;
  "Unit 7: Linux Case Study (5 Hrs.)";
  "7.1 History, Kernel Modules, Process Management, Scheduling, Inter-process";
  "Communication, Memory Management, File System Management Approaches, Device";
  "Management Approaches.";
  EmptyString;
  "Laboratory Works:";
  "The laboratory work includes solving problems in operating system. The lab work should include";
  "at least;";
  "Learn basic Linux Commands";
  "Create process, threads and implement IPC techniques";
  "Simulate process Scheduling algorithms and deadlock detection algorithms";
  "Simulate page replacement algorithms";
  "Simulate free space management techniques and disk scheduling algorithms.";
  EmptyString;
  "43";
  EmptyString;
  EmptyString;
  "--- PAGE 9 ---";
  EmptyString;
  "Text Books:";
  "1. Modern Operating Systems: Andrew S. Tanenbaum, PH1 Publication, Third edition,";
  "2008";
  EmptyString;
  "Reference Books:";
  String.concat quote ["1. Abraham Silberschatz, Peter Baer Galvin and Greg Gagne, "; "Operating System"];
  String.concat quote ["Concepts"; ", John Wiley & Sons (ASIA) Pvt. Ltd, Seventh edition, 2005."];
  String.concat quote ["2. Harvey M. Deitel, Paul J. Deitel, and David R. Choffnes, "; "Operating Systems, Prentice"];
  "Hall, Third edition, 2003.";
  EmptyString;
  "44";
  EmptyString;
  EmptyString;
  "--- PAGE 10 ---";
  EmptyString;
  "Course Title: Database Management System";
  "Course No: CSC260";
  "Nature of the Course: Theory + Lab";
  "Semester: IV";
  "Full Marks: $60+20+20$";
  "Pass Marks: $24+8+8$";
  "Credit Hrs: 3";
  EmptyString;
  "Course Description: The course covers the basic concepts of databases, database system";
  "concepts and architecture, data modeling using ER diagram, relational model, SQL, relational";
  "algebra and calculus, normalization, transaction processing, concurrency control, and database";
  "recovery.";
  EmptyString;
  "Course Objective: The main objective of this course is to introduce the basic concepts of";
  "database, data modeling techniques using entity relationship diagram, relational algebra and";
  "calculus, basic and advanced features SQL, normalization, transaction processing, concurrency";
  "control, and recovery techniques.";
  EmptyString;
  "Course Contents:";
  EmptyString;
  "Unit 1: Database and Database Users (2 Hrs.)";
  "Introduction; Characteristics of the Database Approach; Actors on the Scene; Workers behind";
  "the Scene; Advantages of Using the DBMS Approach";
  EmptyString;
  "Unit 2: Database System - Concepts and Architecture (3 Hrs.)";
  "Data Models, Schemas, and Instances; Three-Schema Architecture and Data Independence;";
  "Database Languages and Interfaces; the Database System Environment; Centralized and";
  "Client/Server Architectures for DBMSS; Classification of Database Management Systems";
  EmptyString;
  "Unit 3: Data Modeling Using the Entity-Relational Model (6 Hrs.)";
  "Using High-Level Conceptual Data Models for Database Design; Entity Types, Entity Sets,";
  "Attributes, and Keys; Relationship Types, Relationship Sets, Roles, and Structural Constraints;";
  "Weak Entity Types; ER Diagrams, Naming Conventions, and Design Issues; Relationship Types";
  "of Degree Higher Than Two; Subclasses, Superclasses, and Inheritance; Specialization and";
  "Generalization; Constraints and Characteristics of Specialization and Generalization";
  EmptyString;
  "Unit 4: The Relational Data Model and Relational Database Constraints (3 Hrs.)";
  "Relational Model Concepts; Relational Model Constraints and Relational Database Schemas;";
  "Update Operations, Transactions, and Dealing with Constraint Violations";
  EmptyString;
  "Unit 5: The Relational Algebra and Relational Calculus (5 Hrs.)";
  "Unary Relational Operations: SELECT and PROJECT; Relational Algebra Operations from Set";
  "Theory; Binary Relational Operations: JOIN and DIVISION; Additional Relational Operations;";
  "the Tuple Relational Calculus; the Domain Relational Calculus";
  EmptyString;
  "Unit 6: SQL (8 Hrs.)";
  "Data Definition and Data Types; Specifying Constraints; Basic Retrieval Queries; Complex";
  "Retrieval Queries; INSERT, DELETE, and UPDATE Statements; Views";
  EmptyString;
  "45";
  EmptyString;
  EmptyString;
  "--- PAGE 11 ---";
  EmptyString;
  "Unit 7: Relational Database Design (7 Hrs.)";
  "Relational Database Design Using ER-to-Relational Mapping; Informal Design Guidelines for";
  "Relational Schemas; Functional Dependencies; Normal Forms Based on Primary Keys; General";
  "Definitions of Second and Third Normal Forms; Boyce-Codd Normal Form; Multivalued";
  "Dependency and Fourth Normal Form; Properties of Relational Decomposition";
  EmptyString;
  "Unit 8: Introduction to Transaction Processing Concepts and Theory (4 Hrs.)";
  "Introduction to Transaction Processing; Transaction and System Concepts; Desirable Properties";
  "of Transactions; Characterizing Schedules Based on Recoverability; Characterizing Schedules";
  "Based on Serializability";
  EmptyString;
  "Unit 9: Concurrency Control Techniques (4 Hrs.)";
  "Two-Phase Locking Technique; Timestamp Ordering; Multiversion Concurrency Control;";
  "Validation (Optimistic) Techniques and Snapshot Isolation Concurrency Control";
  EmptyString;
  "Unit 10: Database Recovery Techniques (3 Hrs.)";
  "Recovery Concepts; NO-UNDO/REDO Recovery Based on Deferred Update; Recovery";
  "Technique Based on Immediate Update; Shadow Paging; Database Backup and Recovery from";
  "Catastrophic Failures";
  EmptyString;
  "Laboratory Works:";
  "The laboratory work includes writing database programs to create and query databases using";
  "basic and advanced features of structured query language (SQL).";
  EmptyString;
  "Text Books:";
  "1. Fundamentals of Database Systems; Seventh Edition; Ramez Elmasri, Shamkant B. Navathe;";
  "Pearson Education";
  "2. Database System Concepts; Sixth Edition; Avi Silberschatz, Henry F Korth, S Sudarshan;";
  "McGraw-Hill";
  EmptyString;
  "Reference Books:";
  "1. Database Management Systems; Third Edition; Raghu Ramakrishnan, Johannes Gehrke;";
  "McGraw-Hill";
  "2. A First Course in Database Systems; Jaffrey D. Ullman, Jennifer Widom; Third Edition;";
  "Pearson Education Limited";
  EmptyString;
  "46";
  EmptyString;
  EmptyString;
  "--- PAGE 12 ---";
  EmptyString;
  "Course Title: Artificial Intelligence";
  "Course No: CSC261";
  "Nature of the Course: Theory + Lab";
  "Semester: IV";
  "Full Marks: $60+20+20$";
  "Pass Marks: $24+8+8$";
  "Credit Hrs: 3";
  EmptyString;
  "Course Description: The course introduces the ideas and techniques underlying the principles";
  "and design of artificial intelligent systems. The course covers the basics and applications of AI,";
  "including: design of intelligent agents, problem solving, searching, knowledge representation";
  "systems, probabilistic reasoning, neural networks, machine learning and natural language";
  "processing.";
  EmptyString;
  "Course Objectives: The main objective of the course is to introduce fundamental concepts of";
  "Artificial Intelligence. The general objectives are to learn about computer systems that exhibit";
  "intelligent behavior, design intelligent agents, identify Al problems and solve the problems,";
  "design knowledge representation and expert systems, design neural networks for solving";
  "problems, identify different machine learning paradigms and identify their practical applications.";
  EmptyString;
  "Course Contents:";
  EmptyString;
  "Unit I: Introduction (3 Hrs.)";
  "1.1. Artificial Intelligence (AI), AI Perspectives: acting and thinking humanly, acting and";
  "thinking rationally";
  "1.2. History of AI";
  "1.3. Foundations of AI";
  "1.4. Applications of Al";
  EmptyString;
  "Unit II: Intelligent Agents (4 Hrs.)";
  "2.1. Introduction of agents, Structure of Intelligent agent, Properties of Intelligent Agents";
  "2.2. Configuration of Agents, PEAS description of Agents";
  "2.3. Types of Agents: Simple Reflexive, Model Based, Goal Based, Utility Based.";
  "2.4. Environment Types: Deterministic, Stochastic, Static, Dynamic, Observable, Semi-";
  "observable, Single Agent, Multi Agent";
  EmptyString;
  "Unit III: Problem Solving by Searching (9 Hrs.)";
  "3.1. Definition, Problem as a state space search, Problem formulation, Well-defined";
  "problems,";
  "3.2. Solving Problems by Searching, Search Strategies, Performance evaluation of search";
  "techniques";
  "3.3. Uninformed Search: Depth First Search, Breadth First Search, Depth Limited Search,";
  "Iterative Deepening Search, Bidirectional Search";
  "3.4. Informed Search: Greedy Best first search, $A^{*}$ search, Hill Climbing, Simulated";
  "Annealing";
  "3.5. Game playing, Adversarial search techniques, Mini-max Search, Alpha-Beta Pruning.";
  "3.6. Constraint Satisfaction Problems";
  EmptyString;
  "47";
  EmptyString;
  EmptyString;
  "--- PAGE 13 ---";
  EmptyString;
  "Unit IV: Knowledge Representation (14 Hrs.)";
  "4.1. Definition and importance of Knowledge, Issues in Knowledge Representation,";
  "Knowledge Representation Systems, Properties of Knowledge Representation Systems.";
  "4.2. Types of Knowledge Representation Systems: Semantic Nets, Frames, Conceptual";
  "Dependencies, Scripts, Rule Based Systems, Propositional Logic, Predicate Logic";
  "4.3. Propositional Logic(PL): Syntax, Semantics, Formal logic-connectives, truth tables,";
  "tautology, validity, well-formed-formula, Inference using Resolution, Backward";
  "Chaining and Forward Chaining";
  "4.4. Predicate Logic: FOPL, Syntax, Semantics, Quantification, Inference with FOPL: By";
  "converting into PL (Existential and universal instantiation), Unification and lifting,";
  "Inference using resolution";
  "4.5. Handling Uncertain Knowledge, Radom Variables, Prior and Posterior Probability,";
  "Inference using Full Joint Distribution, Bayes' Rule and its use, Bayesian Networks,";
  "Reasoning in Belief Networks";
  "4.6. Fuzzy Logic";
  EmptyString;
  "Unit V: Machine Learning (9 Hrs.)";
  "5.1. Introduction to Machine Learning, Concepts of Learning, Supervised, Unsupervised and";
  "Reinforcement Learning";
  "5.2. Statistical-based Learning: Naive Bayes Model";
  "5.3. Learning by Genetic Algorithm";
  "5.4. Learning with Neural Networks: Introduction, Biological Neural Networks Vs. Artificial";
  "Neural Networks (ANN), Mathematical Model of ANN, Types of ANN: Feed-forward,";
  "Recurrent, Single Layered, Multi-Layered, Application of Artificial Neural Networks,";
  "Learning by Training ANN, Supervised vs. Unsupervised Learning, Hebbian Learning,";
  "Perceptron Learning, Back-propagation Learning";
  EmptyString;
  "Unit VI: Applications of AI (6 Hrs.)";
  "6.1. Expert Systems, Development of Expert Systems";
  "6.2. Natural Language Processing: Natural Language Understanding and Natural Language";
  "Generation, Steps of Natural Language Processing";
  "6.3. Machine Vision Concepts";
  "6.4. Robotics";
  EmptyString;
  "Laboratory Works:";
  "The laboratory work consists of design and implementation of intelligent agents and expert";
  "systems, searching techniques, knowledge representation systems and machine learning";
  "techniques. Students are also advised to implement Neural Networks, Genetic Algorithms for";
  "solving practical problems of AI. Students are advised to use LISP, PROLOG, or any other high";
  "level language.";
  EmptyString;
  "Text Books:";
  "1. Stuart Russel and Peter Norvig, Artificial Intelligence A Modern Approach, Pearson";
  EmptyString;
  "48";
  EmptyString;
  EmptyString;
  "--- PAGE 14 ---";
  EmptyString;
  "Reference Books:";
  "1. E. Rich, K. Knight, Shivashankar B. Nair, Artificial Intelligence, Tata McGraw Hill.";
  "2. George F. Luger, Artificial Intelligence: Structures and Strategies for Complex Problem";
  "Solving, Benjamin/Cummings Publication";
  "3. D. W. Patterson, Artificial Intelligence and Expert Systems, Prentice Hall.";
  "4. P. H. Winston, Artificial Intelligence, Addison Wesley.";
  EmptyString;
  "49";
  EmptyString
]%string.

Definition pdf_text : str := text_of_lines pdf_lines.

(** ** Documents of the scenarios of the specification *)

(** A course whose details are a course number and a semester only, with
    the two lines in either order, under an explicit and under a heuristic
    title. *)
Definition details_doc_1 : str :=
  text_of_lines ["Course Title: Database Management System";
                 "Course No: CSC260"; "Semester: IV"]%string.

Definition details_doc_2 : str :=
  text_of_lines ["Course Title: Database Management System";
                 "Semester: IV"; "Course No: CSC260"]%string.

Definition details_doc_3 : str :=
  text_of_lines ["Database Management System"; "Semester: IV";
                 "Course No: CSC260"; EmptyString; "Course Contents:";
                 "Unit I: Intro"]%string.

(** A course with three consecutive units, and one in which a unit is
    repeated word for word. *)
Definition units_doc : str :=
  text_of_lines ["Course Title: Algorithms"; "Course No: CSC300";
                 "Course Contents:"; "Unit I: Basics"; "1.1 Sets";
                 "Unit II: Sorting"; "2.1 Quick sort"; "Unit III: Graphs";
                 "3.1 Paths"]%string.

Definition repeated_units_doc : str :=
  text_of_lines ["Course Title: Algorithms"; "Course No: CSC300";
                 "Course Contents:"; "Unit I: Basics"; "1.1 Sets";
                 "Unit I: Basics"; "1.1 Sets"]%string.

(** A title line that carries its own detail keyword, and nothing after. *)
Definition title_with_keyword_doc : str :=
  text_of_lines ["Course Title: Algorithms Course No: CSC300"]%string.

(** A content heading with text after the colon. *)
Definition contents_with_text_doc : str :=
  text_of_lines ["Course Title: X"; "Semester: IV";
                 "Course Contents: overview"; "Unit I: Intro"]%string.

(** A lab-work section followed by two blank lines. *)
Definition lab_doc : list str :=
  map u ["Course Title: X"; "Course No: C1"; "Laboratory Works: do labs";
         "more"; EmptyString; "still"; EmptyString; EmptyString; "after";
         "Unit I: x"]%string.

(** * The code around the parser

    The parts of the application window and of its table model that
    compute on the parsed records and on the list of tasks, without their
    widgets. *)

(** ** The chapter selector *)

(** The characters at which [str.splitlines] ends a line. *)
Definition is_linebreak (c : char) : bool :=
  ((10 <=? c) && (c <=? 13) || (28 <=? c) && (c <=? 30)
   || (c =? 133) || (c =? 8232) || (c =? 8233))%N.

(** [s.splitlines()], [cur] being the line read so far: a carriage return
    and the line feed after it end one line, and no empty line is added
    after the last line break. *)
Fixpoint splitlines_from (cur : str) (s : str) : list str :=
  match s with
  | [] => match cur with [] => [] | _ :: _ => [cur] end
  | c :: s' =>
    if is_linebreak c then
      cur :: match s' with
             | d :: s'' =>
               if ((c =? 13) && (d =? 10))%N then splitlines_from [] s''
               else splitlines_from [] s'
             | [] => []
             end
    else splitlines_from (cur ++ [c]) s'
  end.

Definition splitlines (s : str) : list str := splitlines_from [] s.

(** [str(n)] for a natural number. *)
Fixpoint uint_digits (d : Decimal.uint) : str :=
  match d with
  | Decimal.Nil => []
  | Decimal.D0 d => 48%N :: uint_digits d
  | Decimal.D1 d => 49%N :: uint_digits d
  | Decimal.D2 d => 50%N :: uint_digits d
  | Decimal.D3 d => 51%N :: uint_digits d
  | Decimal.D4 d => 52%N :: uint_digits d
  | Decimal.D5 d => 53%N :: uint_digits d
  | Decimal.D6 d => 54%N :: uint_digits d
  | Decimal.D7 d => 55%N :: uint_digits d
  | Decimal.D8 d => 56%N :: uint_digits d
  | Decimal.D9 d => 57%N :: uint_digits d
  end.

Definition str_of_nat (n : nat) : str := uint_digits (Nat.to_uint n).

Definition select_chapter : str := u "-- Select Ongoing Chapter --".
Definition no_units_found : str := u "(No Units Found)".

(** The list comprehension of lines 1181-1184, from index [idx] on. *)
Fixpoint unit_titles_list (idx : nat) (units : list str) : list str :=
  match units with
  | [] => []
  | unit_content :: units' =>
    match splitlines unit_content with
    | l :: _ => strip l
    | [] => u "Unit " ++ str_of_nat (idx + 1)
    end :: unit_titles_list (S idx) units'
  end.

(** Lines 1177-1188.  "Units" is a field of every record. *)
Definition _get_unit_titles_for_subject (subject_data : course) : list str :=
  let titles := [select_chapter] in
  match Units subject_data with
  | _ :: _ => titles ++ unit_titles_list 0 (Units subject_data)
  | [] => titles ++ [no_units_found]
  end.

(** [del d[k]] *)
Fixpoint dict_del {V : Type} (d : dict V) (k : str) : dict V :=
  match d with
  | [] => []
  | (k', v) :: d' => if str_eqb k' k then d' else (k', v) :: dict_del d' k
  end.

(** [k in d] *)
Definition dict_mem {V : Type} (d : dict V) (k : str) : bool :=
  match dict_get d k with Some _ => true | None => false end.

(** A value of the mapping of ongoing chapters, which is read from a JSON
    file: a string, or a JSON value of another kind. *)
Inductive chapter (J : Type) : Type :=
| Str (s : str)
| NonStr (j : J).
Arguments Str {J} s.
Arguments NonStr {J} j.

Section Ongoing.
Variable J : Type.

(** [ongoing_chapters.get(subject_name) != selected_text] *)
Definition differs (v : option (chapter J)) (selected_text : str) : bool :=
  match v with
  | Some (Str s) => negb (str_eqb s selected_text)
  | _ => true
  end.

(** Lines 1190-1205, on the mapping of ongoing chapters.  [current_item] is
    the text of the current item of the list of subjects, if there is one;
    the result is the mapping and [needs_save], on which the mapping is
    written to its file. *)
Definition on_ongoing_chapter_changed (current_item : option str)
  (selected_text : str) (ongoing_chapters : dict (chapter J))
  : dict (chapter J) * bool :=
  match current_item with
  | None => (ongoing_chapters, false)
  | Some subject_name =>
    if nonempty selected_text
       && negb (existsb (str_eqb selected_text)
                        [select_chapter; no_units_found])
    then
      if differs (dict_get ongoing_chapters subject_name) selected_text
      then (dict_set ongoing_chapters subject_name (Str selected_text), true)
      else (ongoing_chapters, false)
    else if dict_mem ongoing_chapters subject_name
    then (dict_del ongoing_chapters subject_name, true)
    else (ongoing_chapters, false)
  end.

End Ongoing.

(** ** The table of tasks *)

(** The values of the fields of a task.  A date is a day number, a
    date-time a day number and a time of the day. *)
Inductive value : Type :=
| VNone
| VStr (s : str)
| VDate (day : Z)                       (* datetime.date *)
| VDateTime (day : Z) (time : Z)        (* datetime.datetime *)
| VQDate (day : Z).                     (* QDate *)

Definition task : Type := dict value.

(** QModelIndex *)
Inductive index : Type :=
| Invalid
| Valid (row column : Z).

Inductive role : Type := DisplayRole | EditRole | OtherRole.

Definition role_eqb (a b : role) : bool :=
  match a, b with
  | DisplayRole, DisplayRole | EditRole, EditRole | OtherRole, OtherRole => true
  | _, _ => false
  end.

(** What one default row reads from the clock: [datetime.now()] and the
    two values of [date.today()]. *)
Record reading : Type := Reading {
  now : Z * Z;
  today : Z;
  today' : Z
}.

Module TaskTableModel.

(** The attributes [_data] and [headers] of the model. *)
Record model : Type := Model {
  _data : list task;
  headers : list str
}.

Definition rowCount (self : model) : Z := Z.of_nat (List.length (_data self)).
Definition columnCount (self : model) : Z :=
  Z.of_nat (List.length (headers self)).

(** QAbstractTableModel.index(row, column) *)
Definition index_of (self : model) (row column : Z) : index :=
  if ((0 <=? row) && (row <? rowCount self)
      && (0 <=? column) && (column <? columnCount self))%Z
  then Valid row column else Invalid.

(** [l.insert(i, x)] *)
Definition list_insert {A : Type} (l : list A) (i : Z) (x : A) : list A :=
  let n := Z.of_nat (List.length l) in
  let j := if (i <? 0)%Z then Z.max 0 (i + n) else Z.min i n in
  firstn (Z.to_nat j) l ++ x :: skipn (Z.to_nat j) l.

(** Lines 878-882: the row with every header at [None], then the four
    default values. *)
Definition default_task (hs : list str) (r : reading) : task :=
  let t := fold_left (fun t key => dict_set t key VNone) hs [] in
  let t := dict_set t (u "Status") (VStr (u "Pending")) in
  let t := dict_set t (u "Timestamp")
                    (VDateTime (fst (now r)) (snd (now r))) in
  let t := dict_set t (u "Assigned") (VDate (today r)) in
  dict_set t (u "Submit By") (VDate (today' r + 7)).

(** The loop of lines 877-883, from iteration [i] on. *)
Fixpoint insert_loop (hs : list str) (clock : nat -> reading) (position : Z)
  (i rows : nat) (data : list task) : list task :=
  match rows with
  | O => data
  | S rows' =>
    insert_loop hs clock position (S i) rows'
      (list_insert data (position + Z.of_nat i) (default_task hs (clock i)))
  end.

(** An integer that Qt takes as a C [int]; for one outside this range the
    call raises [OverflowError]. *)
Definition fits_int (z : Z) : bool :=
  ((-2147483648 <=? z) && (z <=? 2147483647))%Z.

(** Lines 874-885.  [clock i] is what the row of iteration [i] reads from
    the clock.  [beginInsertRows] takes the first and the last new row as C
    integers, before any row is inserted. *)
Definition insertRows (self : model) (clock : nat -> reading)
  (position rows : Z) : res (model * bool) :=
  let position := Z.max 0 (Z.min position (rowCount self)) in
  if fits_int position && fits_int (position + rows - 1) then
    Ok (Model (insert_loop (headers self) clock position 0 (Z.to_nat rows)
                           (_data self))
              (headers self), true)
  else Raise OverflowError.

(** [del l[i]] for an index within the list. *)
Definition list_del {A : Type} (l : list A) (i : Z) : list A :=
  firstn (Z.to_nat i) l ++ skipn (S (Z.to_nat i)) l.

(** The loop of lines 891-895. *)
Fixpoint remove_loop (position : Z) (rows : nat) (data : list task)
  : list task :=
  match rows with
  | O => data
  | S rows' =>
    if (position <? Z.of_nat (List.length data))%Z
    then remove_loop position rows' (list_del data position)
    else data
  end.

(** Lines 887-897, for the calls in which [position] and
    [position + rows - 1] are C integers, which [beginRemoveRows] needs
    past the test of line 888: they are when [rows] is not negative and
    the table has fewer than 2147483648 rows, as a Qt model has. *)
Definition removeRows (self : model) (position rows : Z) : model * bool :=
  if ((position <? 0) || (rowCount self <? position + rows))%Z
  then (self, false)
  else (Model (remove_loop position (Z.to_nat rows) (_data self))
              (headers self), true).

(** Lines 902-905. *)
Definition get_row_data (self : model) (row_index : Z) : option task :=
  if ((0 <=? row_index) && (row_index <? rowCount self))%Z
  then nth_error (_data self) (Z.to_nat row_index)
  else None.

(** The conversion of lines 861-868, for the values that the application
    passes. *)
Definition py_value (v : value) : value :=
  match v with
  | VQDate d => VDate d
  | _ => v
  end.

(** [l[i] = x] for an index within the list. *)
Definition list_set {A : Type} (l : list A) (i : Z) (x : A) : list A :=
  firstn (Z.to_nat i) l ++ x :: skipn (S (Z.to_nat i)) l.

(** Lines 850-872. *)
Definition setData (self : model) (idx : index) (v : value) (r : role)
  : res (model * bool) :=
  match idx with
  | Invalid => Ok (self, false)
  | Valid row column =>
    if negb (role_eqb r EditRole) then Ok (self, false)
    else if negb ((0 <=? row) && (row <? rowCount self))%Z
    then Ok (self, false)
    else
      col_key <- line_at (headers self) column ;;
      match nth_error (_data self) (Z.to_nat row) with
      | Some t =>
        Ok (Model (list_set (_data self) row (dict_set t col_key (py_value v)))
                  (headers self), true)
      | None => Raise IndexError
      end
  end.

End TaskTableModel.

(** ** The task form *)

(** What the handlers read from the widgets of the form. *)
Record form : Type := Form {
  task_subject_combo : str;             (* currentText() *)
  task_type_combo : str;                (* currentText() *)
  task_desc_edit : str;                 (* text() *)
  task_assigned_date : Z;               (* date().toPyDate() *)
  task_submit_date : Z;                 (* date().toPyDate() *)
  task_status_combo : str               (* currentText() *)
}.

(** Lines 1249-1274; [None] comes with a warning to the user. *)
Definition _get_task_data_from_form (f : form) : option task :=
  let desc := strip (task_desc_edit f) in
  if negb (nonempty desc) then None
  else
    let subject := task_subject_combo f in
    if str_eqb subject (u "-- Select Subject --")
       || str_eqb subject (u "-- No Subjects --")
    then None
    else
      let assigned := task_assigned_date f in
      let submit := task_submit_date f in
      if (submit <? assigned)%Z then None
      else Some [(u "Subject", VStr subject);
                 (u "Type", VStr (task_type_combo f));
                 (u "Description", VStr desc);
                 (u "Assigned", VDate assigned);
                 (u "Submit By", VDate submit);
                 (u "Status", VStr (task_status_combo f))].

Definition task_headers : list str :=
  map u ["Subject"; "Type"; "Description"; "Assigned"; "Submit By"; "Status";
         "Timestamp"]%string.

(** Lines 1289-1290 and 1325-1326: a date under "Assigned" or "Submit By"
    is passed as a [QDate]. *)
Definition date_for_model (header : str) (v : value) : value :=
  if existsb (str_eqb header) [u "Assigned"; u "Submit By"] then
    match v with
    | VDate d => VQDate d
    | VDateTime d _ => VQDate d
    | _ => v
    end
  else v.

(** The loop of lines 1285-1291, from column [col_idx] on. *)
Fixpoint add_task_loop (m : TaskTableModel.model) (row : Z) (task_data : task)
  (col_idx : nat) (hs : list str) : res TaskTableModel.model :=
  match hs with
  | [] => Ok m
  | header :: hs' =>
    let idx := TaskTableModel.index_of m row (Z.of_nat col_idx) in
    let value_to_set :=
      match dict_get task_data header with
      | Some v => v
      | None => VNone
      end in
    r <- TaskTableModel.setData m idx (date_for_model header value_to_set)
                                EditRole ;;
    add_task_loop (fst r) row task_data (S col_idx) hs'
  end.

(** Lines 1276-1291, on the table model: the rows after [add_task], for
    the form [f] and the time [stamp] read by the handler. *)
Definition add_task (m : TaskTableModel.model) (f : form) (stamp : Z * Z)
  (clock : nat -> reading) : res TaskTableModel.model :=
  match _get_task_data_from_form f with
  | None => Ok m
  | Some task_data =>
    let task_data :=
      dict_set task_data (u "Timestamp")
               (VDateTime (fst stamp) (snd stamp)) in
    let row_to_insert_at := 0%Z in
    r <- TaskTableModel.insertRows m clock row_to_insert_at 1 ;;
    add_task_loop (fst r) row_to_insert_at task_data 0 task_headers
  end.

(** The loop of lines 1321-1327, from column [col_idx] on. *)
Fixpoint update_task_loop (m : TaskTableModel.model) (row : Z)
  (task_data : task) (col_idx : nat) (hs : list str)
  : res TaskTableModel.model :=
  match hs with
  | [] => Ok m
  | header :: hs' =>
    match dict_get task_data header with
    | Some value_to_set =>
      let idx := TaskTableModel.index_of m row (Z.of_nat col_idx) in
      r <- TaskTableModel.setData m idx (date_for_model header value_to_set)
                                  EditRole ;;
      update_task_loop (fst r) row task_data (S col_idx) hs'
    | None => update_task_loop m row task_data (S col_idx) hs'
    end
  end.

(** Lines 1302-1327, on the table model.  [selected] is the row of the
    first selected index, if a row is selected. *)
Definition update_task (m : TaskTableModel.model) (selected : option Z)
  (f : form) (stamp : Z * Z) : res TaskTableModel.model :=
  match selected with
  | None => Ok m
  | Some model_row_index =>
    if negb ((0 <=? model_row_index)
             && (model_row_index <? TaskTableModel.rowCount m))%Z
    then Ok m
    else
      match _get_task_data_from_form f with
      | None => Ok m
      | Some task_data_from_form =>
        match TaskTableModel.get_row_data m model_row_index with
        | Some original_task =>
          let timestamp :=
            match dict_get original_task (u "Timestamp") with
            | Some v => v
            | None => VDateTime (fst stamp) (snd stamp)
            end in
          let task_data_from_form :=
            dict_set task_data_from_form (u "Timestamp") timestamp in
          update_task_loop m model_row_index task_data_from_form 0
                           task_headers
        | None => Raise AttributeError
        end
      end
  end.

(** * Vocabulary of the properties *)

(** A string that does not start with a white-space character. *)
Definition tight_start (s : str) : Prop :=
  match s with
  | [] => True
  | c :: _ => isspace c = false
  end.

(** A string that is its own [strip]: no white space at either end. *)
Definition stripped (s : str) : Prop := strip s = s.

(** The first line of a text. *)
Fixpoint first_line (s : str) : str :=
  match s with
  | [] => []
  | c :: s' => if char_eqb c LF then [] else c :: first_line s'
  end.

(** A unit text as the scan stores it: not blank, and its first line is
    a unit heading. *)
Definition good_unit (x : str) : Prop :=
  strip x <> [] /\ matches unit_start_re (first_line x) = true.

(** The unit buffer is empty or starts with a stripped heading line. *)
Definition good_buf (buf : list str) : Prop :=
  match buf with
  | [] => True
  | h :: _ => stripped h /\ ~ In LF h /\ matches unit_start_re h = true
  end.

Record good_data (sd : dict course) : Prop := GoodData {
  good_nodup : NoDup (keys sd);
  good_keys : Forall (fun k => k <> []) (keys sd);
  good_units : Forall (fun kv => Forall good_unit (Units (snd kv))) sd
}.

(** What is left to do: two units per line not yet passed, and one more
    while a unit is in the buffer. *)
Definition measure (lines : list str) (st : state) : Z :=
  (2 * (len lines - line_idx st)
  + match current_unit_content st with [] => 0 | _ :: _ => 1 end)%Z.

Record inv (lines : list str) (st : state) : Prop := Inv {
  inv_idx : (0 <= line_idx st <= len lines)%Z;
  inv_data : good_data (syllabus_data st);
  inv_buf : good_buf (current_unit_content st)
}.

(** Title, course number and number of units of every record. *)
Definition course_summary (d : dict course)
  : list (str * option str * nat) :=
  map (fun kv => (fst kv, dict_get (Details (snd kv)) (u "Course No"),
                  List.length (Units (snd kv)))) d.

Definition summary_of (r : option (res (dict course)))
  : option (list (str * option str * nat)) :=
  match r with
  | Some (Ok d) => Some (course_summary d)
  | _ => None
  end.

Definition pdf_courses (n1 n2 n3 n4 n5 : nat)
  : list (str * option str * nat) :=
  [(u "Theory of Computation", Some (u "CSC257"), n1);
   (u "Computer Networks", Some (u "CSC258"), n2);
   (u "Operating Systems", Some (u "CSC259"), n3);
   (u "Database Management System", Some (u "CSC260"), n4);
   (u "Artificial Intelligence", Some (u "CSC261"), n5)].

Definition csc260_details : dict str :=
  [(u "Course No", u "CSC260"); (u "Semester", u "IV")].

(** Some line among [lines[i]] and the three lines after it contains a
    detail keyword. *)
Definition keyword_window (lines : list str) (i : Z) : Prop :=
  exists (j : Z) (l : str),
    (i <= j < Z.min (i + 4) (len lines))%Z /\
    nth_error lines (Z.to_nat j) = Some l /\
    found detail_keywords_re l = true.

(** Some line among the three lines after [lines[i]] contains a detail
    keyword: the window of the specification. *)
Definition keyword_follows (lines : list str) (i : Z) : Prop :=
  exists (j : Z) (l : str),
    (i < j <= i + 3)%Z /\
    nth_error lines (Z.to_nat j) = Some l /\
    found detail_keywords_re l = true.

(** The lines from index [a] to index [b], [b] excluded. *)
Definition slice (lines : list str) (a b : Z) : list str :=
  firstn (Z.to_nat (b - a)) (skipn (Z.to_nat a) lines).

(** Line [j] ends a lab-work text whose first line after the heading is
    [start], by the tests of lines 152-162: it is the second of two
    consecutive blank lines, a books heading, a "Course Title:" line, or a
    line of the general title format with a "Course No:" line right after
    it.  [lab_stop_claimed] below is the terminator in the words of the
    specification. *)
Definition lab_stop (lines : list str) (start j : Z) : Prop :=
  exists raw,
    nth_error lines (Z.to_nat j) = Some raw /\
    ((strip raw = [] /\ (start < j)%Z /\
      exists prev, nth_error lines (Z.to_nat (j - 1)) = Some prev /\
                   strip prev = [])
     \/ matches books_start_re (strip raw) = true
     \/ matches course_title_pattern (strip raw) = true
     \/ (matches general_title_pattern (strip raw) = true /\
         exists next, nth_error lines (Z.to_nat (j + 1)) = Some next /\
                      startswith (u "Course No:") (strip next) = true)).

(** The iteration on line [raw] takes the lab-work branch for the current
    course [s]: no title is accepted on the line, the line neither starts
    the content section nor a unit, and it has a lab-work heading. *)
Definition lab_heading_detected (lines : list str) (st : state)
  (raw s : str) : Prop :=
  line_at lines (line_idx st) = Ok raw /\
  find_title lines (line_idx st) (strip raw) = Ok None /\
  startswith (u "Course Contents:") (strip raw) = false /\
  subject (current_subject st) = Some s /\
  parsing_contents st && matches unit_start_re (strip raw) = false /\
  matches lab_work_start_re (strip raw) = true.

(** The texts that a pattern can consume, with the content of the group
    before and after: what a match of the pattern is made of, whatever the
    order in which the matcher tries the alternatives.  The assertions [^]
    and [$] consume nothing. *)
Inductive lang : regex -> str -> option str -> option str -> Prop :=
| L_Eps g : lang Eps [] g g
| L_Chr p c g : p c = true -> lang (Chr p) [c] g g
| L_Seq r1 r2 w1 w2 g g1 g2 :
    lang r1 w1 g g1 -> lang r2 w2 g1 g2 -> lang (Seq r1 r2) (w1 ++ w2) g g2
| L_Alt1 r1 r2 w g g1 : lang r1 w g g1 -> lang (Alt r1 r2) w g g1
| L_Alt2 r1 r2 w g g1 : lang r2 w g g1 -> lang (Alt r1 r2) w g g1
| L_Star0 b r g : lang (Star b r) [] g g
| L_StarS b r w1 w2 g g1 g2 :
    lang r w1 g g1 -> lang (Star b r) w2 g1 g2 ->
    lang (Star b r) (w1 ++ w2) g g2
| L_Group r w g g1 : lang r w g g1 -> lang (Group r) w g (Some w)
| L_Bol g : lang Bol [] g g
| L_Eol g : lang Eol [] g g.


(** A line as the scan stores it: not empty, without white space at either
    end and without the line feed [LF], the character at which the text is
    split.  Other characters that end a line elsewhere (a carriage return,
    a form feed, U+2028, ...) may stand inside it. *)
Definition clean_line (l : str) : Prop :=
  l <> [] /\ stripped l /\ ~ In LF l.

(** The trimmed form of a line of the text, when it is not empty. *)
Definition text_line (lines : list str) (l : str) : Prop :=
  l <> [] /\ exists raw, In raw lines /\ l = strip raw.

(** One or more such lines, joined by [LF]. *)
Definition text_block (lines : list str) (x : str) : Prop :=
  exists ls, ls <> [] /\ Forall (text_line lines) ls /\ x = join_lines ls.

(** Clean lines joined by [LF]; the empty text has none. *)
Definition clean_text (x : str) : Prop :=
  exists ls, Forall clean_line ls /\ x = join_lines ls.

(** The keys that the scan writes into "Details" (lines 105-121). *)
Definition detail_names : list str :=
  map u ["Course No"; "Credit Hrs"; "Semester"; "Full Marks"; "Pass Marks";
         "Nature"]%string.

(** A value captured by [\S+]: one or more characters, none of them white
    space. *)
Definition token (x : str) : Prop :=
  x <> [] /\ Forall (fun c => isspace c = false) x.

(** The value stored under a key of "Details": a token, or for "Nature" a
    text without white space at either end and without [LF]. *)
Definition detail_value (k x : str) : Prop :=
  if str_eqb k (u "Nature") then stripped x /\ ~ In LF x else token x.

Definition details_ok (ds : dict str) : Prop :=
  NoDup (keys ds) /\
  Forall (fun kv => In (fst kv) detail_names /\ detail_value (fst kv) (snd kv))
         ds.

Definition tidy_course (lines : list str) (c : course) : Prop :=
  Forall (text_block lines) (Units c) /\ clean_text (Lab_Work c) /\
  details_ok (Details c).

(** What the scan keeps true of its variables, beside [inv]. *)
Record tidy (lines : list str) (st : state) : Prop := Tidy {
  tidy_keys : Forall clean_line (keys (syllabus_data st));
  tidy_records :
    Forall (fun kv => tidy_course lines (snd kv)) (syllabus_data st);
  tidy_subject : forall s, current_subject st = Some s -> s = [] \/ clean_line s;
  tidy_buf : Forall (text_line lines) (current_unit_content st)
}.


(** A potential title is the trimmed form of a piece of the line. *)
Definition piece_of (line : str) (t : option str * bool) : Prop :=
  forall x, fst t = Some x -> exists g, incl g line /\ x = strip g.

(** The records [sd'] extend the records [sd]: the courses of [sd] come
    first and in the same order, and the units of each of them are the
    first units of the same course in [sd'].  Nothing is said of the
    lab-work text and of the details, which the scan can replace. *)
Definition grows (sd sd' : dict course) : Prop :=
  (exists more, keys sd' = keys sd ++ more) /\
  forall k c, dict_get sd k = Some c ->
    exists c' more, dict_get sd' k = Some c' /\ Units c' = Units c ++ more.

(** No course has been accepted yet. *)
Definition idle (st : state) : Prop :=
  syllabus_data st = [] /\ current_subject st = None /\
  current_unit_content st = [].

(** The content section of no course has been entered. *)
Definition no_contents (st : state) : Prop :=
  parsing_contents st = false /\ current_unit_content st = [] /\
  Forall (fun kv => Units (snd kv) = []) (syllabus_data st).

(** An entry of the chapter selector for the unit text [x]: the trimmed
    first line of [x], which is not empty and is none of the two
    placeholders of the selector. *)
Definition chapter_entry (x t : str) : Prop :=
  (exists l ls, splitlines x = l :: ls /\ t = strip l) /\
  t <> [] /\ t <> select_chapter /\ t <> no_units_found.

(** The row that the form describes, stamped [stamp]. *)
Definition task_of_form (f : form) (stamp : Z * Z) : task :=
  [(u "Subject", VStr (task_subject_combo f));
   (u "Type", VStr (task_type_combo f));
   (u "Description", VStr (strip (task_desc_edit f)));
   (u "Assigned", VDate (task_assigned_date f));
   (u "Submit By", VDate (task_submit_date f));
   (u "Status", VStr (task_status_combo f));
   (u "Timestamp", VDateTime (fst stamp) (snd stamp))].

(** The form passes the checks of [_get_task_data_from_form]. *)
Definition valid_form (f : form) : Prop :=
  strip (task_desc_edit f) <> [] /\
  task_subject_combo f <> u "-- Select Subject --" /\
  task_subject_combo f <> u "-- No Subjects --" /\
  (task_assigned_date f <= task_submit_date f)%Z.

(** The row [t] after the loop of [update_task] over the headers [hs]. *)
Definition updated_row (task_data : task) (hs : list str) (t : task) : task :=
  fold_left
    (fun t header =>
       match dict_get task_data header with
       | Some v =>
         dict_set t header
                  (TaskTableModel.py_value (date_for_model header v))
       | None => t
       end) hs t.

(** The group is closed in every match of the pattern. *)
Fixpoint closes (r : regex) : bool :=
  match r with
  | Group _ => true
  | Seq r1 r2 => closes r1 || closes r2
  | Alt r1 r2 => closes r1 && closes r2
  | _ => false
  end.

(** ** Iterations of the scan *)

(** The variables after [n] iterations of the [while] loop from [st];
    [None] when the loop has ended, or has raised, before. *)
Fixpoint iterate (n : nat) (lines : list str) (st : state) : option state :=
  match n with
  | O => Some st
  | S n' =>
    if (line_idx st <? len lines)%Z then
      match step lines st with
      | Ok st' => iterate n' lines st'
      | Raise _ => None
      end
    else None
  end.

(** ** The end of a lab-work text, as the specification words it *)

(** A line that the heuristic recognizer of titles takes for a title, the
    lines after it set aside: a capitalized phrase of more than four
    characters that is no unit, lab-work or books heading and holds no
    detail keyword (the tests of lines 68-75). *)
Definition heuristic_title_line (line : str) : bool :=
  match re_match general_title_pattern line with
  | Some m =>
    let temp_title := strip (group1 m) in
    (4 <? List.length temp_title)
    && negb (matches unit_start_re temp_title)
    && negb (matches lab_work_start_re temp_title)
    && negb (matches books_start_re temp_title)
    && negb (found detail_keywords_re temp_title)
  | None => false
  end.

(** [lab_stop] with the heuristic title of the specification in the place
    of a line of the general title format. *)
Definition lab_stop_claimed (lines : list str) (start j : Z) : Prop :=
  exists raw,
    nth_error lines (Z.to_nat j) = Some raw /\
    ((strip raw = [] /\ (start < j)%Z /\
      exists prev, nth_error lines (Z.to_nat (j - 1)) = Some prev /\
                   strip prev = [])
     \/ matches books_start_re (strip raw) = true
     \/ matches course_title_pattern (strip raw) = true
     \/ (heuristic_title_line (strip raw) = true /\
         exists next, nth_error lines (Z.to_nat (j + 1)) = Some next /\
                      startswith (u "Course No:") (strip next) = true)).

(** A lab-work section followed by a short capitalized line and a
    "Course No:" line. *)
Definition short_title_doc : list str :=
  map u ["Course Title: X"; "Course No: C1"; "Lab Work: a"; "Abc";
         "Course No: Z"]%string.

(** ** The lines from which details are read *)

(** The line looks like the start of a title (lines 99-100). *)
Definition title_like (l : str) : bool :=
  matches course_title_pattern l || matches general_title_pattern l.

(** Line [j] is blank and the line after it looks like a title. *)
Definition window_cut (lines : list str) (j : Z) : bool :=
  match nth_error lines (Z.to_nat j), nth_error lines (Z.to_nat (j + 1)) with
  | Some l, Some nl => negb (nonempty (strip l)) && title_like nl
  | _, _ => false
  end.

(** Line [j] is in the window of the title on line [i]: it is one of the
    seven lines from the title on, and no line between the title and it is
    a blank line followed by a title-like line. *)
Definition in_window (lines : list str) (i j : Z) : Prop :=
  (i <= j < Z.min (i + 7) (len lines))%Z /\
  forall j', (i < j' < j)%Z -> window_cut lines j' = false.

(** The two detail lines of C7, in one order or the other. *)
Definition csc260_lines (d1 d2 : str) : Prop :=
  (d1 = u "Course No: CSC260" /\ d2 = u "Semester: IV") \/
  (d1 = u "Semester: IV" /\ d2 = u "Course No: CSC260").

(** A course with the two detail lines and the next course after a blank
    line. *)
Definition spaced_doc : list str :=
  map u ["Database Management System"; "Semester: IV"; "Course No: CSC260";
         EmptyString; "Course Title: Other"; "Credit Hrs: 3"]%string.

(** A course with the two detail lines, and the next course right after
    it. *)
Definition leak_doc : str :=
  text_of_lines ["Course Title: Database Management System";
                 "Course No: CSC260"; "Semester: IV";
                 "Course Title: Operating Systems"; "Course No: CSC259";
                 "Credit Hrs: 3"]%string.

(** ** The units of the text *)

(** The line looks like a part of a unit, in the words of the
    specification: a decimal item, a lettered item, an indented line, or a
    line that matches none of the unit, lab-work, books and course-title
    heading patterns. *)
Definition sub_content (l : str) : bool :=
  matches decimal_item_re l
  || matches letter_item_re l
  || startswith (u "  ") l
  || startswith [9%N] l
  || (negb (matches unit_start_re l)
      && negb (matches lab_work_start_re l)
      && negb (matches books_start_re l)
      && negb (matches course_title_pattern l)).

(** Line [j] goes on with the unit in progress: it is blank, or no title
    is accepted on it, it does not start the content section, a unit or
    the lab work, and it looks like a part of a unit. *)
Definition continues (lines : list str) (j : Z) : bool :=
  match nth_error lines (Z.to_nat j) with
  | Some raw =>
    let l := strip raw in
    negb (nonempty l)
    || (match find_title lines j l with Ok None => true | _ => false end
        && negb (startswith (u "Course Contents:") l)
        && negb (matches unit_start_re l)
        && negb (matches lab_work_start_re l)
        && sub_content l)
  | None => false
  end.

(** The trimmed lines from line [j] up to the first line that does not go
    on with the unit, among [n] lines. *)
Fixpoint unit_body (lines : list str) (j : Z) (n : nat) : list str :=
  match n with
  | O => []
  | S n' =>
    if continues lines j then
      match nth_error lines (Z.to_nat j) with
      | Some raw => strip raw :: unit_body lines (j + 1)%Z n'
      | None => []
      end
    else []
  end.

(** The text of the unit whose heading is line [p]: the heading and the
    lines that go on with it, trimmed, without the blank ones. *)
Definition unit_text (lines : list str) (p : Z) : str :=
  match nth_error lines (Z.to_nat p) with
  | Some raw =>
    join_lines (strip raw
                :: filter nonempty
                     (unit_body lines (p + 1)%Z
                                (range_len (p + 1) (len lines))))
  | None => []
  end.

(** The iteration at [st] starts a unit (line 133 holds): the course and
    the line of the unit. *)
Definition unit_start_of (lines : list str) (st : state)
  : list (str * Z) :=
  match line_at lines (line_idx st) with
  | Ok raw =>
    let line := strip raw in
    match find_title lines (line_idx st) line with
    | Ok None =>
      if startswith (u "Course Contents:") line then []
      else match subject (current_subject st) with
           | Some s =>
             if parsing_contents st && matches unit_start_re line
             then [(s, line_idx st)] else []
           | None => []
           end
    | _ => []
    end
  | Raise _ => []
  end.

(** The units started by the loop, in the order of its iterations. *)
Fixpoint unit_starts (fuel : nat) (lines : list str) (st : state)
  : list (str * Z) :=
  if (line_idx st <? len lines)%Z then
    match fuel with
    | O => []
    | S fuel' =>
      match step lines st with
      | Ok st' => unit_start_of lines st ++ unit_starts fuel' lines st'
      | Raise _ => []
      end
    end
  else [].

(** The lines at which a unit of course [k] starts. *)
Definition starts_of (k : str) (es : list (str * Z)) : list Z :=
  map snd (filter (fun e => str_eqb (fst e) k) es).


(** ** Literals of a pattern *)

(** The characters at the head of [s] pass the tests [ts], one each. *)
Fixpoint leads (ts : list (char -> bool)) (s : str) : bool :=
  match ts, s with
  | [], _ => true
  | t :: ts', c :: s' => t c && leads ts' s'
  | _ :: _, [] => false
  end.

(** The tests of the literal [L] under IGNORECASE. *)
Definition label_tests (L : string) : list (char -> bool) :=
  map ichar_test (u L).

(** The literal [L] occurs nowhere in [l]. *)
Definition absent (L : string) (l : str) : Prop :=
  forall n, leads (label_tests L) (skipn n l) = false.

(** The end of a line inside a text: the end of the text or a line feed. *)
Definition line_end (t : str) : Prop := t = [] \/ exists t', t = LF :: t'.

(** ** The units collected so far *)




(** * Properties *)

Unset Implicit Arguments.

(** ** Strings *)

Lemma str_eqb_eq (a b : str) : str_eqb a b = true <-> a = b.
Proof.
  revert b; induction a as [|x a IH]; intros [|y b]; simpl;
    try (split; [discriminate | congruence]); try tauto.
  unfold char_eqb.
  rewrite andb_true_iff, N.eqb_eq, IH.
  split; [intros [-> ->]; reflexivity | intros [= -> ->]; auto].
Qed.

Lemma str_eqb_refl (a : str) : str_eqb a a = true.
Proof. apply str_eqb_eq; reflexivity. Qed.

Lemma str_eqb_neq (a b : str) : str_eqb a b = false <-> a <> b.
Proof.
  rewrite <- str_eqb_eq. destruct (str_eqb a b); split; congruence.
Qed.

Lemma lstrip_spec (s : str) :
  exists w, s = w ++ lstrip s /\ forallb isspace w = true.
Proof.
  induction s as [|c s IH]; simpl.
  - exists []; auto.
  - destruct (isspace c) eqn:E.
    + destruct IH as (w & Hs & Hw). exists (c :: w); simpl.
      rewrite E, Hw, <- Hs; auto.
    + exists []; auto.
Qed.

Lemma lstrip_tight (s : str) : tight_start (lstrip s).
Proof.
  induction s as [|c s IH]; simpl; auto.
  destruct (isspace c) eqn:E; simpl; auto.
Qed.

Lemma lstrip_of_tight (s : str) : tight_start s -> lstrip s = s.
Proof. destruct s as [|c s]; simpl; auto. intros ->; reflexivity. Qed.

Lemma lstrip_app_space (w s : str) :
  forallb isspace w = true -> lstrip (w ++ s) = lstrip s.
Proof.
  induction w as [|c w IH]; simpl; auto.
  rewrite andb_true_iff; intros [-> H]; auto.
Qed.

Lemma lstrip_app_tight (s t : str) :
  lstrip s <> [] -> lstrip (s ++ t) = lstrip s ++ t.
Proof.
  induction s as [|c s IH]; simpl; [congruence|].
  destruct (isspace c); auto.
Qed.

Lemma rstrip_spec (s : str) :
  exists w, s = rstrip s ++ w /\ forallb isspace w = true.
Proof.
  unfold rstrip. destruct (lstrip_spec (rev s)) as (w & Hs & Hw).
  exists (rev w). split.
  - rewrite <- rev_app_distr, <- Hs, rev_involutive; reflexivity.
  - rewrite forallb_forall in *. intros x Hx. apply Hw, in_rev, Hx.
Qed.

Lemma rstrip_app_tight (s t : str) :
  rstrip t <> [] -> rstrip (s ++ t) = s ++ rstrip t.
Proof.
  unfold rstrip; intros H. rewrite rev_app_distr, lstrip_app_tight.
  - rewrite rev_app_distr, rev_involutive; reflexivity.
  - intros E; apply H; rewrite E; reflexivity.
Qed.

Lemma rstrip_app_space (s w : str) :
  forallb isspace w = true -> rstrip (s ++ w) = rstrip s.
Proof.
  unfold rstrip; intros H. rewrite rev_app_distr, lstrip_app_space; auto.
  rewrite forallb_forall in *. intros x Hx. apply H, in_rev; assumption.
Qed.

Lemma rstrip_prefix (s : str) : exists w, s = rstrip s ++ w.
Proof. destruct (rstrip_spec s) as (w & H & _); eauto. Qed.

Lemma tight_start_prefix (s t : str) :
  tight_start (s ++ t) -> tight_start s.
Proof. destruct s; simpl; auto. Qed.

Lemma rstrip_tight (s : str) : tight_start s -> tight_start (rstrip s).
Proof.
  intros H. destruct (rstrip_prefix s) as (w & E).
  rewrite E in H. eapply tight_start_prefix; eauto.
Qed.

Lemma strip_tight (s : str) : tight_start (strip s).
Proof. apply rstrip_tight, lstrip_tight. Qed.

Lemma rstrip_idem (s : str) : rstrip (rstrip s) = rstrip s.
Proof.
  unfold rstrip. rewrite rev_involutive.
  rewrite (lstrip_of_tight (lstrip (rev s))) by apply lstrip_tight.
  reflexivity.
Qed.

Lemma strip_stripped (s : str) : stripped (strip s).
Proof.
  unfold stripped, strip at 1.
  rewrite lstrip_of_tight by apply strip_tight.
  unfold strip; apply rstrip_idem.
Qed.

Lemma strip_subset (s : str) (c : char) : In c (strip s) -> In c s.
Proof.
  intros H. destruct (lstrip_spec s) as (w & Hs & _).
  destruct (rstrip_prefix (lstrip s)) as (w' & Hr).
  rewrite Hs, Hr. apply in_or_app; right; apply in_or_app; left; exact H.
Qed.

Lemma split_lines_no_LF (s : str) :
  Forall (fun l => ~ In LF l) (split_lines s).
Proof.
  induction s as [|c s IH]; simpl.
  - constructor; auto.
  - destruct (char_eqb c LF) eqn:E.
    + constructor; auto.
    + destruct (split_lines s) as [|l ls]; inversion IH; subst;
        constructor; auto; simpl; intros [->|H]; auto;
        unfold char_eqb in E; rewrite N.eqb_refl in E; discriminate.
Qed.

Lemma split_lines_length (s : str) : 0 < List.length (split_lines s).
Proof.
  induction s as [|c s IH]; simpl; [lia|].
  destruct (char_eqb c LF); simpl; [lia|].
  destruct (split_lines s); simpl in *; lia.
Qed.

Lemma first_line_app (h t : str) :
  ~ In LF h -> (t = [] \/ exists t', t = LF :: t') ->
  first_line (h ++ t) = h.
Proof.
  intros Hh Ht. induction h as [|c h IH]; simpl.
  - destruct Ht as [->|(t' & ->)]; simpl; auto.
  - simpl in Hh. destruct (char_eqb c LF) eqn:E.
    + apply N.eqb_eq in E. exfalso; apply Hh; left; auto.
    + f_equal; apply IH; tauto.
Qed.

Lemma join_lines_cons (h : str) (rest : list str) :
  exists t, join_lines (h :: rest) = h ++ t /\
            (t = [] \/ exists t', t = LF :: t').
Proof.
  destruct rest as [|r rest].
  - exists []; simpl; rewrite app_nil_r; auto.
  - exists (LF :: join_lines (r :: rest)); split; [reflexivity | eauto].
Qed.

Lemma stripped_rstrip (h : str) : stripped h -> rstrip h = h.
Proof.
  intros H. unfold stripped, strip in H.
  rewrite lstrip_of_tight in H; auto.
  rewrite <- H; apply strip_tight.
Qed.

Lemma all_space_rstrip (t : str) : rstrip t = [] -> forallb isspace t = true.
Proof.
  intros H. destruct (rstrip_spec t) as (w & E & Hw).
  rewrite H in E; simpl in E; subst; assumption.
Qed.

(** Stripping a text whose first line is already stripped leaves that line
    in place. *)
Lemma strip_keeps_head (h t : str) :
  stripped h -> h <> [] -> (t = [] \/ exists t', t = LF :: t') ->
  exists t2, strip (h ++ t) = h ++ t2 /\ (t2 = [] \/ exists t3, t2 = LF :: t3).
Proof.
  intros Hs Hne Ht.
  assert (Htight : tight_start h) by (rewrite <- Hs; apply strip_tight).
  unfold strip. rewrite lstrip_of_tight
    by (destruct h; [congruence | exact Htight]).
  destruct (rstrip t) as [|c r] eqn:Er.
  - exists []. rewrite rstrip_app_space by (apply all_space_rstrip, Er).
    rewrite stripped_rstrip, app_nil_r; auto.
  - exists (c :: r). rewrite rstrip_app_tight by congruence.
    rewrite Er; split; auto. right.
    destruct (rstrip_prefix t) as (w & E). rewrite Er in E.
    destruct Ht as [->|(t' & ->)]; [discriminate|].
    injection E as <- _. eauto.
Qed.

(** ** Dictionaries *)

Section Dict.
Variable V : Type.
Implicit Types (d : dict V) (k : str) (v : V).

Lemma dict_get_in d k v : dict_get d k = Some v -> In (k, v) d.
Proof.
  induction d as [|[k' v'] d IH]; simpl; [discriminate|].
  destruct (str_eqb k' k) eqn:E.
  - apply str_eqb_eq in E; subst. intros [= ->]; auto.
  - auto.
Qed.

Lemma dict_get_none d k : dict_get d k = None <-> ~ In k (keys d).
Proof.
  induction d as [|[k' v'] d IH]; simpl; [tauto|].
  destruct (str_eqb k' k) eqn:E.
  - apply str_eqb_eq in E; subst. split; [discriminate | tauto].
  - apply str_eqb_neq in E. rewrite IH. tauto.
Qed.

Lemma dict_get_unique d k v :
  NoDup (keys d) -> In (k, v) d -> dict_get d k = Some v.
Proof.
  induction d as [|[k' v'] d IH]; simpl; [tauto|].
  intros Hnd [[= -> ->]|Hin].
  - rewrite str_eqb_refl; reflexivity.
  - inversion Hnd; subst. destruct (str_eqb k' k) eqn:E; auto.
    apply str_eqb_eq in E; subst. exfalso. apply H1.
    change k with (fst (k, v)). apply in_map, Hin.
Qed.

Lemma keys_dict_set d k v :
  keys (dict_set d k v) =
  match dict_get d k with
  | Some _ => keys d
  | None => keys d ++ [k]
  end.
Proof.
  induction d as [|[k' v'] d IH]; simpl; auto.
  destruct (str_eqb k' k) eqn:E; simpl; auto.
  rewrite IH. destruct (dict_get d k); reflexivity.
Qed.

Lemma dict_set_values (Q : V -> Prop) d k v :
  Forall (fun kv => Q (snd kv)) d -> Q v ->
  Forall (fun kv => Q (snd kv)) (dict_set d k v).
Proof.
  induction d as [|[k' v'] d IH]; simpl; intros Hd Hv.
  - constructor; auto.
  - inversion Hd; subst. destruct (str_eqb k' k); constructor; auto.
Qed.

Lemma dict_get_set_same d k v : dict_get (dict_set d k v) k = Some v.
Proof.
  induction d as [|[k' v'] d IH]; simpl.
  - rewrite str_eqb_refl; reflexivity.
  - destruct (str_eqb k' k) eqn:E; simpl; rewrite E; auto.
Qed.

End Dict.

(** ** Invariants of the collected data *)

Lemma good_data_nil : good_data [].
Proof. split; constructor. Qed.

Lemma dd_update_keys (sd : dict course) (k : str) (f : course -> course) :
  keys (dd_update sd k f) =
  match dict_get sd k with
  | Some _ => keys sd
  | None => keys sd ++ [k]
  end.
Proof.
  unfold dd_update. destruct (dict_get sd k) eqn:E;
    rewrite keys_dict_set, E; reflexivity.
Qed.

Lemma dd_update_good (sd : dict course) (k : str) (f : course -> course) :
  good_data sd -> k <> [] ->
  (forall c, Forall good_unit (Units c) -> Forall good_unit (Units (f c))) ->
  good_data (dd_update sd k f).
Proof.
  intros [Hnd Hk Hu] Hne Hf. split.
  - rewrite dd_update_keys. destruct (dict_get sd k) eqn:E; auto.
    apply dict_get_none in E.
    apply NoDup_app;
      [ assumption
      | constructor; [simpl; tauto | constructor]
      | intros x Hx [<-|[]]; auto ].
  - rewrite dd_update_keys. destruct (dict_get sd k) eqn:E; auto.
    apply Forall_app; split; auto.
  - unfold dd_update. destruct (dict_get sd k) eqn:E.
    + apply dict_set_values with (Q := fun c => Forall good_unit (Units c));
        [assumption|].
      apply Hf. apply dict_get_in in E.
      rewrite Forall_forall in Hu. apply (Hu _ E).
    + apply dict_set_values with (Q := fun c => Forall good_unit (Units c));
        [assumption|].
      apply Hf; constructor.
Qed.

Lemma subject_nonempty (cs : option str) (s : str) :
  subject cs = Some s -> s <> [] /\ cs = Some s.
Proof.
  destruct cs as [[|c r]|]; simpl; try discriminate.
  intros [= <-]; split; [discriminate | reflexivity].
Qed.

Lemma matches_unit_start_nonempty (h : str) :
  matches unit_start_re h = true -> h <> [].
Proof. intros H ->; vm_compute in H; discriminate. Qed.

Lemma nonempty_true (s : str) : nonempty s = true <-> s <> [].
Proof. destruct s; simpl; split; congruence. Qed.

Lemma flushed_unit_good (buf : list str) :
  good_buf buf -> buf <> [] ->
  strip (join_lines buf) <> [] -> good_unit (strip (join_lines buf)).
Proof.
  destruct buf as [|h rest]; [congruence|].
  intros (Hs & Hlf & Hm) _ Hne.
  destruct (join_lines_cons h rest) as (t & Ej & Ht). rewrite Ej in *.
  destruct (strip_keeps_head h t Hs (matches_unit_start_nonempty _ Hm) Ht)
    as (t2 & Es & Ht2).
  split.
  - rewrite strip_stripped; assumption.
  - rewrite Es, first_line_app; auto.
Qed.

Lemma save_unit_good (sd : dict course) (cs : option str) (buf : list str) :
  good_data sd -> good_buf buf -> good_data (save_unit sd cs buf).
Proof.
  intros Hsd Hbuf. unfold save_unit.
  destruct (subject cs) as [s|] eqn:Es; auto.
  destruct buf as [|h rest] eqn:Eb; auto.
  destruct (nonempty (strip (join_lines (h :: rest)))) eqn:En; auto.
  apply subject_nonempty in Es as [Hs _].
  apply dd_update_good; auto.
  intros c Hc; unfold append_unit; cbn [Units].
  apply Forall_app; split; auto.
  constructor; auto.
  apply flushed_unit_good; auto; [discriminate|].
  apply nonempty_true; assumption.
Qed.

(** ** The scan never raises *)

Section Scan.
Variable lines : list str.
Hypothesis lines_no_LF : Forall (fun l => ~ In LF l) lines.

Local Open Scope Z_scope.

Lemma line_at_ok (i : Z) :
  0 <= i < len lines -> exists l, line_at lines i = Ok l /\ In l lines.
Proof.
  intros Hi. unfold line_at, len in *.
  destruct (i <? 0) eqn:E; [lia|]. rewrite E.
  destruct (nth_error lines (Z.to_nat i)) as [l|] eqn:En.
  - exists l; split; auto. eapply nth_error_In; eauto.
  - apply nth_error_None in En. lia.
Qed.

Lemma line_at_nth (i : Z) (l : str) :
  0 <= i -> line_at lines i = Ok l -> nth_error lines (Z.to_nat i) = Some l.
Proof.
  intros Hi. unfold line_at.
  destruct (i <? 0) eqn:E; [lia|]. rewrite E.
  destruct (nth_error lines (Z.to_nat i)); congruence.
Qed.

Lemma any_line_ok (test : str -> bool) (n : nat) (start : Z) :
  0 <= start -> start + Z.of_nat n <= len lines ->
  exists b, any_line lines test start n = Ok b.
Proof.
  revert start. induction n as [|n IH]; intros start H0 Hn; simpl.
  - eauto.
  - destruct (line_at_ok start) as (l & -> & _); [lia|]. simpl.
    destruct (test l); eauto. apply IH; lia.
Qed.

Lemma details_block_ok (n : nat) (i : Z) (block : list str) :
  0 <= i -> i + Z.of_nat n <= len lines ->
  exists b, details_block lines i n block = Ok b.
Proof.
  revert i block. induction n as [|n IH]; intros i block H0 Hn; simpl.
  - eauto.
  - destruct (line_at_ok i) as (l & -> & _); [lia|]. simpl.
    destruct ((1 <? List.length (block ++ [l]))%nat
              && negb (nonempty (strip l)) && (i + 1 <? len lines)) eqn:E.
    + apply andb_true_iff in E as [_ E]. apply Z.ltb_lt in E.
      destruct (line_at_ok (i + 1)) as (nl & -> & _); [lia|]. simpl.
      destruct (matches course_title_pattern nl
                || matches general_title_pattern nl); eauto.
      apply IH; lia.
    + simpl. apply IH; lia.
Qed.

Lemma course_no_follows_ok (i : Z) :
  0 <= i -> exists b, course_no_follows lines i = Ok b.
Proof.
  intros Hi. unfold course_no_follows.
  destruct (i + 1 <? len lines) eqn:E; eauto.
  apply Z.ltb_lt in E.
  destruct (line_at_ok (i + 1)) as (l & -> & _); [lia|]. simpl; eauto.
Qed.

Lemma lab_scan_ok (n : nat) (t : Z) (c : nat) (desc : list str) :
  0 <= t -> t + Z.of_nat n <= len lines ->
  exists j desc', lab_scan lines t n c desc = Ok (j, desc') /\
                  t <= j <= t + Z.of_nat n.
Proof.
  revert t c desc. induction n as [|n IH]; intros t c desc H0 Hn; simpl.
  - exists t, desc; split; auto; lia.
  - destruct (line_at_ok t) as (raw & -> & _); [lia|]. simpl.
    destruct (negb (nonempty (strip raw)) && _)%bool.
    { exists t, desc; split; auto; lia. }
    assert (Hstop : exists b,
      (if matches books_start_re (strip raw) then Ok true
       else if matches course_title_pattern (strip raw) then Ok true
       else if matches general_title_pattern (strip raw)
            then course_no_follows lines t else Ok false) = Ok b).
    { destruct (matches books_start_re (strip raw)); eauto.
      destruct (matches course_title_pattern (strip raw)); eauto.
      destruct (matches general_title_pattern (strip raw)); eauto.
      apply course_no_follows_ok; lia. }
    destruct Hstop as (b & ->). simpl. destruct b.
    { exists t, desc; split; auto; lia. }
    destruct (IH (t + 1) (if nonempty (strip raw) then 0%nat else S c)
                 (desc ++ [strip raw])) as (j & d & E & Hj); try lia.
    exists j, d; split; auto; lia.
Qed.

Lemma range_len_fits (i k : Z) :
  0 <= i <= len lines -> 0 <= k ->
  i + Z.of_nat (range_len i (Z.min (i + k) (len lines))) <= len lines.
Proof. intros Hi Hk. unfold range_len. lia. Qed.

Lemma explicit_title_ok (i : Z) (line : str) :
  0 <= i <= len lines -> exists t, explicit_title lines i line = Ok t.
Proof.
  intros Hi. unfold explicit_title.
  destruct (re_match course_title_pattern line); eauto.
  destruct (any_line_ok (found detail_keywords_re)
              (range_len i (Z.min (i + 4) (len lines))) i) as (b & ->);
    try lia; [apply range_len_fits; lia|]. simpl; eauto.
Qed.

Lemma general_title_ok (i : Z) (line : str) (t : option str * bool) :
  0 <= i < len lines -> exists t', general_title lines i line t = Ok t'.
Proof.
  intros Hi. unfold general_title.
  destruct (snd t); eauto.
  destruct (re_match general_title_pattern line); eauto.
  match goal with |- context [if ?b then _ else _] => destruct b end; eauto.
  destruct (any_line_ok (fun l => startswith (u "Course No:") (strip l))
              (range_len (i + 1) (Z.min (i + 4) (len lines))) (i + 1))
    as (b & ->); try lia.
  - replace (i + 4) with (i + 1 + 3) by lia. apply range_len_fits; lia.
  - simpl. destruct b; eauto.
Qed.

Lemma accepted_title_nonempty (t : option str * bool) (title : str) :
  accepted_title t = Some title -> title <> [].
Proof.
  unfold accepted_title. destruct (snd t); [|discriminate].
  intros H; apply subject_nonempty in H; tauto.
Qed.

Lemma find_title_ok (i : Z) (line : str) :
  0 <= i < len lines ->
  exists t, find_title lines i line = Ok t /\
            forall title, t = Some title -> title <> [].
Proof.
  intros Hi. unfold find_title.
  destruct (explicit_title_ok i line) as (t0 & ->); [lia|]. simpl.
  destruct (general_title_ok i line t0 Hi) as (t1 & ->). simpl.
  eexists; split; [reflexivity|].
  intros title; apply accepted_title_nonempty.
Qed.

End Scan.

(** ** One iteration: success, invariant and progress *)

Section Step.
Variable lines : list str.
Hypothesis lines_no_LF : Forall (fun l => ~ In LF l) lines.

Local Open Scope Z_scope.

Lemma inv_initial : inv lines initial_state.
Proof.
  split; simpl; auto using good_data_nil. unfold len; lia.
Qed.

Lemma start_course_spec (st : state) (title : str) :
  inv lines st -> line_idx st < len lines -> title <> [] ->
  exists sd,
    start_course lines st title
      = Ok (State sd (Some title) false [] (line_idx st)) /\
    good_data sd.
Proof.
  intros [Hi Hd Hb] Hlt Hne. unfold start_course.
  destruct (details_block_ok lines
              (range_len (line_idx st) (Z.min (line_idx st + 7) (len lines)))
              (line_idx st) []) as (b & ->);
    [lia | apply range_len_fits; lia |].
  simpl. eexists; split; [reflexivity|].
  apply dd_update_good; auto.
  apply dd_update_good; auto.
  apply save_unit_good; auto.
Qed.

Lemma matches_re_match (r : regex) (s : str) :
  matches r s = true -> exists m, re_match r s = Some m.
Proof. unfold matches. destruct (re_match r s); eauto; discriminate. Qed.

Lemma lab_work_spec (st : state) (s line : str) :
  inv lines st -> line_idx st < len lines -> s <> [] ->
  matches lab_work_start_re line = true ->
  exists sd j,
    lab_work lines st s line
      = Ok (State sd (current_subject st) false [] (j - 1)) /\
    good_data sd /\ line_idx st + 1 <= j <= len lines.
Proof.
  intros [Hi Hd Hb] Hlt Hne Hm. unfold lab_work.
  destruct (matches_re_match _ _ Hm) as (m & ->). simpl.
  destruct (lab_scan_ok lines
              (range_len (line_idx st + 1) (len lines)) (line_idx st + 1) 0%nat
              [strip (remove_all (group0 line m) line)])
    as (j & d & -> & Hj); [lia | unfold range_len; lia |].
  simpl. eexists; exists j; split; [reflexivity|]. split.
  - apply dd_update_good; auto. apply save_unit_good; auto.
  - unfold range_len in Hj. lia.
Qed.

Lemma good_buf_snoc (buf : list str) (l : str) :
  good_buf buf -> buf <> [] -> good_buf (buf ++ [l]).
Proof. destruct buf; simpl; [congruence | auto]. Qed.

Lemma other_line_spec (st : state) (raw : str) :
  inv lines st -> line_idx st < len lines -> In raw lines ->
  exists st',
    other_line lines st (strip raw) = Ok st' /\
    inv lines (advance st') /\ measure lines (advance st') < measure lines st.
Proof.
  intros Hinv Hlt Hraw. pose proof Hinv as [Hi Hd Hb].
  assert (Hadv : forall sd cs p,
    good_data sd ->
    inv lines (advance (State sd cs p [] (line_idx st))) /\
    measure lines (advance (State sd cs p [] (line_idx st))) < measure lines st).
  { intros sd cs p Hsd. split; [split; cbn [advance line_idx current_unit_content syllabus_data good_buf]; auto; try lia|].
    unfold measure, advance; cbn [line_idx current_unit_content]. destruct (current_unit_content st); lia. }
  assert (Hsame : inv lines (advance st) /\ measure lines (advance st) < measure lines st).
  { split; [split; cbn [advance line_idx current_unit_content syllabus_data good_buf]; auto; try lia|]. unfold measure, advance; cbn [line_idx current_unit_content]. lia. }
  unfold other_line.
  destruct (startswith (u "Course Contents:") (strip raw)).
  { destruct (subject (current_subject st)); eexists; split;
      try reflexivity; auto.
    apply Hadv, save_unit_good; auto. }
  destruct (subject (current_subject st)) as [s|] eqn:Es;
    [|eexists; split; try reflexivity; auto].
  apply subject_nonempty in Es as [Hs _].
  destruct (parsing_contents st && matches unit_start_re (strip raw)) eqn:Eu.
  { apply andb_true_iff in Eu as [_ Eu].
    eexists; split; [reflexivity|]. split.
    - split; cbn [advance line_idx current_unit_content syllabus_data good_buf]; [lia | apply save_unit_good; auto |].
      repeat split; auto using strip_stripped.
      intros Hin; apply strip_subset in Hin.
      rewrite Forall_forall in lines_no_LF. eapply lines_no_LF; eauto.
    - unfold measure, advance; cbn [line_idx current_unit_content]. destruct (current_unit_content st); lia. }
  destruct (matches lab_work_start_re (strip raw)) eqn:El.
  { destruct (lab_work_spec st s (strip raw) Hinv Hlt Hs El)
      as (sd & j & -> & Hsd & Hj).
    eexists; split; [reflexivity|]. split.
    - split; cbn [advance line_idx current_unit_content syllabus_data good_buf]; auto; try lia.
    - unfold measure, advance; cbn [line_idx current_unit_content]. destruct (current_unit_content st); lia. }
  destruct (parsing_contents st
            && negb (List.length (current_unit_content st) =? 0)%nat
            && nonempty (strip raw)) eqn:Eb;
    [|eexists; split; try reflexivity; auto].
  assert (Hne : current_unit_content st <> []).
  { apply andb_true_iff in Eb as [Eb _]. apply andb_true_iff in Eb as [_ Eb].
    destruct (current_unit_content st); [discriminate | congruence]. }
  destruct (unit_content_line (strip raw)).
  - eexists; split; [reflexivity|]. split.
    + split; cbn [advance line_idx current_unit_content syllabus_data good_buf]; auto using good_buf_snoc; try lia.
    + unfold measure, advance; cbn [line_idx current_unit_content].
      destruct (current_unit_content st) as [|h r]; [congruence|].
      cbn [app]. lia.
  - eexists; split; [reflexivity|]. split.
    + split; cbn [advance line_idx current_unit_content syllabus_data good_buf]; auto using save_unit_good; try lia.
    + unfold measure, advance; cbn [line_idx current_unit_content].
      destruct (current_unit_content st) as [|h r]; [congruence|]. lia.
Qed.

Lemma step_spec (st : state) :
  inv lines st -> line_idx st < len lines ->
  exists st', step lines st = Ok st' /\ inv lines st' /\ measure lines st' < measure lines st.
Proof.
  intros Hinv Hlt. pose proof Hinv as [Hi Hd Hb]. unfold step.
  destruct (line_at_ok lines (line_idx st)) as (raw & -> & Hraw); [lia|].
  simpl.
  destruct (find_title_ok lines (line_idx st) (strip raw))
    as ([title|] & -> & Ht); [lia| |]; simpl.
  - destruct (start_course_spec st title Hinv Hlt (Ht _ eq_refl))
      as (sd & -> & Hsd).
    simpl. eexists; split; [reflexivity|]. split.
    + split; cbn [advance line_idx current_unit_content syllabus_data good_buf]; auto; try lia.
    + unfold measure, advance; cbn [line_idx current_unit_content]. destruct (current_unit_content st); lia.
  - destruct (other_line_spec st raw Hinv Hlt Hraw) as (st' & -> & H).
    simpl; eauto.
Qed.

Lemma run_spec (fuel : nat) (st : state) :
  inv lines st -> measure lines st <= Z.of_nat fuel ->
  exists st', run fuel lines st = Some (Ok st') /\ inv lines st'.
Proof.
  revert st; induction fuel as [|fuel IH]; intros st Hinv Hm; simpl;
    destruct (line_idx st <? len lines) eqn:E; eauto;
    apply Z.ltb_lt in E.
  - exfalso. unfold measure in Hm.
    destruct (current_unit_content st); lia.
  - destruct (step_spec st Hinv E) as (st' & -> & Hinv' & Hlt).
    apply IH; auto; lia.
Qed.

End Step.

(** ** The whole parse *)

Lemma collect_spec (text : str) :
  exists sd, collect text = Some (Ok sd) /\ good_data sd.
Proof.
  unfold collect.
  pose proof (split_lines_no_LF text) as Hlf.
  destruct (run_spec (split_lines text) Hlf
              (iterations (split_lines text)) initial_state)
    as (st & -> & [_ Hd Hb]).
  - apply inv_initial.
  - unfold measure, iterations, len; simpl current_unit_content;
      simpl line_idx. lia.
  - eexists; split; [reflexivity|]. apply save_unit_good; auto.
Qed.

Lemma parse_of_collect (text : str) (sd : dict course) :
  collect text = Some (Ok sd) -> parse_syllabus text = Some (Ok (cleanup sd)).
Proof. unfold parse_syllabus; intros ->; reflexivity. Qed.

Lemma keys_filter_incl {V : Type} (f : str * V -> bool) (d : dict V) (k : str) :
  In k (keys (filter f d)) -> In k (keys d).
Proof.
  unfold keys. rewrite !in_map_iff. intros (kv & E & H).
  apply filter_In in H as [H _]. eauto.
Qed.

Lemma keys_filter_nodup {V : Type} (f : str * V -> bool) (d : dict V) :
  NoDup (keys d) -> NoDup (keys (filter f d)).
Proof.
  induction d as [|[k v] d IH]; simpl; auto.
  intros H; inversion H; subst.
  destruct (f (k, v)); simpl; auto.
  constructor; auto. intros Hin; apply H2. eapply keys_filter_incl; eauto.
Qed.

Lemma cleanup_good (sd : dict course) : good_data sd -> good_data (cleanup sd).
Proof.
  intros [Hnd Hk Hu]. unfold cleanup. split.
  - apply keys_filter_nodup; assumption.
  - rewrite Forall_forall in *. intros k Hin.
    apply Hk. eapply keys_filter_incl; eauto.
  - rewrite Forall_forall in *. intros kv Hin.
    apply Hu. apply filter_In in Hin; tauto.
Qed.

Lemma cleanup_in (sd : dict course) (k : str) (c : course) :
  In (k, c) (cleanup sd) <-> In (k, c) sd /\ substantial c = true.
Proof. unfold cleanup. rewrite filter_In; simpl; tauto. Qed.

Lemma substantial_inv (c : course) :
  substantial c = true ->
  Units c <> [] \/ Lab_Work c <> [] \/
  exists n, dict_get (Details c) (u "Course No") = Some n.
Proof.
  unfold substantial. rewrite !orb_true_iff, andb_true_iff.
  intros [[H|H]|[_ H]].
  - left. destruct (Units c); [discriminate | congruence].
  - right; left. apply nonempty_true; assumption.
  - right; right. destruct (dict_get (Details c) (u "Course No")); eauto.
    discriminate.
Qed.

Lemma insubstantial (c : course) :
  Units c = [] -> Lab_Work c = [] ->
  dict_get (Details c) (u "Course No") = None -> substantial c = false.
Proof.
  unfold substantial. intros -> -> ->. simpl.
  apply andb_false_r.
Qed.

(** C3.  [parse_syllabus] is total: on every text, empty or malformed as
    it may be, the loop ends within its bound of iterations, no index or
    attribute error is raised, and a mapping is returned; being a function
    of the text, the result is the same whenever the text is. *)
Theorem parse_syllabus_total (text : str) :
  exists d : dict course,
    parse_syllabus text = Some (Ok d) /\
    forall r, parse_syllabus text = Some r -> r = Ok d.
Proof.
  destruct (collect_spec text) as (sd & Hc & _).
  exists (cleanup sd). rewrite (parse_of_collect text sd Hc).
  split; [reflexivity | congruence].
Qed.

(** C9.  On every text, the keys of the mapping returned by
    [parse_syllabus] are non-empty strings and no two records have the
    same key. *)
Theorem parse_syllabus_keys (text : str) :
  exists d : dict course,
    parse_syllabus text = Some (Ok d) /\
    NoDup (keys d) /\
    Forall (fun k => k <> []) (keys d).
Proof.
  destruct (collect_spec text) as (sd & Hc & Hg).
  exists (cleanup sd). split; [apply parse_of_collect, Hc|].
  destruct (cleanup_good sd Hg); auto.
Qed.

(** C10.  On every text, every unit of every record of the mapping
    returned by [parse_syllabus] is non-empty after trimming, and its first
    line matches the pattern of a unit heading. *)
Theorem parse_syllabus_units (text : str) :
  exists d : dict course,
    parse_syllabus text = Some (Ok d) /\
    forall (k : str) (c : course) (x : str),
      In (k, c) d -> In x (Units c) ->
      strip x <> [] /\ matches unit_start_re (first_line x) = true.
Proof.
  destruct (collect_spec text) as (sd & Hc & Hg).
  exists (cleanup sd). split; [apply parse_of_collect, Hc|].
  intros k c x Hin Hx.
  destruct (cleanup_good sd Hg) as [_ _ Hu].
  rewrite Forall_forall in Hu. specialize (Hu _ Hin). simpl in Hu.
  rewrite Forall_forall in Hu. apply Hu, Hx.
Qed.

(** C2.  On every text, every record of the mapping returned by
    [parse_syllabus] has a unit, a non-empty lab-work text or a "Course No"
    detail; a record collected by the scan that has none of the three is
    not in the mapping; and every record that is in it has its list of
    units, empty or not. *)
Theorem parse_syllabus_substantial (text : str) :
  exists sd d : dict course,
    collect text = Some (Ok sd) /\
    parse_syllabus text = Some (Ok d) /\
    (forall k c, In (k, c) d ->
       In (k, c) sd /\
       (Units c <> [] \/ Lab_Work c <> [] \/
        exists n, dict_get (Details c) (u "Course No") = Some n)) /\
    (forall k c, In (k, c) sd ->
       Units c = [] -> Lab_Work c = [] ->
       dict_get (Details c) (u "Course No") = None ->
       dict_get d k = None) /\
    (forall k c, dict_get d k = Some c ->
       exists units : list str, Units c = units /\ In (k, c) sd).
Proof.
  destruct (collect_spec text) as (sd & Hc & Hg).
  exists sd, (cleanup sd). split; [exact Hc|].
  split; [apply parse_of_collect, Hc|]. repeat split.
  - apply cleanup_in in H; tauto.
  - apply cleanup_in in H as [_ H]. apply substantial_inv, H.
  - intros k c Hin Hu Hl Hn.
    apply dict_get_none. intros Hk.
    apply in_map_iff in Hk as ([k' c'] & E & Hin'). simpl in E; subst k'.
    apply cleanup_in in Hin' as [Hin' Hs].
    destruct Hg as [Hnd _ _].
    pose proof (dict_get_unique _ sd k c Hnd Hin) as E1.
    pose proof (dict_get_unique _ sd k c' Hnd Hin') as E2.
    rewrite E1 in E2; injection E2 as <-.
    rewrite (insubstantial c Hu Hl Hn) in Hs; discriminate.
  - intros k c Hget. exists (Units c); split; [reflexivity|].
    apply dict_get_in in Hget. apply cleanup_in in Hget; tauto.
Qed.

(** ** The text parsed at start-up *)

Lemma pdf_text_summary :
  summary_of (parse_syllabus pdf_text) = Some (pdf_courses 7 0 0 0 6).
Proof. vm_compute. reflexivity. Qed.

Lemma summary_of_inv (text : str) (l : list (str * option str * nat)) :
  summary_of (parse_syllabus text) = Some l ->
  exists d, parse_syllabus text = Some (Ok d) /\ course_summary d = l.
Proof.
  unfold summary_of. destruct (parse_syllabus text) as [[d|e]|];
    try discriminate.
  intros [= <-]; eauto.
Qed.

(** C1, the code on [pdf_text].  [parse_syllabus] returns five records, for
    Theory of Computation, Computer Networks, Operating Systems, Database
    Management System and Artificial Intelligence, with the course numbers
    CSC257 to CSC261, as C1 says.  The lists of units have the lengths 7,
    0, 0, 0 and 6, where the text shows 7, 7, 7, 10 and 6 unit headings:
    [unit_start_re] asks for a Roman numeral, the three courses in the
    middle number their headings "Unit 1:", "Unit 2:", ..., and the code
    collects none of their units.  This is a defect of the code on the
    one text it is run on, not what C1 should say. *)
Theorem pdf_text_courses :
  exists d : dict course,
    parse_syllabus pdf_text = Some (Ok d) /\
    course_summary d = pdf_courses 7 0 0 0 6.
Proof. apply summary_of_inv, pdf_text_summary. Qed.

(** The lengths that C1 expects, the numbers of unit headings that the
    text shows, are not the ones that the code returns. *)
Lemma pdf_text_units_not_as_stated :
  ~ exists d : dict course,
      parse_syllabus pdf_text = Some (Ok d) /\
      course_summary d = pdf_courses 7 7 7 10 6.
Proof.
  intros (d & Hd & Hs).
  pose proof pdf_text_summary as H. rewrite Hd in H. simpl in H.
  rewrite Hs in H. discriminate H.
Qed.

(** ** Scenarios *)

(** Three texts with a course whose details are only a
    "Course No: CSC260" line and a "Semester: IV" line, in either order and
    under either kind of title: the details have exactly the two keys. *)
Lemma details_of_sample_documents :
  parse_syllabus details_doc_1
    = Some (Ok [(u "Database Management System",
                 Course [] [] csc260_details)]) /\
  parse_syllabus details_doc_2
    = Some (Ok [(u "Database Management System",
                 Course [] [] csc260_details)]) /\
  parse_syllabus details_doc_3
    = Some (Ok [(u "Database Management System",
                 Course [u "Unit I: Intro"] [] csc260_details)]) /\
  keys csc260_details = [u "Course No"; u "Semester"].
Proof. repeat split; vm_compute; reflexivity. Qed.

(** ** Title detection *)

Lemma startswith_app (p s : str) :
  startswith p s = true -> exists r, s = p ++ r.
Proof.
  revert s; induction p as [|x p IH]; intros s; simpl.
  - eauto.
  - destruct s as [|y s]; [discriminate|].
    rewrite andb_true_iff. unfold char_eqb. rewrite N.eqb_eq.
    intros [-> H]. destruct (IH s H) as (r & ->). eauto.
Qed.

Lemma search_from_unfold (r : regex) (p : nat) (s : str) :
  search_from r p s =
  match exec r (MState p s None) (fun st => Some st) with
  | Some st => Some (s, st)
  | None =>
    match s with
    | [] => None
    | _ :: s' => search_from r (S p) s'
    end
  end.
Proof. destruct s; reflexivity. Qed.

(** A match at some position makes the search succeed. *)
Lemma search_from_skip (r : regex) (w s : str) (p : nat) :
  exec r (MState (p + List.length w) s None) (fun st => Some st) <> None ->
  search_from r p (w ++ s) <> None.
Proof.
  revert p; induction w as [|c w IH]; intros p H; rewrite search_from_unfold.
  - simpl in *. rewrite Nat.add_0_r in H.
    destruct (exec r (MState p s None) (fun st => Some st));
      congruence.
  - simpl app.
    destruct (exec r (MState p (c :: w ++ s) None) (fun st => Some st));
      [congruence|].
    apply IH. simpl in H. rewrite Nat.add_succ_r in H. exact H.
Qed.

Lemma course_no_keyword (p : nat) (rest : str) :
  exec detail_keywords_re (MState p (u "Course No:" ++ rest) None)
       (fun st => Some st) <> None.
Proof. vm_compute. discriminate. Qed.

Lemma course_no_prefix_found (l : str) :
  startswith (u "Course No:") (strip l) = true ->
  found detail_keywords_re l = true.
Proof.
  intros H. apply startswith_app in H as (r & Hr).
  destruct (lstrip_spec l) as (w & Hl & _).
  destruct (rstrip_prefix (lstrip l)) as (w' & Hs).
  fold (strip l) in Hs. rewrite Hr in Hs.
  unfold found, re_search.
  assert (E : l = w ++ (u "Course No:" ++ (r ++ w'))).
  { rewrite Hl at 1. rewrite Hs, <- app_assoc. reflexivity. }
  pose proof (search_from_skip detail_keywords_re w
                (u "Course No:" ++ (r ++ w')) 0
                (course_no_keyword _ _)) as Hf.
  rewrite <- E in Hf.
  destruct (search_from detail_keywords_re 0 l); congruence.
Qed.

Lemma any_line_spec (lines : list str) (test : str -> bool) (n : nat)
  (start : Z) (b : bool) :
  (0 <= start)%Z -> any_line lines test start n = Ok b ->
  (b = true <->
   exists (j : Z) (l : str),
     (start <= j < start + Z.of_nat n)%Z /\
     nth_error lines (Z.to_nat j) = Some l /\ test l = true).
Proof.
  revert start; induction n as [|n IH]; intros start H0; simpl.
  - intros [= <-]. split; [discriminate|]. intros (j & l & Hj & _); lia.
  - destruct (line_at lines start) as [l|e] eqn:El; simpl; [|discriminate].
    apply line_at_nth in El; auto.
    destruct (test l) eqn:Et.
    + intros [= <-]. split; auto. intros _.
      exists start, l; repeat split; auto; lia.
    + intros H. rewrite (IH (start + 1)%Z) by (auto; lia).
      split; intros (j & l' & Hj & Hn & Ht).
      * exists j, l'; repeat split; auto; lia.
      * exists j, l'; repeat split; auto; try lia.
        destruct (Z.eq_dec j start) as [->|]; [|lia]. congruence.
Qed.

Lemma line_at_in_range (lines : list str) (i : Z) (raw : str) :
  (0 <= i)%Z -> line_at lines i = Ok raw -> (i < len lines)%Z.
Proof.
  intros H0 H. apply line_at_nth in H; auto.
  assert (Hs : nth_error lines (Z.to_nat i) <> None) by congruence.
  apply nth_error_Some in Hs. unfold len; lia.
Qed.

(** C5, as the code has it.  A line with the explicit marker
    "Course Title: <name>" is accepted as a title only if the line itself
    or one of the three lines after it contains a detail keyword; with no
    keyword in these four lines it is not accepted as a title, by either
    recognizer. *)
Theorem explicit_title_needs_keyword (lines : list str) (i : Z) (raw : str) :
  (0 <= i)%Z ->
  line_at lines i = Ok raw ->
  matches course_title_pattern (strip raw) = true ->
  (forall title, find_title lines i (strip raw) = Ok (Some title) ->
                 keyword_window lines i) /\
  (~ keyword_window lines i -> find_title lines i (strip raw) = Ok None).
Proof.
  intros H0 Hraw Hm.
  pose proof (line_at_in_range lines i raw H0 Hraw) as Hlt.
  unfold find_title, explicit_title.
  destruct (matches_re_match _ _ Hm) as (m & ->).
  destruct (any_line_ok lines (found detail_keywords_re)
              (range_len i (Z.min (i + 4) (len lines))) i) as (b & Eb);
    [lia | apply range_len_fits; lia |].
  rewrite Eb. cbn [bind].
  pose proof (any_line_spec lines _ _ _ _ H0 Eb) as Hb.
  replace (i + Z.of_nat (range_len i (Z.min (i + 4) (len lines))))%Z
    with (Z.min (i + 4) (len lines)) in Hb by (unfold range_len; lia).
  fold (keyword_window lines i) in Hb.
  destruct b.
  - split; [intros _ _; apply Hb; reflexivity|].
    intros Hn; exfalso; apply Hn, Hb; reflexivity.
  - assert (Hno : ~ keyword_window lines i)
      by (intros Hk; apply Hb in Hk; discriminate).
    assert (Hg : general_title lines i (strip raw)
                   (Some (strip (group1 m)), false)
                 = Ok (Some (strip (group1 m)), false)).
    { unfold general_title; cbn [snd].
      destruct (re_match general_title_pattern (strip raw)); auto.
      match goal with |- context [if ?c then _ else _] => destruct c end;
        auto.
      destruct (any_line_ok lines
                  (fun l => startswith (u "Course No:") (strip l))
                  (range_len (i + 1) (Z.min (i + 4) (len lines))) (i + 1))
        as (f & Ef); try lia.
      { replace (i + 4)%Z with (i + 1 + 3)%Z by lia.
        apply range_len_fits; lia. }
      rewrite Ef; cbn [bind]. destruct f; auto.
      exfalso; apply Hno.
      apply any_line_spec in Ef; [|lia].
      destruct Ef as [Ef _]. destruct (Ef eq_refl) as (j & l & Hj & Hn & Hs).
      exists j, l; repeat split; auto; try lia.
      - unfold range_len in Hj. lia.
      - apply course_no_prefix_found, Hs. }
    rewrite Hg; cbn [bind accepted_title snd].
    split; [discriminate | reflexivity].
Qed.

(** The theorem at the head line of [details_doc_2]: the keyword is on the
    next line. *)
Lemma explicit_title_needs_keyword_witness :
  keyword_window (split_lines details_doc_2) 0.
Proof.
  refine (proj1 (explicit_title_needs_keyword (split_lines details_doc_2) 0
                   (u "Course Title: Database Management System")
                   _ _ _)
                (u "Database Management System") _).
  - lia.
  - vm_compute; reflexivity.
  - vm_compute; reflexivity.
  - vm_compute; reflexivity.
Defined.

(** C5, as the specification states it, does not hold: the only line of
    [title_with_keyword_doc] has the explicit marker and is accepted as a
    title, and its record is returned, although no line follows it. *)
Lemma title_accepted_on_own_keyword :
  matches course_title_pattern
          (u "Course Title: Algorithms Course No: CSC300") = true /\
  find_title (split_lines title_with_keyword_doc) 0
             (u "Course Title: Algorithms Course No: CSC300")
    = Ok (Some (u "Algorithms Course No: CSC300")) /\
  ~ keyword_follows (split_lines title_with_keyword_doc) 0 /\
  parse_syllabus title_with_keyword_doc
    = Some (Ok [(u "Algorithms Course No: CSC300",
                 Course [] [] [(u "Course No", u "CSC300")])]).
Proof.
  repeat split; try (vm_compute; reflexivity).
  intros (j & l & Hj & Hn & _).
  assert (E : split_lines title_with_keyword_doc
              = [u "Course Title: Algorithms Course No: CSC300"])
    by (vm_compute; reflexivity).
  rewrite E in Hn.
  destruct (Z.to_nat j) as [|[|k]] eqn:Ej; simpl in Hn;
    try discriminate; lia.
Qed.

(** ** Start of the content section *)

Lemma start_course_parsing (lines : list str) (st st' : state) (title : str) :
  start_course lines st title = Ok st' -> parsing_contents st' = false.
Proof.
  unfold start_course.
  destruct (details_block lines _ _ _); simpl; [|discriminate].
  intros [= <-]; reflexivity.
Qed.

Lemma lab_work_parsing (lines : list str) (st st' : state) (s line : str) :
  lab_work lines st s line = Ok st' -> parsing_contents st' = false.
Proof.
  unfold lab_work.
  destruct (re_match lab_work_start_re line); simpl; [|discriminate].
  destruct (lab_scan lines _ _ _ _); simpl; [|discriminate].
  intros [= <-]; reflexivity.
Qed.

(** C4, as the code has it.  The start of the content section is detected
    if and only if no title is accepted on the line, the trimmed line
    starts with "Course Contents:" and there is a current course.  The
    iteration then flushes the unit buffer into the current course, sets
    [parsing_contents], leaves the buffer empty and goes to the next line;
    no other iteration turns [parsing_contents] on. *)
Theorem section_start (lines : list str) (st : state) (raw : str) :
  line_at lines (line_idx st) = Ok raw ->
  (find_title lines (line_idx st) (strip raw) = Ok None ->
   startswith (u "Course Contents:") (strip raw) = true ->
   subject (current_subject st) <> None ->
   step lines st
     = Ok (State (save_unit (syllabus_data st) (current_subject st)
                            (current_unit_content st))
                 (current_subject st) true [] (line_idx st + 1)%Z)) /\
  (forall st',
     step lines st = Ok st' ->
     parsing_contents st = false -> parsing_contents st' = true ->
     find_title lines (line_idx st) (strip raw) = Ok None /\
     startswith (u "Course Contents:") (strip raw) = true /\
     subject (current_subject st) <> None).
Proof.
  intros Hraw. unfold step. rewrite Hraw. cbn [bind]. split.
  - intros -> Hs Hc. cbn [bind]. unfold other_line. rewrite Hs.
    destruct (subject (current_subject st)); [reflexivity | congruence].
  - intros st' Hstep Hoff Hon.
    destruct (find_title lines (line_idx st) (strip raw)) as [[title|]|e];
      cbn [bind] in Hstep; [| |discriminate].
    + destruct (start_course lines st title) as [st1|e] eqn:E1;
        cbn [bind] in Hstep; [|discriminate].
      apply start_course_parsing in E1.
      injection Hstep as <-. simpl in Hon. congruence.
    + destruct (other_line lines st (strip raw)) as [st1|e] eqn:E1;
        cbn [bind] in Hstep; [|discriminate].
      injection Hstep as <-. cbn [advance parsing_contents] in Hon.
      unfold other_line in E1.
      destruct (startswith (u "Course Contents:") (strip raw)).
      * destruct (subject (current_subject st)) eqn:Es.
        -- repeat split; congruence.
        -- injection E1 as <-. congruence.
      * exfalso.
        destruct (subject (current_subject st));
          [|injection E1 as <-; congruence].
        rewrite Hoff in E1. cbn [andb] in E1.
        destruct (matches lab_work_start_re (strip raw)).
        -- apply lab_work_parsing in E1. congruence.
        -- injection E1 as <-. congruence.
Qed.

(** The state of the scan of [units_doc] when it reaches line 2,
    "Course Contents:", and the state when it leaves that line. *)
Lemma section_start_witness :
  step (split_lines units_doc)
       (State [(u "Algorithms", Course [] [] [(u "Course No", u "CSC300")])]
              (Some (u "Algorithms")) false [] 2)
  = Ok (State [(u "Algorithms", Course [] [] [(u "Course No", u "CSC300")])]
              (Some (u "Algorithms")) true [] 3).
Proof.
  refine (proj1 (section_start (split_lines units_doc)
                   (State [(u "Algorithms",
                            Course [] [] [(u "Course No", u "CSC300")])]
                          (Some (u "Algorithms")) false [] 2)
                   (u "Course Contents:") _) _ _ _).
  - vm_compute; reflexivity.
  - vm_compute; reflexivity.
  - vm_compute; reflexivity.
  - vm_compute; discriminate.
Defined.

(** C4, as the specification states it, does not hold: line 2 of
    [contents_with_text_doc] is not exactly "Course Contents:", and yet the
    iteration on it turns [parsing_contents] on, so that the unit after it
    is collected. *)
Lemma section_start_not_exact :
  nth_error (split_lines contents_with_text_doc) 2
    = Some (u "Course Contents: overview") /\
  strip (u "Course Contents: overview") <> u "Course Contents:" /\
  bind (step (split_lines contents_with_text_doc) initial_state)
       (step (split_lines contents_with_text_doc))
    = Ok (State [(u "X", Course [] [] [(u "Semester", u "IV")])]
                (Some (u "X")) false [] 2) /\
  step (split_lines contents_with_text_doc)
       (State [(u "X", Course [] [] [(u "Semester", u "IV")])]
              (Some (u "X")) false [] 2)
    = Ok (State [(u "X", Course [] [] [(u "Semester", u "IV")])]
                (Some (u "X")) true [] 3) /\
  parse_syllabus contents_with_text_doc
    = Some (Ok [(u "X", Course [u "Unit I: Intro"] []
                               [(u "Semester", u "IV")])]).
Proof.
  repeat split; try (vm_compute; reflexivity).
  vm_compute; discriminate.
Qed.

(** ** The lab-work section *)

Section LabScan.
Variable lines : list str.
Local Open Scope Z_scope.

Lemma slice_empty (a : Z) : slice lines a a = [].
Proof. unfold slice. rewrite Z.sub_diag. reflexivity. Qed.

Lemma slice_cons (a b : Z) (raw : str) :
  0 <= a < b -> nth_error lines (Z.to_nat a) = Some raw ->
  slice lines a b = raw :: slice lines (a + 1) b.
Proof.
  intros Hab Hn. unfold slice.
  replace (Z.to_nat (b - a)) with (S (Z.to_nat (b - (a + 1)))) by lia.
  replace (Z.to_nat (a + 1)) with (S (Z.to_nat a)) by lia.
  revert Hn. generalize (Z.to_nat a) as k. clear.
  induction lines as [|x l IH]; intros [|k]; simpl; try discriminate.
  - intros [= ->]; reflexivity.
  - intros H. apply (IH k H).
Qed.

Lemma course_no_follows_spec (t : Z) (b : bool) :
  0 <= t -> course_no_follows lines t = Ok b ->
  (b = true <->
   exists next, nth_error lines (Z.to_nat (t + 1)) = Some next /\
                startswith (u "Course No:") (strip next) = true).
Proof.
  intros H0. unfold course_no_follows.
  destruct (t + 1 <? len lines) eqn:E.
  - destruct (line_at lines (t + 1)) as [l|e] eqn:El; cbn [bind]; [|discriminate].
    apply line_at_nth in El; [|lia]. intros Hb.
    replace b with (startswith (u "Course No:") (strip l)) by congruence.
    split; [eauto|]. intros (next & Hn & Hs). congruence.
  - intros [= <-]. split; [discriminate|]. intros (next & Hn & _).
    apply Z.ltb_ge in E.
    assert (Hs : nth_error lines (Z.to_nat (t + 1)) <> None) by congruence.
    apply nth_error_Some in Hs. unfold len in E. lia.
Qed.

Lemma blank_no_heading :
  matches books_start_re [] = false /\
  matches course_title_pattern [] = false /\
  matches general_title_pattern [] = false.
Proof. repeat split; vm_compute; reflexivity. Qed.

Lemma lab_scan_spec (start : Z) (n : nat) :
  forall (t : Z) (c : nat) (desc : list str) (j : Z) (desc' : list str),
  0 <= start <= t ->
  t + Z.of_nat n = len lines ->
  ((1 <= c)%nat <->
   start < t /\ exists prev, nth_error lines (Z.to_nat (t - 1)) = Some prev /\
                             strip prev = []) ->
  lab_scan lines t n c desc = Ok (j, desc') ->
  t <= j <= len lines /\
  (j < len lines -> lab_stop lines start j) /\
  (forall m, t <= m < j -> ~ lab_stop lines start m) /\
  desc' = desc ++ map strip (slice lines t j).
Proof.
  induction n as [|n IH]; intros t c desc j desc' Hst Hn Hc;
    cbn [lab_scan].
  - intros [= <- <-]. rewrite slice_empty, app_nil_r.
    split; [lia|]. split; [lia|]. split; [intros m Hm; lia | reflexivity].
  - destruct (line_at lines t) as [raw|e] eqn:El; cbn [bind]; [|discriminate].
    apply line_at_nth in El; [|lia].
    destruct (negb (nonempty (strip raw))
              && (2 <=? (if nonempty (strip raw) then 0 else S c))%nat)
      eqn:Ebreak.
    { intros [= <- <-]. rewrite slice_empty, app_nil_r.
      split; [lia|]. split; [|split; [intros m Hm; lia | reflexivity]].
      intros _. exists raw; split; auto. left.
      apply andb_true_iff in Ebreak as [Eb Ec].
      destruct (strip raw) eqn:Es; [|discriminate]. cbn [nonempty] in Ec.
      apply Nat.leb_le in Ec.
      destruct Hc as [Hc _]. destruct Hc as (Hlt & prev & Hp & Hb); [lia|].
      repeat split; eauto. }
    destruct (if matches books_start_re (strip raw) then Ok true
              else if matches course_title_pattern (strip raw) then Ok true
              else if matches general_title_pattern (strip raw)
                   then course_no_follows lines t else Ok false)
      as [stop|e] eqn:Estop; cbn [bind]; [|discriminate].
    assert (Hstop : stop = true <->
      (matches books_start_re (strip raw) = true
       \/ matches course_title_pattern (strip raw) = true
       \/ (matches general_title_pattern (strip raw) = true /\
           exists next, nth_error lines (Z.to_nat (t + 1)) = Some next /\
                        startswith (u "Course No:") (strip next) = true))).
    { destruct (matches books_start_re (strip raw)).
      { injection Estop as <-; tauto. }
      destruct (matches course_title_pattern (strip raw)).
      { injection Estop as <-; tauto. }
      destruct (matches general_title_pattern (strip raw)).
      - rewrite (course_no_follows_spec t stop) by (auto; lia).
        intuition discriminate.
      - injection Estop as <-. intuition discriminate. }
    destruct stop.
    { intros [= <- <-]. rewrite slice_empty, app_nil_r.
      split; [lia|]. split; [|split; [intros m Hm; lia | reflexivity]].
      intros _. exists raw; split; auto. right. apply Hstop; reflexivity. }
    intros Hrec.
    assert (Hnot : ~ lab_stop lines start t).
    { intros (raw' & Hr & Hcase). rewrite El in Hr; injection Hr as <-.
      destruct Hcase as [(Hb & Hlt & prev & Hp & Hpb)|Hcase].
      - rewrite Hb in Ebreak. simpl in Ebreak.
        assert (1 <= c)%nat by (apply Hc; eauto).
        destruct c; [lia | discriminate].
      - apply Hstop in Hcase. discriminate. }
    apply IH in Hrec; try lia.
    + destruct Hrec as (Hj & Hstopj & Hfirst & ->).
      split; [lia|]. split; [assumption|]. split.
      * intros m Hm. destruct (Z.eq_dec m t) as [->|]; auto.
        apply Hfirst; lia.
      * rewrite (slice_cons t j raw) by (auto; lia).
        cbn [map]. rewrite <- app_assoc. reflexivity.
    + replace (t + 1 - 1) with t by lia. split.
      * intros Hc'. split; [lia|]. exists raw; split; auto.
        destruct (strip raw); [reflexivity | simpl in Hc'; lia].
      * intros (_ & prev & Hp & Hb). rewrite El in Hp; injection Hp as <-.
        rewrite Hb; simpl; lia.
Qed.

End LabScan.

Lemma dd_update_get (sd : dict course) (k : str) (f : course -> course) :
  exists c, dict_get (dd_update sd k f) k = Some (f c).
Proof.
  unfold dd_update. destruct (dict_get sd k) as [c|];
    eexists; apply dict_get_set_same.
Qed.

(** C6, as the code has it.  Once a lab-work heading is detected on line
    [i], the scan of the lab-work text takes the lines after it up to the
    first line [j] that is the second of two consecutive blank lines, a
    books heading, a "Course Title:" line or a line of the general title
    format with a "Course No:" line right after it, or up to the end of
    the text.  Line [j] is not part of the lab-work text, and it is the
    line of the next iteration.  A line of the general title format is a
    capitalized phrase of any length: the tests of the heuristic recognizer
    of titles on its length and its content are not made here (see
    [lab_text_stops_at_short_line]). *)
Theorem lab_text_ends_at_first_terminator
  (lines : list str) (st st' : state) (raw s : str) :
  (0 <= line_idx st)%Z ->
  lab_heading_detected lines st raw s ->
  step lines st = Ok st' ->
  exists (m : mstate) (j : Z) (c : course),
    re_match lab_work_start_re (strip raw) = Some m /\
    (line_idx st + 1 <= j <= len lines)%Z /\
    (j < len lines -> lab_stop lines (line_idx st + 1) j)%Z /\
    (forall k, (line_idx st + 1 <= k < j)%Z ->
               ~ lab_stop lines (line_idx st + 1) k) /\
    line_idx st' = j /\
    dict_get (syllabus_data st') s = Some c /\
    Lab_Work c =
      strip (join_lines (filter nonempty
        (strip (remove_all (group0 (strip raw) m) (strip raw))
         :: map strip (slice lines (line_idx st + 1) j)))).
Proof.
  intros H0 (Hraw & Ht & Hc & Hs & Hu & Hl) Hstep.
  pose proof (line_at_in_range lines _ raw H0 Hraw) as Hlt.
  unfold step in Hstep. rewrite Hraw in Hstep. cbn [bind] in Hstep.
  rewrite Ht in Hstep. cbn [bind] in Hstep.
  unfold other_line in Hstep. rewrite Hc, Hs, Hu, Hl in Hstep.
  unfold lab_work in Hstep.
  destruct (matches_re_match _ _ Hl) as (m & Em).
  rewrite Em in Hstep. cbn [bind] in Hstep.
  destruct (lab_scan lines (line_idx st + 1)
              (range_len (line_idx st + 1) (len lines)) 0
              [strip (remove_all (group0 (strip raw) m) (strip raw))])
    as [[j desc]|e] eqn:Escan; cbn [bind] in Hstep; [|discriminate].
  apply (lab_scan_spec lines (line_idx st + 1)) in Escan.
  - destruct Escan as (Hj & Hstop & Hfirst & Hdesc).
    injection Hstep as <-. cbn [fst snd advance line_idx syllabus_data].
    destruct (dd_update_get
                (save_unit (syllabus_data st) (current_subject st)
                           (current_unit_content st)) s
                (set_lab_work (strip (join_lines (filter nonempty desc)))))
      as (c & Ec).
    exists m, j, (set_lab_work (strip (join_lines (filter nonempty desc))) c).
    split; [exact Em|]. split; [assumption|]. split; [assumption|].
    split; [assumption|]. split; [lia|]. split; [assumption|].
    cbn [set_lab_work Lab_Work]. rewrite Hdesc. reflexivity.
  - lia.
  - unfold range_len. lia.
  - split; [lia|]. intros (Hlt' & _). lia.
Qed.

(** The theorem at line 2 of [lab_doc], "Laboratory Works: do labs": the
    lab-work text ends before line 7, the second of two blank lines. *)
Lemma lab_text_ends_at_first_terminator_witness :
  exists (m : mstate) (j : Z) (c : course),
    re_match lab_work_start_re (u "Laboratory Works: do labs") = Some m /\
    (2 + 1 <= j <= len lab_doc)%Z /\
    (j < len lab_doc -> lab_stop lab_doc (2 + 1) j)%Z /\
    (forall k, (2 + 1 <= k < j)%Z -> ~ lab_stop lab_doc (2 + 1) k) /\
    7%Z = j /\
    dict_get [(u "X", Course [] (text_of_lines ["do labs"; "more";
                                                "still"]%string)
                             [(u "Course No", u "C1")])] (u "X") = Some c /\
    Lab_Work c =
      strip (join_lines (filter nonempty
        (strip (remove_all (group0 (u "Laboratory Works: do labs") m)
                           (u "Laboratory Works: do labs"))
         :: map strip (slice lab_doc (2 + 1) j)))).
Proof.
  refine (lab_text_ends_at_first_terminator lab_doc
            (State [(u "X", Course [] [] [(u "Course No", u "C1")])]
                   (Some (u "X")) false [] 2)
            (State [(u "X", Course [] (text_of_lines ["do labs"; "more";
                                                      "still"]%string)
                                   [(u "Course No", u "C1")])]
                   (Some (u "X")) false [] 7)
            (u "Laboratory Works: do labs") (u "X") _ _ _).
  - simpl; lia.
  - repeat split; vm_compute; reflexivity.
  - vm_compute; reflexivity.
Defined.

(** * More properties of the parser and of the code around it *)

#[local] Hint Constructors lang : core.

Ltac fin := repeat split; eauto; cbn [List.length]; try lia.

(** A successful run of the matcher has called its continuation on a state
    reached by consuming a text of the pattern. *)
Lemma exec_sound (A : Type) (r : regex) :
  forall (st : mstate) (k : mstate -> option A) (a : A),
    exec r st k = Some a ->
    exists w st',
      k st' = Some a /\ rest st = w ++ rest st' /\
      pos st' = pos st + List.length w /\
      lang r w (grp st) (grp st').
Proof.
  induction r as [|p|r1 IH1 r2 IH2|r1 IH1 r2 IH2|greedy r1 IH1|r1 IH1| |];
    intros st k a H; cbn [exec] in H.
  - exists [], st. fin. 
  - destruct (rest st) as [|c s'] eqn:Er; [discriminate|].
    destruct (p c) eqn:Ep; [|discriminate].
    exists [c]. eexists. split; [exact H|]. cbn [rest pos grp List.length app].
    fin.
  - apply IH1 in H as (w1 & st1 & H & Er1 & Ep1 & L1).
    apply IH2 in H as (w2 & st2 & H & Er2 & Ep2 & L2).
    exists (w1 ++ w2), st2. split; [exact H|]. split; [|split].
    + rewrite Er1, Er2, app_assoc; reflexivity.
    + rewrite Ep2, Ep1, length_app; lia.
    + eauto.
  - destruct (exec r1 st k) as [a'|] eqn:E1.
    + injection H as <-. apply IH1 in E1 as (w & st' & ? & ? & ? & ?).
      exists w, st'; fin.
    + apply IH2 in H as (w & st' & ? & ? & ? & ?).
      exists w, st'; fin.
  - revert H. generalize (List.length (rest st)). intros n; revert st.
    induction n as [|n IHn]; intros st H.
    + exists [], st. fin.
    + assert (Hstep :
        exec r1 st (fun st' =>
          if pos st <? pos st'
          then (fix iter (n : nat) (st : mstate) {struct n} : option A :=
             match n with
             | O => k st
             | S n' =>
               if greedy then
                 match exec r1 st (fun st' =>
                         if pos st <? pos st' then iter n' st' else None) with
                 | Some a => Some a
                 | None => k st
                 end
               else
                 match k st with
                 | Some a => Some a
                 | None => exec r1 st (fun st' =>
                             if pos st <? pos st' then iter n' st' else None)
                 end
             end) n st'
          else None) = Some a ->
        exists w st', k st' = Some a /\ rest st = w ++ rest st' /\
          pos st' = pos st + List.length w /\
          lang (Star greedy r1) w (grp st) (grp st')).
      { intros E. apply IH1 in E as (w1 & st1 & E & Er1 & Ep1 & L1).
        destruct (pos st <? pos st1); [|discriminate].
        apply IHn in E as (w2 & st2 & E & Er2 & Ep2 & L2).
        exists (w1 ++ w2), st2. split; [exact E|]. split; [|split].
        - rewrite Er1, Er2, app_assoc; reflexivity.
        - rewrite Ep2, Ep1, length_app; lia.
        - eauto. }
      destruct greedy.
      * match type of H with
        | match ?e with _ => _ end = _ => destruct e as [a'|] eqn:E1
        end.
        -- injection H as ->. apply Hstep; reflexivity.
        -- exists [], st. fin.
      * destruct (k st) as [a'|] eqn:Ek.
        -- injection H as ->. exists [], st. fin.
        -- apply Hstep; exact H.
  - apply IH1 in H as (w & st1 & H & Er & Ep & L).
    eexists w, _. split; [exact H|]. cbn [rest pos grp].
    repeat split; auto.
    replace (pos st1 - pos st) with (List.length w) by lia.
    rewrite Er, firstn_app, Nat.sub_diag, firstn_all. cbn [firstn].
    rewrite app_nil_r. econstructor; eauto.
  - destruct (pos st =? 0); [|discriminate].
    exists [], st. fin.
  - exists [], st.
    assert (k st = Some a).
    { destruct (rest st) as [|c [|d s]]; auto; try discriminate.
      destruct (char_eqb c LF); auto; discriminate. }
    fin.
Qed.

Lemma re_match_sound (r : regex) (s : str) (m : mstate) :
  re_match r s = Some m ->
  exists w, s = w ++ rest m /\ pos m = List.length w /\ lang r w None (grp m).
Proof.
  unfold re_match. intros H.
  apply exec_sound in H as (w & st' & [= ->] & Er & Ep & L).
  exists w; auto.
Qed.

Lemma search_from_sound (r : regex) (s : str) :
  forall (p : nat) (s' : str) (m : mstate),
    search_from r p s = Some (s', m) ->
    exists pre w, s = pre ++ w ++ rest m /\ lang r w None (grp m).
Proof.
  induction s as [|c s IH]; intros p s' m H; rewrite search_from_unfold in H.
  - destruct (exec r (MState p [] None) (fun st => Some st)) as [st|] eqn:E;
      [|discriminate].
    injection H as <- <-.
    apply exec_sound in E as (w & st' & [= ->] & Er & _ & L).
    exists [], w; auto.
  - destruct (exec r (MState p (c :: s) None) (fun st => Some st))
      as [st|] eqn:E.
    + injection H as <- <-.
      apply exec_sound in E as (w & st' & [= ->] & Er & _ & L).
      exists [], w; auto.
    + apply IH in H as (pre & w & -> & L). exists (c :: pre), w; auto.
Qed.

(** The group of a match is a piece of the matched text. *)
Lemma lang_group_incl (r : regex) (w : str) (g g' : option str) :
  lang r w g g' -> g' = g \/ exists x, g' = Some x /\ incl x w.
Proof.
  induction 1; auto.
  - destruct IHlang2 as [->|(x & -> & Hx)].
    + destruct IHlang1 as [->|(x & -> & Hx)]; auto.
      right; exists x; split; auto using incl_appl.
    + right; exists x; split; auto using incl_appr.
  - destruct IHlang2 as [->|(x & -> & Hx)].
    + destruct IHlang1 as [->|(x & -> & Hx)]; auto.
      right; exists x; split; auto using incl_appl.
    + right; exists x; split; auto using incl_appr.
  - right; exists w; split; auto using incl_refl.
Qed.

Lemma lang_star_chr (b : bool) (p : char -> bool) (w : str)
  (g g' : option str) :
  lang (Star b (Chr p)) w g g' -> g' = g /\ Forall (fun c => p c = true) w.
Proof.
  intros H. remember (Star b (Chr p)) as r eqn:Er.
  induction H; try discriminate.
  - auto.
  - injection Er as -> ->. destruct (IHlang2 eq_refl) as [-> Hw].
    inversion H; subst. split; auto. constructor; auto.
Qed.

Lemma lang_plus_chr (b : bool) (p : char -> bool) (w : str)
  (g g' : option str) :
  lang (Seq (Chr p) (Star b (Chr p))) w g g' ->
  g' = g /\ w <> [] /\ Forall (fun c => p c = true) w.
Proof.
  intros H. inversion H; subst.
  match goal with H1 : lang (Chr _) _ _ _ |- _ => inversion H1; subst end.
  match goal with H2 : lang (Star _ _) _ _ _ |- _ =>
    apply lang_star_chr in H2 as [-> Hw] end.
  repeat split; [discriminate|]. constructor; auto.
Qed.

Lemma lang_token_after (rl : regex) (w : str) (g' : option str) :
  lang (Seq rl (Seq (star space) (Group (plus nonspace)))) w None g' ->
  exists x, g' = Some x /\ token x.
Proof.
  intros H. inversion H; subst.
  match goal with H2 : lang (Seq (star _) _) _ _ _ |- _ =>
    inversion H2; subst end.
  match goal with H3 : lang (Group _) _ _ _ |- _ => inversion H3; subst end.
  match goal with H4 : lang (plus _) _ _ _ |- _ =>
    apply lang_plus_chr in H4 as (_ & Hne & Hw) end.
  eexists; split; [reflexivity|]. split; auto.
  eapply Forall_impl; [|exact Hw]. cbv beta.
  intros c Hc. apply negb_true_iff in Hc; exact Hc.
Qed.

Lemma lang_nature (w : str) (g' : option str) :
  lang nature_re w None g' ->
  exists x, g' = Some x /\ ~ In LF x.
Proof.
  intros H. inversion H; subst.
  match goal with H2 : lang (Seq (star _) _) _ _ _ |- _ =>
    inversion H2; subst end.
  match goal with H3 : lang (Group _) _ _ _ |- _ => inversion H3; subst end.
  match goal with H4 : lang (plus _) _ _ _ |- _ =>
    apply lang_plus_chr in H4 as (_ & Hne & Hw) end.
  eexists; split; [reflexivity|].
  intros Hin. rewrite Forall_forall in Hw. apply Hw in Hin.
  vm_compute in Hin. discriminate.
Qed.

(** ** More on strings *)

Lemma stripped_ends (s : str) :
  stripped s <-> tight_start s /\ tight_start (rev s).
Proof.
  split.
  - intros H. split.
    + rewrite <- H. apply strip_tight.
    + pose proof (stripped_rstrip s H) as Hr. unfold rstrip in Hr.
      apply (f_equal (@rev char)) in Hr. rewrite rev_involutive in Hr.
      rewrite <- Hr. apply lstrip_tight.
  - intros [H1 H2]. unfold stripped, strip.
    rewrite (lstrip_of_tight s H1). unfold rstrip.
    rewrite (lstrip_of_tight (rev s) H2). apply rev_involutive.
Qed.

Lemma tight_start_app (s t : str) :
  s <> [] -> tight_start s -> tight_start (s ++ t).
Proof. destruct s; [congruence | auto]. Qed.

Lemma join_lines_nonempty (l : str) (ls : list str) :
  l <> [] -> join_lines (l :: ls) <> [].
Proof.
  destruct (join_lines_cons l ls) as (t & -> & _).
  destruct l; [congruence | discriminate].
Qed.

Lemma join_lines_tight_end (ls : list str) :
  ls <> [] -> Forall (fun l => l <> [] /\ stripped l) ls ->
  tight_start (rev (join_lines ls)).
Proof.
  induction ls as [|l ls IH]; [congruence|]. intros _ H.
  inversion H as [|? ? [Hne Hs] Hls]; subst.
  apply stripped_ends in Hs as [_ He].
  destruct ls as [|l2 ls]; [exact He|].
  change (join_lines (l :: l2 :: ls)) with (l ++ LF :: join_lines (l2 :: ls)).
  rewrite rev_app_distr. cbn [rev]. rewrite <- !app_assoc.
  apply tight_start_app.
  - inversion Hls as [|? ? [Hne2 _] _]; subst.
    intros E. apply (f_equal (@rev char)) in E.
    rewrite rev_involutive in E. revert E. apply join_lines_nonempty; auto.
  - apply IH; [discriminate | assumption].
Qed.

(** Joined lines that are trimmed and not empty need no trimming. *)
Lemma strip_join_lines (ls : list str) :
  Forall (fun l => l <> [] /\ stripped l) ls ->
  strip (join_lines ls) = join_lines ls.
Proof.
  intros H. destruct ls as [|l ls]; [reflexivity|].
  apply stripped_ends. split.
  - inversion H as [|? ? [Hne Hs] _]; subst.
    destruct (join_lines_cons l ls) as (t & -> & _).
    apply tight_start_app; auto. apply stripped_ends in Hs; tauto.
  - apply join_lines_tight_end; [discriminate | assumption].
Qed.

Lemma remove_from_incl (old : str) (s : str) :
  forall skip c, In c (remove_from old skip s) -> In c s.
Proof.
  induction s as [|x s IH]; intros skip c; simpl; auto.
  destruct skip as [|k].
  - destruct (startswith old (x :: s)); [eauto|].
    simpl. intros [->|H]; eauto.
  - eauto.
Qed.

Lemma remove_all_incl (old s : str) (c : char) :
  In c (remove_all old s) -> In c s.
Proof.
  unfold remove_all. destruct old; auto. apply remove_from_incl.
Qed.

Lemma strip_clean_line (raw : str) :
  ~ In LF raw -> strip raw <> [] -> clean_line (strip raw).
Proof.
  intros Hlf Hne. repeat split; auto using strip_stripped.
  intros H; apply strip_subset in H; auto.
Qed.

Lemma text_line_clean (lines : list str) (l : str) :
  Forall (fun l => ~ In LF l) lines -> text_line lines l -> clean_line l.
Proof.
  intros Hlf (Hne & raw & Hin & ->).
  apply strip_clean_line; auto.
  rewrite Forall_forall in Hlf; auto.
Qed.

(** ** More on dictionaries *)

Lemma dict_set_entries {V : Type} (Q : str * V -> Prop) (d : dict V)
  (k : str) (v : V) :
  Forall Q d -> Q (k, v) -> Forall Q (dict_set d k v).
Proof.
  induction d as [|[k' v'] d IH]; simpl; intros Hd Hv.
  - constructor; auto.
  - inversion Hd; subst. destruct (str_eqb k' k) eqn:E; constructor; auto.
    apply str_eqb_eq in E; subst; assumption.
Qed.

Lemma dict_set_nodup {V : Type} (d : dict V) (k : str) (v : V) :
  NoDup (keys d) -> NoDup (keys (dict_set d k v)).
Proof.
  intros H. rewrite keys_dict_set. destruct (dict_get d k) eqn:E; auto.
  apply dict_get_none in E.
  apply NoDup_app;
    [ assumption
    | constructor; [simpl; tauto | constructor]
    | intros x Hx [<-|[]]; auto ].
Qed.

Lemma dict_get_set {V : Type} (d : dict V) (k k' : str) (v : V) :
  dict_get (dict_set d k v) k' =
  if str_eqb k k' then Some v else dict_get d k'.
Proof.
  induction d as [|[k0 v0] d IH]; simpl.
  - reflexivity.
  - destruct (str_eqb k0 k) eqn:E; simpl.
    + apply str_eqb_eq in E; subst k0.
      destruct (str_eqb k k'); reflexivity.
    + destruct (str_eqb k0 k') eqn:E'; auto.
      apply str_eqb_eq in E'; subst k0.
      destruct (str_eqb k k') eqn:E2; auto.
      apply str_eqb_eq in E2; subst k'.
      rewrite str_eqb_refl in E; discriminate.
Qed.

Lemma dd_update_records (Q : course -> Prop) (sd : dict course) (k : str)
  (f : course -> course) :
  Forall (fun kv => Q (snd kv)) sd -> Q default_course ->
  (forall c, Q c -> Q (f c)) ->
  Forall (fun kv => Q (snd kv)) (dd_update sd k f).
Proof.
  intros Hsd Hd Hf. unfold dd_update.
  destruct (dict_get sd k) as [c|] eqn:E;
    apply dict_set_values with (Q := Q); auto.
  apply Hf. apply dict_get_in in E.
  rewrite Forall_forall in Hsd. apply (Hsd _ E).
Qed.

Lemma dd_update_key_prop (Q : str -> Prop) (sd : dict course) (k : str)
  (f : course -> course) :
  Forall Q (keys sd) -> Q k -> Forall Q (keys (dd_update sd k f)).
Proof.
  intros Hsd Hk. rewrite dd_update_keys.
  destruct (dict_get sd k); auto. apply Forall_app; auto.
Qed.

(** ** The details of a course *)

Lemma details_ok_nil : details_ok [].
Proof. split; constructor. Qed.

Lemma details_ok_set (ds : dict str) (k v : str) :
  details_ok ds -> In k detail_names -> detail_value k v ->
  details_ok (dict_set ds k v).
Proof.
  intros [Hnd Hf] Hk Hv. split.
  - apply dict_set_nodup; assumption.
  - apply dict_set_entries; auto.
Qed.

Lemma re_search_group (r : regex) (s s' : str) (m : mstate)
  (P : str -> Prop) :
  (forall w g', lang r w None g' -> exists x, g' = Some x /\ P x) ->
  re_search r s = Some (s', m) -> P (group1 m).
Proof.
  intros Hr H. unfold re_search in H.
  apply search_from_sound in H as (pre & w & _ & L).
  apply Hr in L as (x & E & Hx). unfold group1. rewrite E. exact Hx.
Qed.

Lemma extract_token (key label : string) (text : str) (ds : dict str) :
  In (u key) detail_names -> str_eqb (u key) (u "Nature") = false ->
  details_ok ds -> details_ok (extract key (token_after label) id text ds).
Proof.
  intros Hk Hn Hds. unfold extract.
  destruct (re_search (token_after label) text) as [[s' m]|] eqn:E; auto.
  apply details_ok_set; auto.
  unfold detail_value. rewrite Hn. unfold id.
  eapply re_search_group; [|exact E].
  intros w g'. apply lang_token_after.
Qed.

Lemma extract_nature (text : str) (ds : dict str) :
  details_ok ds -> details_ok (extract "Nature" nature_re strip text ds).
Proof.
  intros Hds. unfold extract.
  destruct (re_search nature_re text) as [[s' m]|] eqn:E; auto.
  apply details_ok_set; auto.
  - vm_compute. auto 10.
  - unfold detail_value. rewrite str_eqb_refl.
    split; [apply strip_stripped|].
    intros H; apply strip_subset in H. revert H.
    eapply re_search_group with (P := fun x => ~ In LF x); [|exact E].
    apply lang_nature.
Qed.

Lemma extract_details_ok (text : str) (ds : dict str) :
  details_ok ds -> details_ok (extract_details text ds).
Proof.
  intros H. unfold extract_details.
  apply extract_nature.
  repeat (apply extract_token;
          [vm_compute; auto 10 | vm_compute; reflexivity |]).
  exact H.
Qed.

(** ** Titles *)

Lemma re_match_group_incl (r : regex) (s : str) (m : mstate) :
  re_match r s = Some m -> incl (group1 m) s.
Proof.
  intros H. apply re_match_sound in H as (w & -> & _ & L).
  unfold group1. apply lang_group_incl in L as [->|(x & -> & Hx)].
  - intros c [].
  - apply incl_appl; assumption.
Qed.

Lemma explicit_title_piece (lines : list str) (i : Z) (line : str)
  (t : option str * bool) :
  explicit_title lines i line = Ok t -> piece_of line t.
Proof.
  unfold explicit_title.
  destruct (re_match course_title_pattern line) as [m|] eqn:E.
  - destruct (any_line _ _ _ _); cbn [bind]; [|discriminate].
    intros [= <-] x [= <-]. exists (group1 m); split; auto.
    eapply re_match_group_incl; eauto.
  - intros [= <-] x; discriminate.
Qed.

Lemma general_title_piece (lines : list str) (i : Z) (line : str)
  (t t' : option str * bool) :
  piece_of line t -> general_title lines i line t = Ok t' ->
  piece_of line t'.
Proof.
  intros Ht. unfold general_title.
  destruct (snd t); [intros [= <-]; exact Ht|].
  destruct (re_match general_title_pattern line) as [m|] eqn:E;
    [|intros [= <-]; exact Ht].
  match goal with |- context [if ?b then _ else _] => destruct b end;
    [|intros [= <-]; exact Ht].
  destruct (any_line _ _ _ _) as [[|]|]; cbn [bind];
    [|intros [= <-]; exact Ht|discriminate].
  intros [= <-] x [= <-]. exists (group1 m); split; auto.
  eapply re_match_group_incl; eauto.
Qed.

Lemma find_title_clean (lines : list str) (i : Z) (line title : str) :
  ~ In LF line -> find_title lines i line = Ok (Some title) ->
  clean_line title.
Proof.
  intros Hlf. unfold find_title.
  destruct (explicit_title lines i line) as [t0|] eqn:E0; cbn [bind];
    [|discriminate].
  destruct (general_title lines i line t0) as [t1|] eqn:E1; cbn [bind];
    [|discriminate].
  intros [= H]. unfold accepted_title in H.
  destruct (snd t1); [|discriminate].
  apply subject_nonempty in H as [Hne Hf].
  apply explicit_title_piece in E0.
  destruct (general_title_piece _ _ _ _ _ E0 E1 title Hf) as (g & Hg & ->).
  repeat split; auto using strip_stripped.
  intros H; apply strip_subset in H. auto.
Qed.

(** ** What the scan stores *)

Lemma line_at_in (lines : list str) (i : Z) (raw : str) :
  line_at lines i = Ok raw -> In raw lines.
Proof.
  unfold line_at.
  destruct (_ <? 0)%Z; [discriminate|].
  destruct (nth_error lines _) as [l|] eqn:E; [|discriminate].
  intros [= <-]. eapply nth_error_In; eauto.
Qed.

Lemma tidy_default (lines : list str) : tidy_course lines default_course.
Proof.
  repeat split; try constructor.
  exists []; split; [constructor | reflexivity].
Qed.

Section Tidy.
Variable lines : list str.
Hypothesis lines_no_LF : Forall (fun l => ~ In LF l) lines.

Let records (sd : dict course) : Prop :=
  Forall clean_line (keys sd) /\
  Forall (fun kv => tidy_course lines (snd kv)) sd.

Lemma dd_update_tidy (sd : dict course) (k : str) (f : course -> course) :
  records sd -> clean_line k ->
  (forall c, tidy_course lines c -> tidy_course lines (f c)) ->
  records (dd_update sd k f).
Proof.
  intros [Hk Hr] Hc Hf. split.
  - apply dd_update_key_prop; assumption.
  - apply dd_update_records; auto using tidy_default.
Qed.

Lemma flushed_unit_block (buf : list str) :
  buf <> [] -> Forall (text_line lines) buf ->
  text_block lines (strip (join_lines buf)).
Proof.
  intros Hne Hb. exists buf. repeat split; auto.
  apply strip_join_lines.
  eapply Forall_impl; [|exact Hb].
  intros l Hl. apply (text_line_clean lines) in Hl; auto.
  destruct Hl as (? & ? & ?); auto.
Qed.

Lemma save_unit_tidy (sd : dict course) (cs : option str) (buf : list str) :
  records sd -> (forall s, cs = Some s -> s = [] \/ clean_line s) ->
  Forall (text_line lines) buf -> records (save_unit sd cs buf).
Proof.
  intros Hsd Hcs Hbuf. unfold save_unit.
  destruct (subject cs) as [s|] eqn:Es; auto.
  destruct buf as [|h rest] eqn:Eb; auto.
  destruct (nonempty (strip (join_lines (h :: rest)))); auto.
  apply subject_nonempty in Es as [Hs Ecs].
  apply dd_update_tidy; auto.
  - destruct (Hcs s Ecs); [contradiction | assumption].
  - intros c (Hu & Hl & Hd). unfold append_unit.
    split; [|split]; cbn [Units Lab_Work Details]; auto.
    apply Forall_app; split; auto. constructor; auto.
    apply flushed_unit_block; [discriminate | assumption].
Qed.

Lemma start_course_tidy (st st' : state) (title : str) :
  tidy lines st -> clean_line title ->
  start_course lines st title = Ok st' -> tidy lines st'.
Proof.
  intros [Hk Hr Hs Hb] Ht. unfold start_course.
  destruct (details_block _ _ _ _) as [block|]; cbn [bind]; [|discriminate].
  intros [= <-].
  assert (H : records
    (dd_update
       (dd_update
          (save_unit (syllabus_data st) (current_subject st)
             (current_unit_content st)) title id) title
       (set_details (extract_details (join_lines block))))).
  { apply dd_update_tidy; auto.
    - apply dd_update_tidy; auto.
      apply save_unit_tidy; auto. split; auto.
    - intros c (Hu & Hl & Hd). unfold set_details.
      split; [|split]; cbn [Units Lab_Work Details]; auto.
      apply extract_details_ok; assumption. }
  destruct H. split; cbn [syllabus_data current_subject current_unit_content]; auto.
  intros s [= <-]; auto.
Qed.

Lemma lab_scan_lines (n : nat) :
  forall (t : Z) (c : nat) (desc : list str) (j : Z) (desc' : list str),
    lab_scan lines t n c desc = Ok (j, desc') ->
    exists more, desc' = desc ++ more /\
                 Forall (fun l => exists raw, In raw lines /\ l = strip raw)
                        more.
Proof.
  induction n as [|n IH]; intros t c desc j desc'; cbn [lab_scan].
  - intros [= <- <-]. exists []; rewrite app_nil_r; auto.
  - destruct (line_at lines t) as [raw|] eqn:El; cbn [bind]; [|discriminate].
    apply line_at_in in El.
    destruct (negb (nonempty (strip raw)) && _)%bool.
    { intros [= <- <-]. exists []; rewrite app_nil_r; auto. }
    match goal with |- context [bind ?e _] => destruct e as [[|]|] end;
      cbn [bind]; try discriminate.
    { intros [= <- <-]. exists []; rewrite app_nil_r; auto. }
    intros H. apply IH in H as (more & -> & Hm).
    exists (strip raw :: more). rewrite <- app_assoc. split; auto.
    constructor; eauto.
Qed.

Lemma lab_text_clean (d : list str) :
  Forall (fun l => stripped l /\ ~ In LF l) d ->
  clean_text (strip (join_lines (filter nonempty d))).
Proof.
  intros H.
  assert (Hc : Forall clean_line (filter nonempty d)).
  { apply Forall_forall. intros l Hl. apply filter_In in Hl as [Hin Hne].
    rewrite Forall_forall in H. destruct (H l Hin).
    apply nonempty_true in Hne. repeat split; auto. }
  exists (filter nonempty d). split; auto.
  apply strip_join_lines. eapply Forall_impl; [|exact Hc].
  intros l (? & ? & ?); auto.
Qed.

Lemma lab_work_tidy (st st' : state) (s raw : str) :
  tidy lines st -> In raw lines -> subject (current_subject st) = Some s ->
  lab_work lines st s (strip raw) = Ok st' -> tidy lines st'.
Proof.
  intros [Hk Hr Hs Hb] Hraw Es. unfold lab_work.
  destruct (re_match lab_work_start_re (strip raw)) as [m|]; cbn [bind];
    [|discriminate].
  destruct (lab_scan _ _ _ _ _) as [[j d]|] eqn:E; cbn [bind];
    [|discriminate].
  intros [= <-]. apply lab_scan_lines in E as (more & -> & Hm).
  apply subject_nonempty in Es as [Hne Ecs].
  assert (Hraw_lf : ~ In LF raw)
    by (rewrite Forall_forall in lines_no_LF; auto).
  assert (H : records
    (dd_update
       (save_unit (syllabus_data st) (current_subject st)
          (current_unit_content st)) s
       (set_lab_work
          (strip
             (join_lines
                (filter nonempty
                   (snd (j, [strip (remove_all (group0 (strip raw) m)
                                               (strip raw))] ++ more)))))))).
  { apply dd_update_tidy.
    - apply save_unit_tidy; auto. split; auto.
    - destruct (Hs s Ecs); [contradiction | assumption].
    - intros c (Hu & Hl & Hd). unfold set_lab_work.
      split; [|split]; cbn [Units Lab_Work Details]; auto.
      apply lab_text_clean. cbn [snd]. apply Forall_app; split.
      + constructor; [|constructor]. split; [apply strip_stripped|].
        intros H. apply strip_subset, remove_all_incl, strip_subset in H.
        auto.
      + eapply Forall_impl; [|exact Hm]. cbv beta.
        intros l (r & Hr' & ->). split; [apply strip_stripped|].
        intros H; apply strip_subset in H.
        rewrite Forall_forall in lines_no_LF. eapply lines_no_LF; eauto. }
  destruct H. split; cbn [syllabus_data current_subject current_unit_content]; auto.
Qed.

Lemma other_line_tidy (st st' : state) (raw : str) :
  tidy lines st -> In raw lines ->
  other_line lines st (strip raw) = Ok st' -> tidy lines st'.
Proof.
  intros Ht Hraw. pose proof Ht as [Hk Hr Hs Hb]. unfold other_line.
  assert (Hsave : records (save_unit (syllabus_data st) (current_subject st)
                                     (current_unit_content st))).
  { apply save_unit_tidy; auto. split; auto. }
  destruct Hsave as [Hsk Hsr].
  destruct (startswith (u "Course Contents:") (strip raw)).
  { destruct (subject (current_subject st)); intros [= <-]; auto.
    split; cbn [syllabus_data current_subject current_unit_content]; auto. }
  destruct (subject (current_subject st)) as [s|] eqn:Es;
    [|intros [= <-]; auto].
  destruct (parsing_contents st && matches unit_start_re (strip raw)) eqn:Eu.
  { apply andb_true_iff in Eu as [_ Eu].
    intros [= <-]. split; cbn [syllabus_data current_subject current_unit_content]; auto.
    constructor; [|constructor]. split; eauto.
    apply matches_unit_start_nonempty; assumption. }
  destruct (matches lab_work_start_re (strip raw)).
  { apply lab_work_tidy; auto. }
  destruct (parsing_contents st
            && negb (List.length (current_unit_content st) =? 0)
            && nonempty (strip raw)) eqn:Eb;
    [|intros [= <-]; auto].
  apply andb_true_iff in Eb as [_ Eb]. apply nonempty_true in Eb.
  destruct (unit_content_line (strip raw)); intros [= <-].
  - split; cbn [syllabus_data current_subject current_unit_content]; auto.
    apply Forall_app; split; auto.
    constructor; [|constructor]. split; eauto.
  - split; cbn [syllabus_data current_subject current_unit_content]; auto.
Qed.

Lemma step_tidy (st st' : state) :
  tidy lines st -> step lines st = Ok st' -> tidy lines st'.
Proof.
  intros Ht. unfold step.
  destruct (line_at lines (line_idx st)) as [raw|] eqn:El; cbn [bind];
    [|discriminate].
  apply line_at_in in El.
  destruct (find_title lines (line_idx st) (strip raw)) as [[title|]|] eqn:Ef;
    cbn [bind]; [| |discriminate].
  - destruct (start_course lines st title) as [st1|] eqn:E1; cbn [bind];
      [|discriminate].
    intros [= <-]. apply start_course_tidy in E1; auto.
    + destruct E1; split; auto.
    + eapply find_title_clean; [|exact Ef].
      intros H; apply strip_subset in H.
      rewrite Forall_forall in lines_no_LF. eapply lines_no_LF; eauto.
  - destruct (other_line lines st (strip raw)) as [st1|] eqn:E1; cbn [bind];
      [|discriminate].
    intros [= <-]. apply other_line_tidy in E1; auto.
    destruct E1; split; auto.
Qed.

End Tidy.

(** ** Invariants of the loop *)

Lemma run_preserves (lines : list str) (J : state -> Prop) :
  (forall st st', J st -> step lines st = Ok st' -> J st') ->
  forall fuel st st', J st -> run fuel lines st = Some (Ok st') -> J st'.
Proof.
  intros HJ. induction fuel as [|fuel IH]; intros st st' Hst; simpl;
    destruct (line_idx st <? len lines)%Z; try discriminate;
    try (intros [= <-]; assumption).
  destruct (step lines st) as [st1|] eqn:E; [|discriminate].
  apply IH. eapply HJ; eauto.
Qed.

Lemma collect_run (text : str) (sd : dict course) :
  collect text = Some (Ok sd) ->
  exists st,
    run (iterations (split_lines text)) (split_lines text) initial_state
      = Some (Ok st) /\
    sd = save_unit (syllabus_data st) (current_subject st)
                   (current_unit_content st).
Proof.
  unfold collect.
  destruct (run _ _ _) as [[st|]|]; try discriminate.
  intros [= <-]. eauto.
Qed.

Lemma tidy_initial (lines : list str) : tidy lines initial_state.
Proof. split; cbn; auto; discriminate. Qed.

Lemma collect_tidy (text : str) (sd : dict course) :
  collect text = Some (Ok sd) ->
  Forall clean_line (keys sd) /\
  Forall (fun kv => tidy_course (split_lines text) (snd kv)) sd.
Proof.
  intros H. apply collect_run in H as (st & Hr & ->).
  pose proof (split_lines_no_LF text) as Hlf.
  apply (run_preserves _ (tidy (split_lines text))) in Hr;
    [|intros ? ?; apply step_tidy; assumption | apply tidy_initial].
  destruct Hr as [Hk Hrec Hs Hb].
  apply save_unit_tidy; auto.
Qed.

Lemma parse_tidy (text : str) :
  exists d, parse_syllabus text = Some (Ok d) /\
    Forall clean_line (keys d) /\
    Forall (fun kv => tidy_course (split_lines text) (snd kv)) d.
Proof.
  destruct (collect_spec text) as (sd & Hc & _).
  exists (cleanup sd). split; [apply parse_of_collect; assumption|].
  apply collect_tidy in Hc as [Hk Hr]. split.
  - rewrite Forall_forall in *. intros k Hin. apply Hk.
    unfold cleanup in Hin. eapply keys_filter_incl; eauto.
  - rewrite Forall_forall in *. intros kv Hin. apply Hr.
    unfold cleanup in Hin. apply filter_In in Hin; tauto.
Qed.

(** X1.  Every unit of the result is made of one or more lines of the
    text, each of them trimmed and not empty, joined by line breaks: a unit
    has no blank line and no white space at either end, and the final
    [strip] of a flushed unit removes nothing. *)
Theorem units_are_lines_of_the_text (text : str) :
  exists d, parse_syllabus text = Some (Ok d) /\
    forall k c x, In (k, c) d -> In x (Units c) ->
      text_block (split_lines text) x.
Proof.
  destruct (parse_tidy text) as (d & Hp & _ & Hr).
  exists d; split; auto. intros k c x Hin Hx.
  rewrite Forall_forall in Hr. destruct (Hr _ Hin) as (Hu & _).
  rewrite Forall_forall in Hu. auto.
Qed.

(** X2.  The lab-work text of every record of the result is a sequence of
    pieces joined by single line feeds; every piece is not empty, has no
    white space at either end and holds no line feed.  The text is the
    empty string when there is no piece.  (Only the line feed is meant: a
    carriage return or another separator inside a line of the text stays
    in its piece.) *)
Theorem lab_work_is_clean (text : str) :
  exists d, parse_syllabus text = Some (Ok d) /\
    forall k c, In (k, c) d -> clean_text (Lab_Work c).
Proof.
  destruct (parse_tidy text) as (d & Hp & _ & Hr).
  exists d; split; auto. intros k c Hin.
  rewrite Forall_forall in Hr. destruct (Hr _ Hin) as (_ & Hl & _). auto.
Qed.

(** X3.  Every title of the result is not empty, has no white space at
    either end and holds no line feed.  (Only the line feed is meant: a
    carriage return or another separator inside the line of the title
    stays in the title.) *)
Theorem titles_are_clean_lines (text : str) :
  exists d, parse_syllabus text = Some (Ok d) /\ Forall clean_line (keys d).
Proof.
  destruct (parse_tidy text) as (d & Hp & Hk & _). eauto.
Qed.

(** X4.  The details of every record of the result have distinct keys,
    all among "Course No", "Credit Hrs", "Semester", "Full Marks",
    "Pass Marks" and "Nature"; the value of "Nature" has no white space at
    either end and holds no line feed (it may hold another separator, such
    as U+2028), every other value is a non-empty token without white
    space. *)
Theorem details_are_well_formed (text : str) :
  exists d, parse_syllabus text = Some (Ok d) /\
    forall k c, In (k, c) d -> details_ok (Details c).
Proof.
  destruct (parse_tidy text) as (d & Hp & _ & Hr).
  exists d; split; auto. intros k c Hin.
  rewrite Forall_forall in Hr. destruct (Hr _ Hin) as (_ & _ & Hd). auto.
Qed.

Lemma course_no_truthy (ds : dict str) (n : str) :
  details_ok ds -> dict_get ds (u "Course No") = Some n ->
  negb (Nat.eqb (List.length ds) 0) && nonempty n = true.
Proof.
  intros [_ Hf] Hg. apply dict_get_in in Hg.
  rewrite Forall_forall in Hf. destruct (Hf _ Hg) as [_ Hv].
  unfold detail_value in Hv. cbn [fst snd] in Hv.
  replace (str_eqb (u "Course No") (u "Nature")) with false in Hv
    by (vm_compute; reflexivity).
  destruct Hv as [Hne _].
  destruct ds; [contradiction|]. destruct n; [congruence | reflexivity].
Qed.

(** X5.  The final filter keeps exactly the collected records that have a
    unit, a lab-work text or a "Course No" entry: a stored course number is
    never empty, so that the truth test of its value cannot drop a record
    that has one. *)
Theorem records_with_content_are_kept (text : str) :
  exists sd d,
    collect text = Some (Ok sd) /\ parse_syllabus text = Some (Ok d) /\
    forall k c,
      In (k, c) d <->
      In (k, c) sd /\
      (Units c <> [] \/ Lab_Work c <> [] \/
       exists n, dict_get (Details c) (u "Course No") = Some n).
Proof.
  destruct (collect_spec text) as (sd & Hc & _).
  exists sd, (cleanup sd). split; auto.
  split; [apply parse_of_collect; assumption|].
  intros k c. rewrite cleanup_in. split.
  - intros [Hin Hs]. split; auto. apply substantial_inv; assumption.
  - intros [Hin H]. split; auto.
    apply collect_tidy in Hc as [_ Hr].
    rewrite Forall_forall in Hr. destruct (Hr _ Hin) as (_ & _ & Hd).
    unfold substantial. destruct H as [H|[H|(n & H)]].
    + destruct (Units c); [congruence | reflexivity].
    + apply nonempty_true in H. rewrite H.
      rewrite orb_true_r. reflexivity.
    + cbn [snd] in Hd. rewrite H. rewrite (course_no_truthy _ _ Hd H).
      apply orb_true_r.
Qed.

(** ** Texts without a title, texts without a content section *)

Lemma any_line_false (lines : list str) (test : str -> bool) (n : nat) :
  (forall l, In l lines -> test l = false) ->
  forall start b, any_line lines test start n = Ok b -> b = false.
Proof.
  intros Ht. induction n as [|n IH]; intros start b; cbn [any_line].
  - intros [= <-]; reflexivity.
  - destruct (line_at lines start) as [l|] eqn:El; cbn [bind];
      [|discriminate].
    apply line_at_in in El. rewrite (Ht l El). apply IH.
Qed.

Lemma find_title_none (lines : list str) (i : Z) (line : str)
  (t : option str) :
  matches course_title_pattern line = false ->
  (forall l, In l lines -> startswith (u "Course No:") (strip l) = false) ->
  find_title lines i line = Ok t -> t = None.
Proof.
  intros Hm Hn. unfold find_title, explicit_title.
  unfold matches in Hm.
  destruct (re_match course_title_pattern line); [discriminate|].
  cbn [bind]. unfold general_title. cbn [snd].
  destruct (re_match general_title_pattern line) as [m|];
    [|intros [= <-]; reflexivity].
  match goal with |- context [if ?b then _ else _] => destruct b end;
    [|intros [= <-]; reflexivity].
  destruct (any_line _ _ _ _) as [f|] eqn:Ea; cbn [bind]; [|discriminate].
  apply any_line_false in Ea; auto. subst f.
  intros [= <-]; reflexivity.
Qed.

Lemma step_idle (lines : list str) (st st' : state) :
  (forall l, In l lines -> matches course_title_pattern (strip l) = false) ->
  (forall l, In l lines -> startswith (u "Course No:") (strip l) = false) ->
  idle st -> step lines st = Ok st' -> idle st'.
Proof.
  intros Hm Hn (Hd & Hs & Hb). unfold step.
  destruct (line_at lines (line_idx st)) as [raw|] eqn:El; cbn [bind];
    [|discriminate].
  apply line_at_in in El.
  destruct (find_title lines (line_idx st) (strip raw)) as [t|] eqn:Ef;
    cbn [bind]; [|discriminate].
  apply find_title_none in Ef; auto. subst t.
  unfold other_line. rewrite Hs. cbn [subject].
  destruct (startswith _ _); cbn [bind]; intros [= <-];
    repeat split; assumption.
Qed.

(** X6.  A text in which no line has the form of a "Course Title:" line
    and no line starts with "Course No:" has no course: the result is the
    empty mapping. *)
Theorem no_title_no_course (text : str) :
  (forall l, In l (split_lines text) ->
     matches course_title_pattern (strip l) = false) ->
  (forall l, In l (split_lines text) ->
     startswith (u "Course No:") (strip l) = false) ->
  parse_syllabus text = Some (Ok []).
Proof.
  intros Hm Hn. destruct (collect_spec text) as (sd & Hc & _).
  rewrite (parse_of_collect _ _ Hc).
  apply collect_run in Hc as (st & Hr & ->).
  apply (run_preserves _ idle) in Hr.
  - destruct Hr as (-> & -> & ->). reflexivity.
  - intros ? ?; apply step_idle; assumption.
  - repeat split.
Qed.

Lemma no_title_no_course_witness :
  parse_syllabus
    (text_of_lines ["Fourth Semester"; "Unit I: Sets";
                    "Laboratory Works: none"]%string) = Some (Ok []).
Proof.
  apply no_title_no_course;
    intros l Hl; vm_compute in Hl;
    destruct Hl as [<-|[<-|[<-|[]]]]; vm_compute; reflexivity.
Defined.

Lemma save_unit_empty_buffer (sd : dict course) (cs : option str) :
  save_unit sd cs [] = sd.
Proof. unfold save_unit. destruct (subject cs); reflexivity. Qed.

Lemma step_no_contents (lines : list str) (st st' : state) :
  (forall l, In l lines ->
     startswith (u "Course Contents:") (strip l) = false) ->
  no_contents st -> step lines st = Ok st' -> no_contents st'.
Proof.
  intros Hc (Hp & Hb & Hu). unfold step.
  destruct (line_at lines (line_idx st)) as [raw|] eqn:El; cbn [bind];
    [|discriminate].
  apply line_at_in in El.
  destruct (find_title lines (line_idx st) (strip raw)) as [[title|]|];
    cbn [bind]; [| |discriminate].
  - unfold start_course. rewrite Hb, save_unit_empty_buffer.
    destruct (details_block _ _ _ _); cbn [bind]; [|discriminate].
    intros [= <-]. repeat split; cbn [advance parsing_contents
      current_unit_content syllabus_data]; auto.
    apply dd_update_records with (Q := fun c => Units c = []); auto.
    apply dd_update_records with (Q := fun c => Units c = []); auto.
  - unfold other_line. rewrite (Hc raw El), Hp, Hb. cbn [andb].
    destruct (subject (current_subject st)) as [s|];
      [|cbn [bind]; intros [= <-]; repeat split; assumption].
    destruct (matches lab_work_start_re (strip raw));
      [|cbn [bind]; intros [= <-]; repeat split; assumption].
    unfold lab_work. rewrite Hb, save_unit_empty_buffer.
    destruct (re_match _ _); cbn [bind]; [|discriminate].
    destruct (lab_scan _ _ _ _ _); cbn [bind]; [|discriminate].
    intros [= <-]. repeat split; cbn [advance parsing_contents
      current_unit_content syllabus_data]; auto.
    apply dd_update_records with (Q := fun c => Units c = []); auto.
Qed.

(** X7.  Units are collected only after a line that starts with
    "Course Contents:": when no line of the text, once trimmed, starts with
    this marker, every record of the result has an empty list of units. *)
Theorem no_contents_no_units (text : str) :
  (forall l, In l (split_lines text) ->
     startswith (u "Course Contents:") (strip l) = false) ->
  exists d, parse_syllabus text = Some (Ok d) /\
    forall k c, In (k, c) d -> Units c = [].
Proof.
  intros Hn. destruct (collect_spec text) as (sd & Hc & _).
  exists (cleanup sd). split; [apply parse_of_collect; assumption|].
  apply collect_run in Hc as (st & Hr & ->).
  apply (run_preserves _ no_contents) in Hr.
  - destruct Hr as (_ & Hb & Hu). rewrite Hb, save_unit_empty_buffer.
    intros k c Hin. apply cleanup_in in Hin as [Hin _].
    rewrite Forall_forall in Hu. apply (Hu _ Hin).
  - intros ? ?; apply step_no_contents; assumption.
  - repeat split. constructor.
Qed.

Lemma no_contents_no_units_witness :
  exists d,
    parse_syllabus
      (text_of_lines ["Course Title: Algorithms"; "Course No: CSC300";
                      "Unit I: Basics"; "1.1 Sets"]%string) = Some (Ok d) /\
    forall k c, In (k, c) d -> Units c = [].
Proof.
  apply no_contents_no_units.
  intros l Hl; vm_compute in Hl;
    destruct Hl as [<-|[<-|[<-|[<-|[]]]]]; vm_compute; reflexivity.
Defined.

(** ** The records only grow *)

Lemma grows_refl (sd : dict course) : grows sd sd.
Proof.
  split.
  - exists []; rewrite app_nil_r; reflexivity.
  - intros k c H. exists c, []. rewrite app_nil_r; auto.
Qed.

Lemma grows_trans (a b c : dict course) : grows a b -> grows b c -> grows a c.
Proof.
  intros [(m1 & K1) U1] [(m2 & K2) U2]. split.
  - exists (m1 ++ m2). rewrite K2, K1, app_assoc; reflexivity.
  - intros k x Hx.
    destruct (U1 k x Hx) as (y & n1 & Hy & E1).
    destruct (U2 k y Hy) as (z & n2 & Hz & E2).
    exists z, (n1 ++ n2). split; auto.
    rewrite E2, E1, app_assoc; reflexivity.
Qed.

Lemma dd_update_grows (sd : dict course) (k : str) (f : course -> course) :
  (forall c, exists more, Units (f c) = Units c ++ more) ->
  grows sd (dd_update sd k f).
Proof.
  intros Hf. split.
  - rewrite dd_update_keys. destruct (dict_get sd k).
    + exists []; rewrite app_nil_r; reflexivity.
    + eauto.
  - intros k' c Hc. unfold dd_update.
    destruct (dict_get sd k) as [c0|] eqn:E; rewrite dict_get_set;
      destruct (str_eqb k k') eqn:Ek.
    + apply str_eqb_eq in Ek; subst k'.
      assert (c0 = c) by congruence; subst c0.
      destruct (Hf c) as (more & Hm). eauto.
    + exists c, []. rewrite app_nil_r; auto.
    + apply str_eqb_eq in Ek; subst k'. congruence.
    + exists c, []. rewrite app_nil_r; auto.
Qed.

Lemma keeps_units (f : course -> course) :
  (forall c, Units (f c) = Units c) ->
  forall c, exists more, Units (f c) = Units c ++ more.
Proof. intros H c. exists []. rewrite app_nil_r; auto. Qed.

Lemma save_unit_grows (sd : dict course) (cs : option str) (buf : list str) :
  grows sd (save_unit sd cs buf).
Proof.
  unfold save_unit.
  destruct (subject cs); auto using grows_refl.
  destruct buf; auto using grows_refl.
  destruct (nonempty _); auto using grows_refl.
  apply dd_update_grows. intros c. unfold append_unit; cbn [Units]. eauto.
Qed.

Lemma step_grows (lines : list str) (st st' : state) :
  step lines st = Ok st' -> grows (syllabus_data st) (syllabus_data st').
Proof.
  unfold step.
  destruct (line_at lines (line_idx st)) as [raw|]; cbn [bind];
    [|discriminate].
  destruct (find_title lines (line_idx st) (strip raw)) as [[title|]|];
    cbn [bind]; [| |discriminate].
  - unfold start_course.
    destruct (details_block _ _ _ _); cbn [bind]; [|discriminate].
    intros [= <-]. cbn [advance syllabus_data].
    eapply grows_trans; [apply save_unit_grows|].
    eapply grows_trans; apply dd_update_grows, keeps_units; reflexivity.
  - unfold other_line.
    assert (Hs : grows (syllabus_data st)
                   (save_unit (syllabus_data st) (current_subject st)
                              (current_unit_content st)))
      by apply save_unit_grows.
    destruct (startswith _ _).
    { destruct (subject (current_subject st)); cbn [bind]; intros [= <-];
        cbn [advance syllabus_data]; auto using grows_refl. }
    destruct (subject (current_subject st)) as [s|];
      [|cbn [bind]; intros [= <-]; apply grows_refl].
    destruct (parsing_contents st && matches unit_start_re (strip raw)).
    { cbn [bind]; intros [= <-]; cbn [advance syllabus_data]; auto. }
    destruct (matches lab_work_start_re (strip raw)).
    { unfold lab_work.
      destruct (re_match _ _); cbn [bind]; [|discriminate].
      destruct (lab_scan _ _ _ _ _); cbn [bind]; [|discriminate].
      intros [= <-]. cbn [advance syllabus_data].
      eapply grows_trans; [exact Hs|].
      apply dd_update_grows, keeps_units; reflexivity. }
    destruct (_ && _ && _)%bool;
      [|cbn [bind]; intros [= <-]; apply grows_refl].
    destruct (unit_content_line (strip raw)); cbn [bind]; intros [= <-];
      cbn [advance syllabus_data]; auto using grows_refl.
Qed.

(** X8.  Over any number of iterations of the loop, from any state, the
    titles stored stay first and in their order, and the units stored for
    a course stay the first units of that course, in the same order: no
    record is removed or moved, no unit is removed, changed or moved.  (The
    lab-work text and the details of a stored record can be replaced by a
    later iteration; they are not part of the statement.) *)
Theorem scan_only_adds (n : nat) (lines : list str) (st st' : state) :
  iterate n lines st = Some st' ->
  grows (syllabus_data st) (syllabus_data st').
Proof.
  revert st st'. induction n as [|n IH]; intros st st'; cbn [iterate].
  - intros [= <-]. apply grows_refl.
  - destruct (line_idx st <? len lines)%Z; [|discriminate].
    destruct (step lines st) as [st1|] eqn:E; [|discriminate].
    intros H. eapply grows_trans; [eapply step_grows; eauto|]. auto.
Qed.

(** The theorem on two iterations out of four: the text is not read to its
    end. *)
Lemma scan_only_adds_witness :
  grows [(u "Algorithms", Course [u "Unit I: Basics"] [] [])]
    [(u "Algorithms", Course [u "Unit I: Basics"; u "Unit II: Sorting"] [] []);
     (u "Graph Theory", Course [] [] [(u "Course No", u "CSC301")])].
Proof.
  refine (scan_only_adds 2
            (map u ["Unit II: Sorting"; "Course Title: Graph Theory";
                    "Course No: CSC301"; "Course Contents:"]%string)
            (State [(u "Algorithms", Course [u "Unit I: Basics"] [] [])]
                   (Some (u "Algorithms")) true [] 0)
            (State _ (Some (u "Graph Theory")) false [] 2) _).
  vm_compute. reflexivity.
Defined.

(** ** The chapter selector on parsed records *)

Lemma is_linebreak_isspace (c : char) :
  is_linebreak c = true -> isspace c = true.
Proof.
  unfold is_linebreak, isspace.
  rewrite !orb_true_iff, !andb_true_iff, !N.leb_le, !N.eqb_eq.
  intros H. repeat rewrite <- or_assoc.
  destruct H as [[[[[H1 H2]|[H1 H2]]|H]|H]|H]; subst;
    try (left; left; left; left; left; left; left; left; left; left; lia);
    try (left; left; left; left; left; left; left; left; left; right; lia);
    auto 20.
Qed.

Lemma splitlines_from_first (s : str) :
  forall cur, cur <> [] ->
    exists w rest, splitlines_from cur s = (cur ++ w) :: rest.
Proof.
  induction s as [|c s IH]; intros cur Hne; cbn [splitlines_from].
  - exists [], []. rewrite app_nil_r. destruct cur; [congruence | auto].
  - destruct (is_linebreak c).
    + exists []. rewrite app_nil_r. eauto.
    + destruct (IH (cur ++ [c])) as (w & rest & ->).
      { destruct cur; discriminate. }
      exists (c :: w), rest. rewrite <- app_assoc. reflexivity.
Qed.

Lemma strip_tight_head (c : char) (w : str) :
  isspace c = false -> exists w', strip (c :: w) = c :: w'.
Proof.
  intros Hc. unfold strip. cbn [lstrip]. rewrite Hc.
  change (c :: w) with ([c] ++ w).
  destruct (rstrip w) as [|d r] eqn:Er.
  - exists []. rewrite rstrip_app_space by (apply all_space_rstrip, Er).
    unfold rstrip. cbn [rev app lstrip]. rewrite Hc. reflexivity.
  - exists (d :: r). rewrite rstrip_app_tight by congruence.
    rewrite Er. reflexivity.
Qed.

Lemma ichar_test_U (c : char) :
  ichar_test 85%N c = true -> c = 85%N \/ c = 117%N.
Proof.
  unfold ichar_test. cbn [is_cased is_upper_ascii is_lower_ascii].
  change (existsb (char_eqb (sre_lower c)) [117%N] = true
          -> c = 85%N \/ c = 117%N).
  cbn [existsb]. rewrite orb_false_r. unfold char_eqb, sre_lower.
  unfold is_upper_ascii.
  destruct ((65 <=? c)%N && (c <=? 90)%N) eqn:Eu.
  - rewrite N.eqb_eq. lia.
  - destruct (c =? 304)%N; [rewrite N.eqb_eq; lia|].
    destruct (c =? 8490)%N; [rewrite N.eqb_eq; lia|].
    rewrite N.eqb_eq. auto.
Qed.

Lemma ilit_Unit :
  ilit "Unit" =
  Seq (Chr (ichar_test 85%N))
      (Seq (Chr (ichar_test 110%N))
           (Seq (Chr (ichar_test 105%N)) (Chr (ichar_test 116%N)))).
Proof. reflexivity. Qed.

(** A trimmed unit heading starts with the letter U, in either case. *)
Lemma unit_start_first_char (c : char) (s : str) :
  isspace c = false -> matches unit_start_re (c :: s) = true ->
  c = 85%N \/ c = 117%N.
Proof.
  intros Hc Hm. apply matches_re_match in Hm as (m & Hm).
  apply re_match_sound in Hm as (w & Hw & _ & L).
  unfold unit_start_re in L. cbn [cat] in L. rewrite ilit_Unit in L.
  inversion L as [| |? ? w0 w1 ? ? ? L0 L1| | | | | | |]; subst.
  inversion L0; subst.
  inversion L1 as [| |? ? ws w2 ? ? ? Ls L2| | | | | | |]; subst.
  apply lang_star_chr in Ls as [-> Hs].
  inversion L2 as [| |? ? wu w3 ? ? ? Lu L3| | | | | | |]; subst.
  inversion Lu as [| |? ? wa wb ? ? ? La Lb| | | | | | |]; subst.
  inversion La; subst.
  destruct ws as [|d ws].
  - cbn [app] in Hw. injection Hw as -> _. apply ichar_test_U; assumption.
  - cbn [app] in Hw. injection Hw as -> _.
    inversion Hs; subst. unfold space in *. congruence.
Qed.

Lemma parsed_unit_head (lines : list str) (x : str) :
  Forall (fun l => ~ In LF l) lines ->
  text_block lines x -> matches unit_start_re (first_line x) = true ->
  exists c s, x = c :: s /\ isspace c = false /\ (c = 85%N \/ c = 117%N).
Proof.
  intros Hlf (ls & Hne & Hls & ->) Hm.
  destruct ls as [|h ls]; [congruence|].
  inversion Hls as [|? ? Hh _]; subst.
  pose proof (text_line_clean _ _ Hlf Hh) as (Hhne & Hs & Hh_lf).
  destruct (join_lines_cons h ls) as (t & Ej & Ht).
  rewrite Ej in *. rewrite first_line_app in Hm by assumption.
  destruct h as [|c h]; [congruence|].
  assert (Hc : isspace c = false).
  { apply stripped_ends in Hs as [Hs _]. exact Hs. }
  exists c, (h ++ t). repeat split; auto.
  eapply unit_start_first_char; eauto.
Qed.

Lemma chapter_entry_of_unit (x : str) (idx : nat) :
  (exists c s, x = c :: s /\ isspace c = false /\ (c = 85%N \/ c = 117%N)) ->
  chapter_entry x
    match splitlines x with
    | l :: _ => strip l
    | [] => u "Unit " ++ str_of_nat (idx + 1)
    end.
Proof.
  intros (c & s & -> & Hc & HU).
  assert (Hb : is_linebreak c = false).
  { destruct (is_linebreak c) eqn:E; auto.
    apply is_linebreak_isspace in E. congruence. }
  unfold splitlines. cbn [splitlines_from]. rewrite Hb. cbn [app].
  destruct (splitlines_from_first s [c]) as (w & rest & E);
    [discriminate|].
  assert (E' : splitlines_from [] (c :: s) = (c :: w) :: rest).
  { cbn [splitlines_from]. rewrite Hb. exact E. }
  rewrite E. cbn [app].
  destruct (strip_tight_head c w Hc) as (w' & Es).
  split; [exists (c :: w), rest; split; [exact E' | reflexivity]|].
  rewrite Es.
  repeat split; try discriminate;
    intros H; vm_compute in H; injection H as H _; lia.
Qed.

Lemma unit_titles_entries (units : list str) :
  Forall (fun x => exists c s, x = c :: s /\ isspace c = false /\
                               (c = 85%N \/ c = 117%N)) units ->
  forall idx, Forall2 chapter_entry units (unit_titles_list idx units).
Proof.
  induction 1 as [|x units Hx _ IH]; intros idx; cbn [unit_titles_list];
    constructor; auto.
  apply chapter_entry_of_unit; assumption.
Qed.

(** X9.  For every record of the result that has units, the chapter
    selector is given the placeholder followed by one entry for each unit,
    in the order of the units.  Each entry is the trimmed first line of its
    unit; it is not empty and differs from the two placeholders
    "-- Select Ongoing Chapter --" and "(No Units Found)", and the numbered
    fallback "Unit n" is never used. *)
Theorem chapter_selector_of_parsed_units (text : str) :
  exists d, parse_syllabus text = Some (Ok d) /\
    forall k c, In (k, c) d -> Units c <> [] ->
      exists ts,
        _get_unit_titles_for_subject c = select_chapter :: ts /\
        Forall2 chapter_entry (Units c) ts.
Proof.
  destruct (collect_spec text) as (sd & Hc & [_ _ Hg]).
  exists (cleanup sd). split; [apply parse_of_collect; assumption|].
  apply collect_tidy in Hc as [_ Hr].
  intros k c Hin Hne. apply cleanup_in in Hin as [Hin _].
  exists (unit_titles_list 0 (Units c)). split.
  - unfold _get_unit_titles_for_subject.
    destruct (Units c); [congruence | reflexivity].
  - apply unit_titles_entries.
    rewrite Forall_forall in Hr, Hg.
    destruct (Hr _ Hin) as (Hu & _). pose proof (Hg _ Hin) as Hgu.
    cbn [snd] in Hu, Hgu. rewrite Forall_forall in Hu, Hgu |- *.
    intros x Hx. destruct (Hgu x Hx) as [_ Hm].
    eapply parsed_unit_head; eauto using split_lines_no_LF.
Qed.

(** ** The mapping of ongoing chapters *)

Lemma dict_get_del_other {V : Type} (d : dict V) (k k' : str) :
  k <> k' -> dict_get (dict_del d k) k' = dict_get d k'.
Proof.
  intros Hk. induction d as [|[k0 v0] d IH]; simpl; auto.
  destruct (str_eqb k0 k) eqn:E.
  - apply str_eqb_eq in E; subst k0.
    apply str_eqb_neq in Hk. rewrite Hk. reflexivity.
  - simpl. rewrite IH. reflexivity.
Qed.

Lemma keys_dict_del_incl {V : Type} (d : dict V) (k x : str) :
  In x (keys (dict_del d k)) -> In x (keys d).
Proof.
  induction d as [|[k0 v0] d IH]; simpl; auto.
  destruct (str_eqb k0 k); simpl; tauto.
Qed.

Lemma dict_del_nodup {V : Type} (d : dict V) (k : str) :
  NoDup (keys d) -> NoDup (keys (dict_del d k)).
Proof.
  induction d as [|[k0 v0] d IH]; simpl; auto.
  intros H; inversion H; subst.
  destruct (str_eqb k0 k); simpl; auto.
  constructor; auto. intros Hin; eapply keys_dict_del_incl in Hin; auto.
Qed.

Lemma dict_get_del_same {V : Type} (d : dict V) (k : str) :
  NoDup (keys d) -> dict_get (dict_del d k) k = None.
Proof.
  induction d as [|[k0 v0] d IH]; simpl; auto.
  intros H; inversion H; subst.
  destruct (str_eqb k0 k) eqn:E.
  - apply str_eqb_eq in E; subst k0. apply dict_get_none; assumption.
  - simpl. rewrite E. auto.
Qed.

Lemma regular_selection (x : str) :
  nonempty x && negb (existsb (str_eqb x) [select_chapter; no_units_found])
    = true <->
  x <> [] /\ x <> select_chapter /\ x <> no_units_found.
Proof.
  cbn [existsb]. rewrite orb_false_r, andb_true_iff, negb_true_iff,
    orb_false_iff, nonempty_true, !str_eqb_neq. tauto.
Qed.

(** X10.  When a subject is current, the mapping of ongoing chapters
    holds the selected text for that subject after a selection that is not
    empty and is none of the two placeholders, and holds no entry for the
    subject after any other selection; the entries of the other subjects
    are as before. *)
Theorem ongoing_chapter_follows_selection (J : Type) (subject_name : str)
  (selected_text : str) (oc oc' : dict (chapter J)) (needs_save : bool) :
  NoDup (keys oc) ->
  on_ongoing_chapter_changed (Some subject_name) selected_text oc
    = (oc', needs_save) ->
  (selected_text <> [] /\ selected_text <> select_chapter /\
   selected_text <> no_units_found ->
   dict_get oc' subject_name = Some (Str selected_text)) /\
  (selected_text = [] \/ selected_text = select_chapter \/
   selected_text = no_units_found ->
   dict_get oc' subject_name = None) /\
  (forall k, k <> subject_name -> dict_get oc' k = dict_get oc k) /\
  NoDup (keys oc').
Proof.
  intros Hnd. unfold on_ongoing_chapter_changed.
  destruct (nonempty selected_text && _) eqn:Er.
  - apply regular_selection in Er.
    destruct (differs (dict_get oc subject_name) selected_text) eqn:Ed;
      intros [= <- <-]; (split; [intros _|split; [tauto|split]]).
    + apply dict_get_set_same.
    + intros k Hk. rewrite dict_get_set.
      destruct (str_eqb subject_name k) eqn:E; auto.
      apply str_eqb_eq in E; congruence.
    + apply dict_set_nodup; assumption.
    + unfold differs in Ed.
      destruct (dict_get oc subject_name) as [[s|j]|]; try discriminate.
      apply negb_false_iff, str_eqb_eq in Ed; subst; reflexivity.
    + auto.
    + assumption.
  - assert (Hn : ~ (selected_text <> [] /\ selected_text <> select_chapter /\
                    selected_text <> no_units_found)).
    { intros H. apply regular_selection in H. congruence. }
    unfold dict_mem.
    destruct (dict_get oc subject_name) eqn:Eg; intros [= <- <-];
      (split; [tauto|split; [intros _|split]]); auto.
    + apply dict_get_del_same; assumption.
    + intros k Hk. apply dict_get_del_other; congruence.
    + apply dict_del_nodup; assumption.
Qed.

Lemma ongoing_chapter_follows_selection_witness :
  dict_get
    (fst (on_ongoing_chapter_changed (Some (u "Algorithms"))
            (u "Unit II: Sorting")
            [(u "Algorithms", Str (u "Unit I: Basics"));
             (u "Graph Theory", @NonStr nat 3)]))
    (u "Algorithms") = Some (Str (u "Unit II: Sorting")).
Proof.
  refine (proj1 (ongoing_chapter_follows_selection nat (u "Algorithms")
                   (u "Unit II: Sorting")
                   [(u "Algorithms", Str (u "Unit I: Basics"));
                    (u "Graph Theory", NonStr 3)] _ true _ _) _).
  - vm_compute. repeat constructor; simpl; intuition discriminate.
  - vm_compute. reflexivity.
  - repeat split; discriminate.
Defined.

(** X11.  The mapping of ongoing chapters is written to its file exactly
    when the handler has changed the entry of the current subject: without
    [needs_save] the mapping is the one before, with it the entry of the
    subject differs from the one before.  With no current subject nothing
    is changed nor written. *)
Theorem ongoing_chapters_saved_iff_changed (J : Type)
  (current_item : option str) (selected_text : str)
  (oc oc' : dict (chapter J)) (needs_save : bool) :
  NoDup (keys oc) ->
  on_ongoing_chapter_changed current_item selected_text oc
    = (oc', needs_save) ->
  (needs_save = false -> oc' = oc) /\
  (needs_save = true ->
   exists subject_name,
     current_item = Some subject_name /\
     dict_get oc' subject_name <> dict_get oc subject_name).
Proof.
  intros Hnd. unfold on_ongoing_chapter_changed.
  destruct current_item as [s|]; [|intros [= <- <-]; split; congruence].
  destruct (nonempty selected_text && _).
  - destruct (differs (dict_get oc s) selected_text) eqn:Ed;
      intros [= <- <-]; split; try congruence.
    intros _. exists s; split; auto.
    rewrite dict_get_set_same. intros E. rewrite <- E in Ed.
    unfold differs in Ed. rewrite str_eqb_refl in Ed. discriminate.
  - unfold dict_mem. destruct (dict_get oc s) eqn:Eg;
      intros [= <- <-]; split; try congruence.
    intros _. exists s; split; auto.
    rewrite dict_get_del_same, Eg by assumption. discriminate.
Qed.

Lemma ongoing_chapters_saved_iff_changed_witness :
  exists subject_name,
    Some (u "Algorithms") = Some subject_name /\
    dict_get (@nil (str * chapter nat)) subject_name
      <> dict_get [(u "Algorithms", @Str nat (u "Unit I: Basics"))]
                  subject_name.
Proof.
  refine (proj2 (ongoing_chapters_saved_iff_changed nat
                   (Some (u "Algorithms")) select_chapter
                   [(u "Algorithms", Str (u "Unit I: Basics"))] [] true
                   _ _) eq_refl).
  - vm_compute. repeat constructor; simpl; tauto.
  - vm_compute. reflexivity.
Defined.

(** ** The rows of the table model *)

Import TaskTableModel.

Lemma list_insert_at {A : Type} (pre post : list A) (x : A) :
  list_insert (pre ++ post) (Z.of_nat (List.length pre)) x
  = pre ++ x :: post.
Proof.
  unfold list_insert.
  destruct (Z.of_nat (List.length pre) <? 0)%Z eqn:E;
    [apply Z.ltb_lt in E; lia|].
  rewrite length_app.
  replace (Z.to_nat (Z.min _ _)) with (List.length pre) by lia.
  rewrite firstn_app, Nat.sub_diag, firstn_all, skipn_app, Nat.sub_diag,
    skipn_all.
  cbn [firstn skipn app]. rewrite app_nil_r. reflexivity.
Qed.

Lemma insert_loop_spec (hs : list str) (clock : nat -> reading)
  (pre post : list task) (rows : nat) :
  forall (i : nat) (new : list task),
    List.length new = i ->
    insert_loop hs clock (Z.of_nat (List.length pre)) i rows
                (pre ++ new ++ post)
    = pre ++ (new ++ map (fun j => default_task hs (clock j)) (seq i rows))
          ++ post.
Proof.
  induction rows as [|rows IH]; intros i new Hi; cbn [insert_loop seq map].
  - rewrite app_nil_r. reflexivity.
  - replace (Z.of_nat (List.length pre) + Z.of_nat i)%Z
      with (Z.of_nat (List.length (pre ++ new)))
      by (rewrite length_app; lia).
    rewrite app_assoc, list_insert_at, <- app_assoc.
    change (new ++ default_task hs (clock i) :: post)
      with (new ++ [default_task hs (clock i)] ++ post).
    rewrite (app_assoc new). rewrite IH by (rewrite length_app; cbn; lia).
    rewrite <- !app_assoc. reflexivity.
Qed.

Lemma remove_loop_spec (p : nat) (rows : nat) :
  forall data : list task,
    (p + rows <= List.length data)%nat ->
    remove_loop (Z.of_nat p) rows data
    = firstn p data ++ skipn (p + rows) data.
Proof.
  induction rows as [|rows IH]; intros data Hlen; cbn [remove_loop].
  - rewrite Nat.add_0_r, firstn_skipn. reflexivity.
  - destruct (Z.of_nat p <? Z.of_nat (List.length data))%Z eqn:E;
      [|apply Z.ltb_ge in E; lia].
    unfold list_del. rewrite Nat2Z.id.
    assert (Hp : List.length (firstn p data) = p)
      by (rewrite length_firstn; lia).
    rewrite IH.
    + rewrite firstn_app, Hp, Nat.sub_diag, firstn_firstn, Nat.min_id.
      cbn [firstn]. rewrite app_nil_r.
      rewrite skipn_app, Hp.
      rewrite (skipn_all2 (firstn p data)) by lia.
      replace (p + rows - p)%nat with rows by lia.
      rewrite skipn_skipn.
      replace (rows + S p)%nat with (p + S rows)%nat by lia. reflexivity.
    + rewrite length_app, Hp, length_skipn. lia.
Qed.


Lemma model_eta (self : model) : Model (_data self) (headers self) = self.
Proof. destruct self; reflexivity. Qed.

Lemma insert_loop_block (hs : list str) (clock : nat -> reading)
  (data : list task) (p n : nat) :
  (p <= List.length data)%nat ->
  insert_loop hs clock (Z.of_nat p) 0 n data
  = firstn p data ++ map (fun i => default_task hs (clock i)) (seq 0 n)
    ++ skipn p data.
Proof.
  intros Hp.
  rewrite <- (firstn_skipn p data) at 1.
  replace (Z.of_nat p) with (Z.of_nat (List.length (firstn p data)))
    by (rewrite length_firstn; lia).
  apply (insert_loop_spec hs clock (firstn p data) (skipn p data) n 0%nat []).
  reflexivity.
Qed.

(** X12.  With a number of rows that is not negative, [insertRows] puts
    the new rows in one block at the position given, brought into the range
    of the table: the rows before that position and the rows from it on are
    as before and in the same order, with the default rows of the
    successive iterations between them.  This is so when the position and
    the index of the last new row are at most 2147483647; otherwise the
    call raises [OverflowError] and the table is left as it is. *)
Theorem insertRows_block (self : model) (clock : nat -> reading)
  (position rows : Z) :
  (0 <= rows)%Z ->
  let p := Z.to_nat (Z.max 0 (Z.min position (rowCount self))) in
  insertRows self clock position rows
  = if ((Z.of_nat p <=? 2147483647)
        && (Z.of_nat p + rows - 1 <=? 2147483647))%Z
    then Ok (Model (firstn p (_data self)
                    ++ map (fun i => default_task (headers self) (clock i))
                           (seq 0 (Z.to_nat rows))
                    ++ skipn p (_data self))
                   (headers self), true)
    else Raise OverflowError.
Proof.
  intros Hrows p. unfold insertRows.
  replace (Z.max 0 (Z.min position (rowCount self))) with (Z.of_nat p)
    by (unfold p, rowCount; lia).
  unfold fits_int.
  replace (-2147483648 <=? Z.of_nat p)%Z with true
    by (symmetry; apply Z.leb_le; lia).
  replace (-2147483648 <=? Z.of_nat p + rows - 1)%Z with true
    by (symmetry; apply Z.leb_le; lia).
  cbn [andb].
  destruct ((Z.of_nat p <=? 2147483647)
            && (Z.of_nat p + rows - 1 <=? 2147483647))%Z; [|reflexivity].
  rewrite insert_loop_block by (unfold p, rowCount; lia).
  reflexivity.
Qed.

Lemma insertRows_block_witness :
  insertRows (Model [[(u "Subject", VStr (u "Algorithms"))]] [u "Subject"])
             (fun i => Reading (0, 0)%Z (Z.of_nat i) 0) 5 2
  = Ok (Model [[(u "Subject", VStr (u "Algorithms"))];
               default_task [u "Subject"] (Reading (0, 0)%Z 0 0);
               default_task [u "Subject"] (Reading (0, 0)%Z 1 0)]
              [u "Subject"], true).
Proof.
  refine (insertRows_block
            (Model [[(u "Subject", VStr (u "Algorithms"))]] [u "Subject"])
            (fun i => Reading (0, 0)%Z (Z.of_nat i) 0) 5 2 _).
  lia.
Defined.

(** X13.  [removeRows] removes the rows from the position given up to, but
    not including, the position [rows] further, when these are rows of the
    table; the rows before and after are kept in their order.  For a
    negative position or a range that goes past the last row it removes
    nothing and answers [False]. *)
Theorem removeRows_range (self : model) (position rows : Z) :
  (0 <= rows)%Z ->
  removeRows self position rows =
  if ((0 <=? position) && (position + rows <=? rowCount self))%Z
  then (Model (firstn (Z.to_nat position) (_data self)
               ++ skipn (Z.to_nat (position + rows)) (_data self))
              (headers self), true)
  else (self, false).
Proof.
  intros Hrows. unfold removeRows.
  destruct (0 <=? position)%Z eqn:E0; destruct (position <? 0)%Z eqn:E1;
    try (apply Z.leb_le in E0; apply Z.ltb_lt in E1; lia);
    try (apply Z.leb_gt in E0; apply Z.ltb_ge in E1; lia);
    cbn [orb andb]; [|reflexivity].
  apply Z.leb_le in E0.
  destruct (rowCount self <? position + rows)%Z eqn:E2;
    destruct (position + rows <=? rowCount self)%Z eqn:E3;
    try (apply Z.leb_le in E3; apply Z.ltb_lt in E2; lia);
    try (apply Z.leb_gt in E3; apply Z.ltb_ge in E2; lia);
    [reflexivity|].
  apply Z.leb_le in E3. unfold rowCount in E3.
  f_equal. f_equal.
  rewrite <- (Z2Nat.id position) at 1 by assumption.
  rewrite remove_loop_spec by lia.
  replace (Z.to_nat (position + rows))
    with (Z.to_nat position + Z.to_nat rows)%nat by lia.
  reflexivity.
Qed.

Lemma removeRows_range_witness :
  removeRows (Model [[(u "a", VNone)]; [(u "b", VNone)]; [(u "c", VNone)]] [])
             1 1
  = (Model [[(u "a", VNone)]; [(u "c", VNone)]] [], true).
Proof.
  refine (removeRows_range
            (Model [[(u "a", VNone)]; [(u "b", VNone)]; [(u "c", VNone)]] [])
            1 1 _).
  lia.
Defined.

(** X14.  Rows inserted by [insertRows] are removed again by [removeRows]
    at the position where they were put: the table is the one before.
    This is so for a number of rows that is not negative and that keeps the
    table within 2147483647 rows, so that [insertRows] does insert them. *)
Theorem insert_then_remove (self : model) (clock : nat -> reading)
  (position rows : Z) :
  (0 <= rows)%Z -> (rowCount self + rows <= 2147483647)%Z ->
  exists m',
    insertRows self clock position rows = Ok (m', true) /\
    removeRows m' (Z.max 0 (Z.min position (rowCount self))) rows
    = (self, true).
Proof.
  intros Hrows Hmax. unfold insertRows.
  set (p := Z.to_nat (Z.max 0 (Z.min position (rowCount self)))).
  assert (Hp : (p <= List.length (_data self))%nat)
    by (unfold p, rowCount; lia).
  replace (Z.max 0 (Z.min position (rowCount self))) with (Z.of_nat p)
    by (unfold p, rowCount; lia).
  replace (fits_int (Z.of_nat p) && fits_int (Z.of_nat p + rows - 1))
    with true
    by (symmetry; unfold fits_int, rowCount in *;
        rewrite !andb_true_iff, !Z.leb_le; lia).
  eexists. split; [reflexivity|].
  rewrite insert_loop_block by assumption.
  assert (Hf : List.length (firstn p (_data self)) = p)
    by (rewrite length_firstn; lia).
  set (new := map (fun i => default_task (headers self) (clock i))
                  (seq 0 (Z.to_nat rows))).
  assert (Hn : List.length new = Z.to_nat rows)
    by (unfold new; rewrite length_map, length_seq; reflexivity).
  unfold removeRows, rowCount. cbn [_data headers].
  rewrite !length_app, Hf, Hn, length_skipn.
  destruct (Z.of_nat p <? 0)%Z eqn:E1; [apply Z.ltb_lt in E1; lia|].
  destruct (Z.of_nat (p + (Z.to_nat rows + (List.length (_data self) - p)))
            <? Z.of_nat p + rows)%Z eqn:E2; [apply Z.ltb_lt in E2; lia|].
  cbn [orb]. f_equal.
  rewrite remove_loop_spec
    by (rewrite !length_app, Hf, Hn, length_skipn; lia).
  rewrite firstn_app, Hf, Nat.sub_diag, firstn_firstn, Nat.min_id.
  cbn [firstn]. rewrite app_nil_r.
  rewrite skipn_app, Hf, (skipn_all2 (firstn p (_data self))) by lia.
  replace (p + Z.to_nat rows - p)%nat with (Z.to_nat rows) by lia.
  rewrite skipn_app, Hn, Nat.sub_diag, (skipn_all2 new) by lia.
  cbn [skipn app]. rewrite firstn_skipn. apply model_eta.
Qed.

Lemma insert_then_remove_witness :
  exists m',
    insertRows (Model [[(u "a", VNone)]; [(u "b", VNone)]] [u "a"])
               (fun _ => Reading (0, 0)%Z 0 0) 1 3 = Ok (m', true) /\
    removeRows m' 1 3
    = (Model [[(u "a", VNone)]; [(u "b", VNone)]] [u "a"], true).
Proof.
  refine (insert_then_remove
            (Model [[(u "a", VNone)]; [(u "b", VNone)]] [u "a"])
            (fun _ => Reading (0, 0)%Z 0 0) 1 3 _ _).
  - lia.
  - vm_compute. discriminate.
Defined.

(** ** Adding and updating a task *)

Lemma form_data_valid (f : form) :
  valid_form f ->
  _get_task_data_from_form f
  = Some [(u "Subject", VStr (task_subject_combo f));
          (u "Type", VStr (task_type_combo f));
          (u "Description", VStr (strip (task_desc_edit f)));
          (u "Assigned", VDate (task_assigned_date f));
          (u "Submit By", VDate (task_submit_date f));
          (u "Status", VStr (task_status_combo f))].
Proof.
  intros (Hd & Hs1 & Hs2 & Hle). unfold _get_task_data_from_form.
  apply nonempty_true in Hd. apply str_eqb_neq in Hs1, Hs2.
  rewrite Hd, Hs1, Hs2. cbn [negb orb].
  destruct (task_submit_date f <? task_assigned_date f)%Z eqn:E;
    [apply Z.ltb_lt in E; lia | reflexivity].
Qed.

Lemma form_data_invalid (f : form) :
  ~ valid_form f -> _get_task_data_from_form f = None.
Proof.
  intros H. unfold _get_task_data_from_form.
  destruct (nonempty (strip (task_desc_edit f))) eqn:Ed; auto.
  cbn [negb].
  destruct (str_eqb (task_subject_combo f) (u "-- Select Subject --"))
    eqn:E1; auto.
  destruct (str_eqb (task_subject_combo f) (u "-- No Subjects --"))
    eqn:E2; auto.
  cbn [orb].
  destruct (task_submit_date f <? task_assigned_date f)%Z eqn:E3; auto.
  exfalso. apply H. apply nonempty_true in Ed.
  apply str_eqb_neq in E1, E2. apply Z.ltb_ge in E3.
  repeat split; assumption.
Qed.

(** X15.  In a table with the columns of the application, [add_task] with
    a form that passes the checks puts one new row on top of the rows that
    were there, which are unchanged: the row holds, under the seven headers
    and in their order, the values of the form, with the trimmed
    description and the time of the call, and nothing of the default row.
    With a form that fails a check the table is left as it is. *)
Theorem add_task_puts_form_on_top (m : model) (f : form) (stamp : Z * Z)
  (clock : nat -> reading) :
  headers m = task_headers ->
  (valid_form f ->
   add_task m f stamp clock
   = Ok (Model (task_of_form f stamp :: _data m) task_headers)) /\
  (~ valid_form f -> add_task m f stamp clock = Ok m).
Proof.
  intros Hh. split; intros Hf; unfold add_task.
  - rewrite (form_data_valid f Hf). unfold task_of_form.
    destruct m as [data hs]. cbn [headers _data] in *. subst hs.
    unfold insertRows. cbn [headers _data].
    replace (Z.max 0 (Z.min 0 (rowCount (Model data task_headers))))
      with (Z.of_nat 0) by (unfold rowCount; lia).
    change (fits_int (Z.of_nat 0) && fits_int (Z.of_nat 0 + 1 - 1)) with true.
    cbv iota. cbn [bind fst].
    rewrite insert_loop_block by lia.
    cbn [firstn skipn seq map app Z.to_nat Pos.to_nat Pos.iter_op Nat.add].
    generalize (strip (task_desc_edit f)) as desc.
    generalize (task_subject_combo f) (task_type_combo f)
               (task_assigned_date f) (task_submit_date f)
               (task_status_combo f) (clock 0%nat).
    intros. vm_compute. reflexivity.
  - rewrite (form_data_invalid f Hf). reflexivity.
Qed.

Lemma add_task_puts_form_on_top_witness :
  add_task (Model [] task_headers)
           (Form (u "Algorithms") (u "Assignment") (u "  Exercise 3 ")
                 100 107 (u "Pending"))
           (100, 5)%Z (fun _ => Reading (100, 4)%Z 100 100)
  = Ok (Model [task_of_form
                 (Form (u "Algorithms") (u "Assignment") (u "  Exercise 3 ")
                       100 107 (u "Pending")) (100, 5)%Z]
              task_headers).
Proof.
  refine (proj1 (add_task_puts_form_on_top (Model [] task_headers)
                   (Form (u "Algorithms") (u "Assignment")
                         (u "  Exercise 3 ") 100 107 (u "Pending"))
                   (100, 5)%Z (fun _ => Reading (100, 4)%Z 100 100)
                   eq_refl) _).
  unfold valid_form. cbn [task_desc_edit task_subject_combo
    task_assigned_date task_submit_date].
  repeat split; vm_compute; discriminate.
Defined.

Lemma nth_error_list_set {A : Type} (l : list A) (i : nat) (x y : A) :
  nth_error l i = Some x ->
  nth_error (list_set l (Z.of_nat i) y) i = Some y.
Proof.
  intros H. unfold list_set. rewrite Nat2Z.id.
  assert (Hi : (i < List.length l)%nat)
    by (apply nth_error_Some; congruence).
  rewrite nth_error_app2 by (rewrite length_firstn; lia).
  rewrite length_firstn.
  replace (i - Nat.min i (List.length l))%nat with 0%nat by lia.
  reflexivity.
Qed.

Lemma list_set_twice {A : Type} (l : list A) (i : nat) (x y : A) :
  (i < List.length l)%nat ->
  list_set (list_set l (Z.of_nat i) x) (Z.of_nat i) y
  = list_set l (Z.of_nat i) y.
Proof.
  intros Hi. unfold list_set. rewrite Nat2Z.id.
  assert (Hf : List.length (firstn i l) = i)
    by (rewrite length_firstn; lia).
  rewrite firstn_app, Hf, Nat.sub_diag, firstn_firstn, Nat.min_id.
  cbn [firstn]. rewrite app_nil_r.
  f_equal. f_equal.
  change (x :: skipn (S i) l) with ([x] ++ skipn (S i) l).
  rewrite app_assoc, skipn_app.
  rewrite skipn_all2 by (rewrite length_app, Hf; cbn; lia).
  rewrite length_app, Hf. cbn [List.length].
  replace (S i - (i + 1))%nat with 0%nat by lia. reflexivity.
Qed.

Lemma line_at_nth_error (l : list str) (c : nat) (key : str) :
  nth_error l c = Some key -> line_at l (Z.of_nat c) = Ok key.
Proof.
  intros H. unfold line_at.
  destruct (Z.of_nat c <? 0)%Z eqn:E; [apply Z.ltb_lt in E; lia|].
  rewrite E, Nat2Z.id, H. reflexivity.
Qed.

Lemma setData_row (data : list task) (hs : list str) (i c : nat)
  (t : task) (key : str) (v : value) :
  nth_error data i = Some t -> nth_error hs c = Some key ->
  setData (Model data hs)
          (index_of (Model data hs) (Z.of_nat i) (Z.of_nat c)) v EditRole
  = Ok (Model (list_set data (Z.of_nat i) (dict_set t key (py_value v))) hs,
        true).
Proof.
  intros Ht Hk.
  assert (Hi : (i < List.length data)%nat)
    by (apply nth_error_Some; congruence).
  assert (Hc : (c < List.length hs)%nat)
    by (apply nth_error_Some; congruence).
  assert (Er : ((0 <=? Z.of_nat i)
                && (Z.of_nat i <? rowCount (Model data hs)))%Z = true).
  { apply andb_true_iff; split; [apply Z.leb_le | apply Z.ltb_lt];
      unfold rowCount; cbn [_data]; lia. }
  unfold index_of. rewrite Er.
  replace ((0 <=? Z.of_nat c)%Z) with true by (symmetry; apply Z.leb_le; lia).
  replace ((Z.of_nat c <? columnCount (Model data hs))%Z) with true
    by (symmetry; apply Z.ltb_lt; unfold columnCount; cbn [headers]; lia).
  cbn [andb]. unfold setData. cbn [role_eqb negb]. rewrite Er. cbn [negb].
  cbn [headers _data]. rewrite (line_at_nth_error _ _ _ Hk). cbn [bind].
  rewrite Nat2Z.id, Ht. reflexivity.
Qed.

Lemma list_set_same {A : Type} (l : list A) (i : nat) (x : A) :
  nth_error l i = Some x -> list_set l (Z.of_nat i) x = l.
Proof.
  intros H. unfold list_set. rewrite Nat2Z.id.
  apply nth_error_split in H as (l1 & l2 & -> & <-).
  rewrite firstn_app, Nat.sub_diag, firstn_all. cbn [firstn].
  rewrite app_nil_r. f_equal.
  change (S (List.length l1)) with (1 + List.length l1)%nat.
  rewrite <- skipn_skipn, skipn_app, Nat.sub_diag, skipn_all.
  reflexivity.
Qed.

Lemma update_task_loop_spec (hs : list str) (i : nat) (task_data : task) :
  forall (hs' : list str) (col : nat) (data : list task) (t : task),
    (forall j key, nth_error hs' j = Some key ->
                   nth_error hs (col + j) = Some key) ->
    nth_error data i = Some t ->
    update_task_loop (Model data hs) (Z.of_nat i) task_data col hs'
    = Ok (Model (list_set data (Z.of_nat i) (updated_row task_data hs' t))
                hs).
Proof.
  induction hs' as [|header hs' IH]; intros col data t Hcol Ht;
    cbn [update_task_loop updated_row fold_left].
  - rewrite list_set_same by assumption. reflexivity.
  - assert (Hcol' : forall j key, nth_error hs' j = Some key ->
                                  nth_error hs (S col + j) = Some key).
    { intros j key Hj. specialize (Hcol (S j) key Hj).
      rewrite Nat.add_succ_r in Hcol. exact Hcol. }
    destruct (dict_get task_data header) as [v|].
    + assert (Hk : nth_error hs col = Some header).
      { specialize (Hcol 0%nat header eq_refl).
        rewrite Nat.add_0_r in Hcol. exact Hcol. }
      rewrite (setData_row data hs i col t header _ Ht Hk). cbn [bind fst].
      rewrite (IH (S col) _ _ Hcol' (nth_error_list_set _ _ _ _ Ht)).
      rewrite list_set_twice by (apply nth_error_Some; congruence).
      reflexivity.
    + apply IH; assumption.
Qed.

Lemma str_eqb_sym (a b : str) : str_eqb a b = str_eqb b a.
Proof.
  destruct (str_eqb a b) eqn:E; symmetry.
  - apply str_eqb_eq in E; subst. apply str_eqb_refl.
  - apply str_eqb_neq in E. apply str_eqb_neq. congruence.
Qed.

Lemma updated_row_get (task_data : task) (k : str) (hs : list str) :
  forall t,
    dict_get (updated_row task_data hs t) k =
    match (if existsb (str_eqb k) hs then dict_get task_data k else None) with
    | Some v => Some (py_value (date_for_model k v))
    | None => dict_get t k
    end.
Proof.
  unfold updated_row.
  induction hs as [|h hs IH]; intros t; cbn [fold_left existsb].
  - reflexivity.
  - rewrite IH. destruct (str_eqb k h) eqn:Ekh; cbn [orb].
    + apply str_eqb_eq in Ekh; subst h.
      destruct (dict_get task_data k) as [v|] eqn:Ev.
      * destruct (existsb (str_eqb k) hs); auto.
        apply dict_get_set_same.
      * destruct (existsb (str_eqb k) hs); reflexivity.
    + assert (E : dict_get
                    match dict_get task_data h with
                    | Some v =>
                      dict_set t h (py_value (date_for_model h v))
                    | None => t
                    end k = dict_get t k).
      { destruct (dict_get task_data h); [|reflexivity].
        rewrite dict_get_set, str_eqb_sym, Ekh. reflexivity. }
      rewrite E. reflexivity.
Qed.

(** X16.  In a table with the columns of the application, [update_task]
    on a selected row and with a form that passes the checks changes that
    row only: the rows before and after it are as before.  In the row, the
    six fields of the form hold the values of the form; "Timestamp" keeps
    the value it had, or gets the time of the call when the row had none;
    what the row holds under any other key is as before. *)
Theorem update_task_changes_one_row (m : model) (f : form) (stamp : Z * Z)
  (i : nat) (t : task) :
  headers m = task_headers -> valid_form f ->
  nth_error (_data m) i = Some t ->
  exists t',
    update_task m (Some (Z.of_nat i)) f stamp
    = Ok (Model (firstn i (_data m) ++ t' :: skipn (S i) (_data m))
                task_headers) /\
    (forall h v, In (h, v) (task_of_form f stamp) -> h <> u "Timestamp" ->
                 dict_get t' h = Some v) /\
    dict_get t' (u "Timestamp")
    = Some match dict_get t (u "Timestamp") with
           | Some v => py_value v
           | None => VDateTime (fst stamp) (snd stamp)
           end /\
    (forall k, ~ In k task_headers -> dict_get t' k = dict_get t k).
Proof.
  intros Hh Hf Ht. destruct m as [data hs]. cbn [headers _data] in *.
  subst hs.
  assert (Hi : (i < List.length data)%nat)
    by (apply nth_error_Some; congruence).
  unfold update_task.
  replace ((0 <=? Z.of_nat i)
           && (Z.of_nat i <? rowCount (Model data task_headers)))%Z
    with true
    by (symmetry; apply andb_true_iff; split;
        [apply Z.leb_le | apply Z.ltb_lt]; unfold rowCount; cbn [_data]; lia).
  cbn [negb]. rewrite (form_data_valid f Hf).
  unfold get_row_data.
  replace ((0 <=? Z.of_nat i)
           && (Z.of_nat i <? rowCount (Model data task_headers)))%Z
    with true
    by (symmetry; apply andb_true_iff; split;
        [apply Z.leb_le | apply Z.ltb_lt]; unfold rowCount; cbn [_data]; lia).
  cbn [_data]. rewrite Nat2Z.id, Ht.
  set (ts := match dict_get t (u "Timestamp") with
             | Some v => v
             | None => VDateTime (fst stamp) (snd stamp)
             end).
  match goal with |- context [update_task_loop _ _ ?td _ _] =>
    set (task_data := td) end.
  exists (updated_row task_data task_headers t). split; [|split; [|split]].
  - rewrite (update_task_loop_spec task_headers i task_data task_headers
               0%nat data t); auto.
    unfold list_set. rewrite Nat2Z.id. reflexivity.
  - intros h v Hin Hne. rewrite updated_row_get.
    unfold task_of_form in Hin. subst task_data.
    generalize dependent (strip (task_desc_edit f)).
    generalize (task_subject_combo f) (task_type_combo f)
               (task_assigned_date f) (task_submit_date f)
               (task_status_combo f).
    intros s1 s2 z1 z2 s3 s4 Hin. cbn [In] in Hin.
    destruct Hin as [E|[E|[E|[E|[E|[E|[E|[]]]]]]]]; injection E as <- <-;
      try (vm_compute; reflexivity).
    congruence.
  - rewrite updated_row_get. subst task_data.
    generalize (strip (task_desc_edit f)).
    generalize (task_subject_combo f) (task_type_combo f)
               (task_assigned_date f) (task_submit_date f)
               (task_status_combo f).
    intros. 
    change (existsb (str_eqb (u "Timestamp")) task_headers) with true.
    cbv iota.
    replace (dict_get _ (u "Timestamp")) with (Some ts)
      by (generalize ts; intros; vm_compute; reflexivity).
    unfold ts. destruct (dict_get t (u "Timestamp")) as [v|]; reflexivity.
  - intros k Hk. rewrite updated_row_get.
    destruct (existsb (str_eqb k) task_headers) eqn:E; [|reflexivity].
    apply existsb_exists in E as (h & Hin & E).
    apply str_eqb_eq in E; subst h. contradiction.
Qed.

Lemma update_task_changes_one_row_witness :
  exists t',
    update_task
      (Model [[(u "Subject", VStr (u "Algorithms"))];
              [(u "Timestamp", VDateTime 90 7); (u "Note", VStr (u "x"))]]
             task_headers)
      (Some 1%Z)
      (Form (u "Graph Theory") (u "Project") (u "Report") 100 107
            (u "In Progress"))
      (100, 5)%Z
    = Ok (Model [[(u "Subject", VStr (u "Algorithms"))]; t'] task_headers) /\
    dict_get t' (u "Timestamp") = Some (VDateTime 90 7) /\
    dict_get t' (u "Note") = Some (VStr (u "x")).
Proof.
  destruct (update_task_changes_one_row
              (Model [[(u "Subject", VStr (u "Algorithms"))];
                      [(u "Timestamp", VDateTime 90 7);
                       (u "Note", VStr (u "x"))]]
                     task_headers)
              (Form (u "Graph Theory") (u "Project") (u "Report") 100 107
                    (u "In Progress"))
              (100, 5)%Z 1%nat
              [(u "Timestamp", VDateTime 90 7); (u "Note", VStr (u "x"))]
              eq_refl)
    as (t' & Hu & _ & Hts & Hk).
  - unfold valid_form. cbn [task_desc_edit task_subject_combo
      task_assigned_date task_submit_date].
    repeat split; vm_compute; discriminate.
  - reflexivity.
  - exists t'. split; [exact Hu|]. split; [exact Hts|].
    apply Hk. vm_compute. intuition discriminate.
Defined.

(** ** The group of a match *)

Lemma lang_closes (r : regex) (w : str) (g g' : option str) :
  lang r w g g' ->
  (g <> None -> g' <> None) /\ (closes r = true -> g' <> None).
Proof.
  induction 1; cbn [closes]; try (split; [solve [auto] | discriminate]).
  - destruct IHlang1, IHlang2. split; auto.
    rewrite orb_true_iff. intros [|]; auto.
  - destruct IHlang. split; auto.
    rewrite andb_true_iff. intros []; auto.
  - destruct IHlang. split; auto.
    rewrite andb_true_iff. intros []; auto.
  - destruct IHlang1, IHlang2. split; auto.
  - split; discriminate.
Qed.

(** In a match of a pattern whose group is not optional, the group has
    been closed: [group1] is the text it has captured. *)
Lemma exec_group_closed (r : regex) (s : str) :
  closes r = true ->
  (forall m, re_match r s = Some m -> grp m <> None) /\
  (forall s' m, re_search r s = Some (s', m) -> grp m <> None).
Proof.
  intros Hc. split.
  - intros m H. apply re_match_sound in H as (w & _ & _ & L).
    apply lang_closes in L as [_ L]; auto.
  - intros s' m H. apply search_from_sound in H as (pre & w & _ & L).
    apply lang_closes in L as [_ L]; auto.
Qed.

Lemma patterns_close_their_group :
  closes course_title_pattern = true /\
  closes general_title_pattern = true /\
  closes nature_re = true /\
  forall label, closes (token_after label) = true.
Proof.
  repeat split. intros label. unfold token_after. cbn [cat closes].
  apply orb_true_r.
Qed.

(** ** From the parsed units to the ongoing chapter *)

Lemma Forall2_in_right {A B : Type} (R : A -> B -> Prop) (l : list A)
  (l' : list B) (y : B) :
  Forall2 R l l' -> In y l' -> exists x, In x l /\ R x y.
Proof.
  induction 1 as [|x0 y0 l l' H0 _ IH]; cbn [In]; [tauto|].
  intros [<-|Hin]; [eauto|].
  destruct (IH Hin) as (x & Hx & HR). eauto.
Qed.

Lemma selection_is_stored (J : Type) (subject_name selected_text : str)
  (oc : dict (chapter J)) :
  selected_text <> [] -> selected_text <> select_chapter ->
  selected_text <> no_units_found ->
  dict_get (fst (on_ongoing_chapter_changed (Some subject_name)
                   selected_text oc)) subject_name
  = Some (Str selected_text).
Proof.
  intros H1 H2 H3. unfold on_ongoing_chapter_changed.
  rewrite (proj2 (regular_selection selected_text)) by auto.
  destruct (differs (dict_get oc subject_name) selected_text) eqn:Ed;
    cbn [fst].
  - apply dict_get_set_same.
  - unfold differs in Ed.
    destruct (dict_get oc subject_name) as [[s|j]|]; try discriminate.
    apply negb_false_iff, str_eqb_eq in Ed; subst; reflexivity.
Qed.

(** X17.  Every entry that the chapter selector offers for the units of a
    parsed course can be selected: when it is selected for that course, the
    mapping of ongoing chapters holds it for the course afterwards.  No
    unit of a parsed course gives an entry that the handler takes for a
    placeholder. *)
Theorem parsed_chapter_can_be_selected (J : Type) (text : str) :
  exists d, parse_syllabus text = Some (Ok d) /\
    forall (k : str) (c : course) (t : str) (oc : dict (chapter J)),
      In (k, c) d -> Units c <> [] ->
      In t (tl (_get_unit_titles_for_subject c)) ->
      dict_get (fst (on_ongoing_chapter_changed (Some k) t oc)) k
      = Some (Str t).
Proof.
  destruct (collect_spec text) as (sd & Hc & [_ _ Hg]).
  exists (cleanup sd). split; [apply parse_of_collect; assumption|].
  apply collect_tidy in Hc as [_ Hr].
  intros k c t oc Hin Hne Ht. apply cleanup_in in Hin as [Hin _].
  assert (He : Forall2 chapter_entry (Units c)
                       (unit_titles_list 0 (Units c))).
  { apply unit_titles_entries.
    rewrite Forall_forall in Hr, Hg.
    destruct (Hr _ Hin) as (Hu & _). pose proof (Hg _ Hin) as Hgu.
    cbn [snd] in Hu, Hgu. rewrite Forall_forall in Hu, Hgu |- *.
    intros x Hx. destruct (Hgu x Hx) as [_ Hm].
    eapply parsed_unit_head; eauto using split_lines_no_LF. }
  unfold _get_unit_titles_for_subject in Ht.
  destruct (Units c) as [|x0 xs] eqn:Eu; [congruence|].
  cbn [app tl] in Ht.
  destruct (Forall2_in_right _ _ _ _ He Ht) as (x & _ & _ & H1 & H2 & H3).
  apply selection_is_stored; assumption.
Qed.

(** ** An iteration works on the current course *)

Lemma dd_update_get_other (sd : dict course) (k k' : str)
  (f : course -> course) :
  k <> k' -> dict_get (dd_update sd k f) k' = dict_get sd k'.
Proof.
  intros Hk. apply str_eqb_neq in Hk. unfold dd_update.
  destruct (dict_get sd k); rewrite dict_get_set, Hk; reflexivity.
Qed.

Lemma save_unit_get_other (sd : dict course) (cs : option str)
  (buf : list str) (k : str) :
  cs <> Some k -> dict_get (save_unit sd cs buf) k = dict_get sd k.
Proof.
  intros Hk. unfold save_unit.
  destruct (subject cs) as [s|] eqn:Es; auto.
  destruct buf; auto. destruct (nonempty _); auto.
  apply subject_nonempty in Es as [_ ->].
  apply dd_update_get_other. congruence.
Qed.

(** X18.  An iteration of the scan changes no record but those of the
    course that is current before it and of the course that is current
    after it: the record stored under any other title is the same after
    the iteration, and a title without a record gets none. *)
Theorem step_changes_current_only (lines : list str) (st st' : state)
  (k : str) :
  step lines st = Ok st' ->
  current_subject st <> Some k -> current_subject st' <> Some k ->
  dict_get (syllabus_data st') k = dict_get (syllabus_data st) k.
Proof.
  unfold step.
  destruct (line_at lines (line_idx st)) as [raw|]; cbn [bind];
    [|discriminate].
  destruct (find_title lines (line_idx st) (strip raw)) as [[title|]|];
    cbn [bind]; [| |discriminate].
  - unfold start_course.
    destruct (details_block _ _ _ _); cbn [bind]; [|discriminate].
    intros [= <-] Hk Hk'. cbn [advance syllabus_data current_subject] in *.
    rewrite !dd_update_get_other by congruence.
    apply save_unit_get_other; assumption.
  - unfold other_line.
    destruct (startswith _ _).
    { destruct (subject (current_subject st)); cbn [bind]; intros [= <-];
        cbn [advance syllabus_data current_subject]; intros Hk _; auto.
      apply save_unit_get_other; assumption. }
    destruct (subject (current_subject st)) as [s|] eqn:Es;
      [|cbn [bind]; intros [= <-]; reflexivity].
    destruct (parsing_contents st && matches unit_start_re (strip raw)).
    { cbn [bind]; intros [= <-]; cbn [advance syllabus_data]; intros Hk _.
      apply save_unit_get_other; assumption. }
    destruct (matches lab_work_start_re (strip raw)).
    { unfold lab_work.
      destruct (re_match _ _); cbn [bind]; [|discriminate].
      destruct (lab_scan _ _ _ _ _); cbn [bind]; [|discriminate].
      intros [= <-]. cbn [advance syllabus_data current_subject].
      intros Hk _. apply subject_nonempty in Es as [_ Es].
      rewrite dd_update_get_other by congruence.
      apply save_unit_get_other; assumption. }
    destruct (_ && _ && _)%bool;
      [|cbn [bind]; intros [= <-]; reflexivity].
    destruct (unit_content_line (strip raw)); cbn [bind]; intros [= <-];
      cbn [advance syllabus_data]; intros Hk _; auto.
    apply save_unit_get_other; assumption.
Qed.

Lemma step_changes_current_only_witness :
  dict_get
    [(u "Algorithms", Course [u "Unit I: Basics"] [] []);
     (u "Graph Theory", Course [] [] []);
     (u "Logic", Course [] [] [(u "Course No", u "CSC302")])]
    (u "Algorithms")
  = dict_get
      [(u "Algorithms", Course [u "Unit I: Basics"] [] []);
       (u "Graph Theory", Course [] [] [])]
      (u "Algorithms").
Proof.
  refine (step_changes_current_only
            (map u ["Course Title: Logic"; "Course No: CSC302"]%string)
            (State [(u "Algorithms", Course [u "Unit I: Basics"] [] []);
                    (u "Graph Theory", Course [] [] [])]
                   (Some (u "Graph Theory")) true [] 0)
            (State _ (Some (u "Logic")) false [] 1)
            (u "Algorithms") _ _ _).
  - vm_compute. reflexivity.
  - vm_compute. discriminate.
  - vm_compute. discriminate.
Defined.

(** * The lab-work text, the details and the units on every text *)

(** ** The end of the lab-work text *)

(** C6 does not hold as the specification words it.  In
    [short_title_doc] the lab-work heading of line 2 is followed by "Abc"
    and "Course No: Z".  The scan stops at "Abc", a line of the general
    title format with a "Course No:" line after it, and the lab-work text
    is "a".  No line from there on is a terminator in the words of the
    specification: "Abc" has fewer than five characters and
    "Course No: Z" holds a detail keyword, so that neither is a heuristic
    title, and the two lines would belong to the lab-work text. *)
Lemma lab_text_stops_at_short_line :
  let st := State [(u "X", Course [] [] [(u "Course No", u "C1")])]
                  (Some (u "X")) false [] 2 in
  lab_heading_detected short_title_doc st (u "Lab Work: a") (u "X") /\
  step short_title_doc st
    = Ok (State [(u "X", Course [] (u "a") [(u "Course No", u "C1")])]
                (Some (u "X")) false [] 3) /\
  (3 < len short_title_doc)%Z /\
  (forall j, (3 <= j < len short_title_doc)%Z ->
             ~ lab_stop_claimed short_title_doc 3 j) /\
  parse_syllabus (join_lines short_title_doc)
    = Some (Ok [(u "X", Course [] (u "a") [(u "Course No", u "C1")])]).
Proof.
  cbv zeta. split; [repeat split; vm_compute; reflexivity|].
  split; [vm_compute; reflexivity|].
  split; [vm_compute; reflexivity|].
  split; [|vm_compute; reflexivity].
  intros j Hj (raw & Hraw & H).
  assert (Hc : j = 3%Z \/ j = 4%Z)
    by (change (len short_title_doc) with 5%Z in Hj; lia).
  destruct Hc as [-> | ->]; vm_compute in Hraw; injection Hraw as <-;
    destruct H as [(H & _) | [H | [H | (H & _)]]];
    vm_compute in H; discriminate.
Qed.

(** ** The details of a course *)

(** ** Literals, tokens and lines *)

Lemma exec_cat_chr (A : Type) (ts : list (char -> bool)) :
  forall (p : nat) (s : str) (g : option str) (k : mstate -> option A),
    exec (cat (map Chr ts)) (MState p s g) k =
    if leads ts s
    then k (MState (p + List.length ts) (skipn (List.length ts) s) g)
    else None.
Proof.
  induction ts as [|t ts IH]; intros p s g k.
  - cbn. rewrite Nat.add_0_r. reflexivity.
  - destruct ts as [|t' ts'].
    + cbn. destruct s as [|c s]; [reflexivity|].
      rewrite andb_true_r, Nat.add_1_r. reflexivity.
    + change (cat (map Chr (t :: t' :: ts')))
        with (Seq (Chr t) (cat (map Chr (t' :: ts')))).
      cbn [exec rest pos grp].
      destruct s as [|c s]; [reflexivity|].
      cbn [leads]. destruct (t c); [|reflexivity].
      rewrite IH. cbn [andb].
      replace (p + List.length (t :: t' :: ts'))
        with (S p + List.length (t' :: ts')) by (cbn [List.length]; lia).
      reflexivity.
Qed.

Lemma ilit_tests (L : string) : ilit L = cat (map Chr (label_tests L)).
Proof. unfold ilit, label_tests. rewrite map_map. reflexivity. Qed.

Lemma exec_ilit (A : Type) (L : string) (p : nat) (s : str)
  (g : option str) (k : mstate -> option A) :
  exec (ilit L) (MState p s g) k =
  if leads (label_tests L) s
  then k (MState (p + List.length (label_tests L))
                 (skipn (List.length (label_tests L)) s) g)
  else None.
Proof. rewrite ilit_tests. apply exec_cat_chr. Qed.

Lemma leads_app (ts : list (char -> bool)) (w t : str) :
  leads ts w = true -> leads ts (w ++ t) = true.
Proof.
  revert w; induction ts as [|x ts IH]; intros w; [reflexivity|].
  destruct w as [|c w]; [discriminate|]. cbn [leads app].
  rewrite !andb_true_iff. intros [? ?]; auto.
Qed.

Lemma leads_line (ts : list (char -> bool)) (a t : str) :
  Forall (fun x => x LF = false) ts -> line_end t ->
  leads ts (a ++ t) = true -> leads ts a = true.
Proof.
  intros Hts [->|(t' & ->)]; [rewrite app_nil_r; auto|].
  revert a; induction Hts as [|x ts Hx Hts IH]; intros a; [reflexivity|].
  destruct a as [|c a]; cbn [leads app].
  - rewrite Hx. discriminate.
  - rewrite !andb_true_iff. intros [? ?]; auto.
Qed.

Lemma search_none_absent (L : string) (l : str) :
  forall p, search_from (ilit L) p l = None -> absent L l.
Proof.
  induction l as [|c l IH]; intros p H n; rewrite search_from_unfold in H;
    rewrite exec_ilit in H.
  - destruct n; cbn [skipn]; destruct (leads _ _); congruence.
  - destruct (leads (label_tests L) (c :: l)) eqn:E; [discriminate|].
    destruct n; [exact E|]. cbn [skipn]. eapply IH; eauto.
Qed.

Lemma exec_alt_none (A : Type) (rs : list regex) (st : mstate)
  (k : mstate -> option A) :
  exec (alt rs) st k = None -> forall r, In r rs -> exec r st k = None.
Proof.
  induction rs as [|r0 rs IH]; intros H r Hin; [destruct Hin|].
  destruct rs as [|r1 rs].
  - destruct Hin as [<-|[]]. exact H.
  - change (alt (r0 :: r1 :: rs)) with (Alt r0 (alt (r1 :: rs))) in H.
    cbn [exec] in H.
    destruct (exec r0 st k) eqn:E0; [discriminate|].
    destruct Hin as [<-|Hin]; auto.
Qed.

Lemma search_alt_none (rs : list regex) (s : str) :
  forall p, search_from (alt rs) p s = None ->
    forall r, In r rs -> search_from r p s = None.
Proof.
  induction s as [|c s IH]; intros p H r Hin;
    rewrite search_from_unfold in H; rewrite search_from_unfold;
    destruct (exec (alt rs) _ _) eqn:E; try discriminate;
    rewrite (exec_alt_none _ rs _ _ E r Hin); eauto.
Qed.

(** A line without a detail keyword holds none of the six labels. *)
Lemma no_keyword_absent (l : str) (L : string) :
  found detail_keywords_re l = false ->
  In L ["Course No:"; "Nature of the Course:"; "Semester:"; "Full Marks:";
        "Pass Marks:"; "Credit Hrs:"]%string ->
  absent L l.
Proof.
  unfold found, re_search. intros H Hin.
  destruct (search_from detail_keywords_re 0 l) eqn:E; [discriminate|].
  eapply search_none_absent.
  eapply (search_alt_none _ _ _ E). 
  apply (in_map ilit) in Hin. exact Hin.
Qed.

Section Label.
Variable L : string.
Variable R : regex.
Hypothesis L_no_LF : Forall (fun x => x LF = false) (label_tests L).
Hypothesis L_not_empty : label_tests L <> [].

Lemma exec_absent (A : Type) (l t : str) (p : nat) (g : option str)
  (k : mstate -> option A) :
  absent L l -> line_end t ->
  exec (Seq (ilit L) R) (MState p (l ++ t) g) k = None.
Proof.
  intros Ha Ht. cbn [exec]. rewrite exec_ilit.
  destruct (leads (label_tests L) (l ++ t)) eqn:E; [|reflexivity].
  apply leads_line in E; auto. specialize (Ha 0). cbn [skipn] in Ha.
  congruence.
Qed.

Lemma absent_tl (c : char) (l : str) : absent L (c :: l) -> absent L l.
Proof. intros H n. exact (H (S n)). Qed.

Lemma search_skip_line (l t : str) :
  forall p, absent L l ->
    exists p', search_from (Seq (ilit L) R) p (l ++ LF :: t)
               = search_from (Seq (ilit L) R) p' t.
Proof.
  induction l as [|c l IH]; intros p Ha; rewrite search_from_unfold.
  - rewrite (exec_absent _ [] (LF :: t)); [|assumption|right; eauto].
    cbn [app]. eauto.
  - rewrite (exec_absent _ (c :: l) (LF :: t)); [|assumption|right; eauto].
    cbn [app]. apply IH. eapply absent_tl; eauto.
Qed.

Lemma search_last_line (l : str) :
  forall p, absent L l -> search_from (Seq (ilit L) R) p l = None.
Proof.
  induction l as [|c l IH]; intros p Ha; rewrite search_from_unfold.
  - rewrite <- (app_nil_r []) at 1.
    rewrite (exec_absent _ [] []); [reflexivity|assumption|left; reflexivity].
  - rewrite <- (app_nil_r (c :: l)) at 1.
    rewrite (exec_absent _ (c :: l) []);
      [|assumption|left; reflexivity].
    apply IH. eapply absent_tl; eauto.
Qed.

Lemma search_lines_absent (ls : list str) :
  Forall (absent L) ls ->
  forall p, search_from (Seq (ilit L) R) p (join_lines ls) = None.
Proof.
  induction ls as [|l ls IH]; intros Ha p.
  - cbn [join_lines]. rewrite search_from_unfold.
    rewrite <- (app_nil_r []) at 1.
    rewrite (exec_absent _ [] []); [reflexivity| |left; reflexivity].
    intros n. destruct n; cbn [skipn];
      destruct (label_tests L); [congruence|reflexivity|congruence|reflexivity].
  - inversion Ha as [|? ? Hl Hls]; subst.
    destruct ls as [|l2 ls].
    + cbn [join_lines]. apply search_last_line; assumption.
    + change (join_lines (l :: l2 :: ls))
        with (l ++ LF :: join_lines (l2 :: ls)).
      destruct (search_skip_line l (join_lines (l2 :: ls)) p Hl) as (p' & ->).
      apply IH; assumption.
Qed.

Lemma search_skip_lines (pre : list str) (l : str) (ls : list str) :
  Forall (absent L) pre ->
  forall p, exists p',
    search_from (Seq (ilit L) R) p (join_lines (pre ++ l :: ls))
    = search_from (Seq (ilit L) R) p' (join_lines (l :: ls)).
Proof.
  induction pre as [|a pre IH]; intros Ha p; [cbn [app]; eauto|].
  inversion Ha as [|? ? Hl Hls]; subst.
  replace (join_lines ((a :: pre) ++ l :: ls))
    with (a ++ LF :: join_lines (pre ++ l :: ls))
    by (cbn [app join_lines]; destruct (pre ++ l :: ls) eqn:E;
        [destruct pre; discriminate | reflexivity]).
  destruct (search_skip_line a (join_lines (pre ++ l :: ls)) p Hl)
    as (p1 & ->).
  apply IH; assumption.
Qed.

End Label.

(** A greedy repetition of a class takes all the characters of the class
    that stand ahead, when what follows the repetition matches after
    them. *)
Lemma exec_star_chr (A : Type) (q : char -> bool) (k : mstate -> option A)
  (x : A) (T : str) (g : option str) :
  match T with [] => True | c :: _ => q c = false end ->
  forall a p,
    Forall (fun c => q c = true) a ->
    k (MState (p + List.length a) T g) = Some x ->
    exec (Star true (Chr q)) (MState p (a ++ T) g) k = Some x.
Proof.
  intros HT a p Ha Hk. cbn [exec rest].
  assert (Hn : List.length a <= List.length (a ++ T))
    by (rewrite length_app; lia).
  revert Hn. generalize (List.length (a ++ T)) as n. intros n; revert a p Ha Hk.
  induction n as [|n IH]; intros a p Ha Hk Hn.
  - destruct a; [|cbn in Hn; lia]. cbn [app List.length] in *.
    rewrite Nat.add_0_r in Hk. exact Hk.
  - destruct a as [|c a].
    + cbn [app List.length] in *. rewrite Nat.add_0_r in Hk.
      cbn [exec rest]. destruct T as [|c T]; [exact Hk|]. rewrite HT. exact Hk.
    + inversion Ha as [|? ? Hc Ha']; subst.
      cbn [app exec rest pos grp]. rewrite Hc.
      rewrite (proj2 (Nat.ltb_lt p (S p))) by lia.
      rewrite IH; auto.
      * cbn [List.length] in Hk. rewrite Nat.add_succ_r in Hk. exact Hk.
      * cbn [List.length] in Hn. lia.
Qed.

(** The pattern of a token after a label, on the label followed by white
    space, a token and the end of the line. *)
Lemma token_after_at (L : string) (sp tok t : str) (p : nat) :
  Forall (fun c => isspace c = true) sp ->
  tok <> [] -> Forall (fun c => isspace c = false) tok ->
  match t with [] => True | c :: _ => isspace c = true end ->
  leads (label_tests L) (u L) = true ->
  List.length (label_tests L) = List.length (u L) ->
  exists m,
    exec (token_after L) (MState p (u L ++ sp ++ tok ++ t) None)
         (fun st => Some st) = Some m /\
    grp m = Some tok.
Proof.
  intros Hsp Hne Htok Ht Hl Hlen.
  unfold token_after.
  change (cat [ilit L; star space; Group (plus nonspace)])
    with (Seq (ilit L) (Seq (star space) (Group (plus nonspace)))).
  cbn [exec]. rewrite exec_ilit.
  rewrite (leads_app _ _ _ Hl). rewrite Hlen, skipn_app, skipn_all, Nat.sub_diag.
  cbn [skipn app].
  destruct tok as [|c tok]; [congruence|].
  inversion Htok as [|? ? Hc Htok']; subst.
  exists (MState (S (p + List.length (u L) + List.length sp)
                  + List.length tok) t (Some (c :: tok))).
  split; [|reflexivity].
  unfold star, space.
  apply exec_star_chr with (a := sp) (T := (c :: tok) ++ t);
    [exact Hc | exact Hsp |].
  unfold plus, nonspace. cbn [exec rest pos grp app].
  rewrite Hc. cbn [negb].
  apply (exec_star_chr _ (fun c => negb (isspace c))) with (a := tok).
  - destruct t; auto. rewrite Ht; reflexivity.
  - eapply Forall_impl; [|exact Htok']. cbv beta. intros a ->. reflexivity.
  - cbv beta. cbn [pos rest]. f_equal. f_equal. f_equal.
    match goal with |- firstn ?n _ = _ =>
      replace n with (S (List.length tok)) by lia end.
    cbn [firstn]. rewrite firstn_app, firstn_all, Nat.sub_diag. cbn [firstn].
    rewrite app_nil_r. reflexivity.
Qed.

Lemma label_no_LF (L : string) :
  forallb (fun c => negb (ichar_test c LF)) (u L) = true ->
  Forall (fun x => x LF = false) (label_tests L).
Proof.
  intros H. unfold label_tests. apply Forall_forall. intros x Hx.
  apply in_map_iff in Hx as (c & <- & Hc).
  rewrite forallb_forall in H. apply H in Hc.
  apply negb_true_iff in Hc. exact Hc.
Qed.

Lemma label_tests_length (L : string) :
  List.length (label_tests L) = List.length (u L).
Proof. unfold label_tests. apply length_map. Qed.

Lemma label_not_empty (L : string) :
  u L <> [] -> label_tests L <> [].
Proof.
  unfold label_tests. destruct (u L); [congruence | discriminate].
Qed.

(** A label that stands in no line of a text is not found in the text. *)
Lemma extract_absent (key L : string) (R : regex) (post : str -> str)
  (ls : list str) (ds : dict str) :
  forallb (fun c => negb (ichar_test c LF)) (u L) = true ->
  u L <> [] ->
  Forall (absent L) ls ->
  extract key (Seq (ilit L) R) post (join_lines ls) ds = ds.
Proof.
  intros H1 H2 Ha. unfold extract, re_search.
  rewrite search_lines_absent;
    auto using label_no_LF, label_not_empty.
Qed.

(** The first line that holds the label gives the token after it. *)
Lemma extract_token_at (key L : string) (pre : list str) (sp tok : str)
  (ls : list str) (ds : dict str) :
  forallb (fun c => negb (ichar_test c LF)) (u L) = true ->
  leads (label_tests L) (u L) = true ->
  Forall (absent L) pre ->
  Forall (fun c => isspace c = true) sp ->
  tok <> [] -> Forall (fun c => isspace c = false) tok ->
  extract key (token_after L) id
          (join_lines (pre ++ (u L ++ sp ++ tok) :: ls)) ds
  = dict_set ds (u key) tok.
Proof.
  intros H1 H2 Ha Hsp Hne Htok. unfold extract, re_search.
  change (token_after L)
    with (Seq (ilit L) (Seq (star space) (Group (plus nonspace)))).
  destruct (search_skip_lines L (Seq (star space) (Group (plus nonspace)))
              (label_no_LF L H1) pre (u L ++ sp ++ tok) ls Ha 0)
    as (p' & Hp').
  destruct (join_lines_cons (u L ++ sp ++ tok) ls) as (t & Et & Ht).
  rewrite Et in Hp'.
  match goal with |- match ?e with _ => _ end = _ =>
    match type of Hp' with _ = ?b =>
      replace e with b by (symmetry; exact Hp') end end.
  rewrite search_from_unfold.
  change (Seq (ilit L) (Seq (star space) (Group (plus nonspace))))
    with (token_after L).
  destruct (token_after_at L sp tok t p' Hsp Hne Htok) as (m & Em & Eg);
    auto using label_tests_length.
  { destruct Ht as [->|(t' & ->)]; [exact I | reflexivity]. }
  rewrite <- !app_assoc. rewrite Em.
  unfold group1. rewrite Eg. reflexivity.
Qed.

(** ** The window of a title *)

Lemma details_block_window (lines : list str) (i : Z) :
  (0 <= i)%Z ->
  forall (n : nat) (j : Z) (block b : list str),
    (i <= j)%Z -> List.length block = Z.to_nat (j - i) ->
    (forall j', (i < j' < j)%Z -> window_cut lines j' = false) ->
    (j + Z.of_nat n <= Z.min (i + 7) (len lines))%Z ->
    details_block lines j n block = Ok b ->
    exists more,
      b = block ++ more /\
      Forall (fun l => exists j', in_window lines i j' /\ (j <= j')%Z /\
                         nth_error lines (Z.to_nat j') = Some l) more.
Proof.
  intros H0. induction n as [|n IH]; intros j block b Hj Hlen Hcut Hn;
    cbn [details_block].
  - intros [= <-]. exists []. rewrite app_nil_r. auto.
  - destruct (line_at lines j) as [l|] eqn:El; cbn [bind]; [|discriminate].
    apply line_at_nth in El; [|lia].
    assert (Hw : in_window lines i j) by (split; [lia | assumption]).
    assert (Hl : exists j', in_window lines i j' /\ (j <= j')%Z /\
                            nth_error lines (Z.to_nat j') = Some l)
      by (exists j; split; [assumption|split; [lia|assumption]]).
    set (cond := (1 <? List.length (block ++ [l]))
                 && negb (nonempty (strip l)) && (j + 1 <? len lines)%Z).
    assert (Hnext : forall stop,
      (window_cut lines j = false \/ j = i) ->
      stop = false ->
      (if stop then Ok (block ++ [l])
       else details_block lines (j + 1) n (block ++ [l])) = Ok b ->
      exists more, b = block ++ more /\
        Forall (fun l => exists j', in_window lines i j' /\ (j <= j')%Z /\
                           nth_error lines (Z.to_nat j') = Some l) more).
    { intros stop Hc -> Hb.
      apply IH in Hb; try lia.
      - destruct Hb as (more & -> & Hm). exists (l :: more). split.
        + rewrite <- app_assoc. reflexivity.
        + constructor; auto. eapply Forall_impl; [|exact Hm].
          cbv beta. intros a (j' & ? & ? & ?).
          exists j'; split; [assumption|split; [lia|assumption]].
      - rewrite length_app, Hlen. cbn [List.length]. lia.
      - intros j' Hj'. destruct (Z.eq_dec j' j) as [->|]; [|apply Hcut; lia].
        destruct Hc; [assumption | lia]. }
    destruct cond eqn:Ec; subst cond.
    + apply andb_true_iff in Ec as [Ec E3]. apply andb_true_iff in Ec as [E1 E2].
      apply Z.ltb_lt in E3.
      destruct (line_at lines (j + 1)) as [nl|] eqn:Enl; cbn [bind];
        [|discriminate].
      apply line_at_nth in Enl; [|lia].
      destruct (matches course_title_pattern nl
                || matches general_title_pattern nl) eqn:Estop.
      * intros [= <-]. exists [l]. split; auto.
      * apply (Hnext false); auto. left. unfold window_cut. rewrite El, Enl.
        unfold title_like. rewrite Estop. apply andb_false_r.
    + cbn [bind]. apply (Hnext false); auto.
      destruct (Z.eq_dec j i) as [->|Hne]; [right; reflexivity|left].
      unfold window_cut. rewrite El.
      destruct (nth_error lines (Z.to_nat (j + 1))) as [nl|] eqn:Enl; auto.
      apply andb_false_iff in Ec as [Ec|Ec].
      * apply andb_false_iff in Ec as [Ec|Ec].
        -- apply Nat.ltb_ge in Ec. rewrite length_app, Hlen in Ec.
           cbn [List.length] in Ec. lia.
        -- rewrite Ec. reflexivity.
      * apply Z.ltb_ge in Ec.
        assert (Hs : nth_error lines (Z.to_nat (j + 1)) <> None) by congruence.
        apply nth_error_Some in Hs. unfold len in Ec. lia.
Qed.

Lemma dd_update_get_same (sd : dict course) (k : str)
  (f : course -> course) :
  dict_get (dd_update sd k f) k
  = Some (f (match dict_get sd k with
             | Some c => c
             | None => default_course
             end)).
Proof.
  unfold dd_update. destruct (dict_get sd k); apply dict_get_set_same.
Qed.

Lemma save_unit_no_details (sd : dict course) (cs : option str)
  (buf : list str) (k : str) :
  (forall c, dict_get sd k = Some c -> Details c = []) ->
  forall c, dict_get (save_unit sd cs buf) k = Some c -> Details c = [].
Proof.
  intros H c. unfold save_unit.
  destruct (subject cs) as [s|]; [|apply H].
  destruct buf; [apply H|].
  destruct (nonempty _); [|apply H].
  destruct (str_eqb s k) eqn:E.
  - apply str_eqb_eq in E; subst s. rewrite dd_update_get_same.
    intros [= <-]. cbn [append_unit Details].
    destruct (dict_get sd k) eqn:Ek; [auto | reflexivity].
  - apply str_eqb_neq in E. rewrite dd_update_get_other by assumption.
    apply H.
Qed.

Lemma absent_closed (L : string) (d : str) :
  search_from (ilit L) 0 d = None -> absent L d.
Proof. apply search_none_absent. Qed.

Ltac closed_label :=
  first [ apply absent_closed; vm_compute; reflexivity
        | vm_compute; reflexivity
        | vm_compute; discriminate ].

(** The details read from a window whose only lines with a keyword are the
    two lines of C7. *)
Lemma csc260_extract (raw d1 d2 : str) (more : list str) :
  csc260_lines d1 d2 ->
  found detail_keywords_re raw = false ->
  Forall (fun l => found detail_keywords_re l = false) more ->
  extract_details (join_lines (raw :: d1 :: d2 :: more)) [] = csc260_details.
Proof.
  intros Hd Hraw Hmore.
  assert (Hab : forall L,
    In L ["Course No:"; "Nature of the Course:"; "Semester:"; "Full Marks:";
          "Pass Marks:"; "Credit Hrs:"]%string ->
    absent L raw /\ Forall (absent L) more).
  { intros L HL. split; [apply no_keyword_absent; assumption|].
    eapply Forall_impl; [|exact Hmore]. cbv beta.
    intros l Hl. apply no_keyword_absent; assumption. }
  assert (Hno : forall key L R post ds,
    In L ["Course No:"; "Nature of the Course:"; "Semester:"; "Full Marks:";
          "Pass Marks:"; "Credit Hrs:"]%string ->
    forallb (fun c => negb (ichar_test c LF)) (u L) = true ->
    u L <> [] ->
    absent L d1 -> absent L d2 ->
    extract key (Seq (ilit L) R) post
            (join_lines (raw :: d1 :: d2 :: more)) ds = ds).
  { intros key L R post ds HL H1 H2 A1 A2.
    destruct (Hab L HL) as [Ar Am].
    apply extract_absent; auto. }
  unfold extract_details.
  set (text := join_lines (raw :: d1 :: d2 :: more)) in *.
  assert (E2 : forall ds,
    extract "Credit Hrs" (token_after "Credit Hrs:") id text ds = ds).
  { intros ds.
    apply (Hno "Credit Hrs" "Credit Hrs:"
               (Seq (star space) (Group (plus nonspace))) id ds)%string;
      [cbn; tauto | closed_label | closed_label | |];
      destruct Hd as [[-> ->]|[-> ->]]; closed_label. }
  assert (E4 : forall ds,
    extract "Full Marks" (token_after "Full Marks:") id text ds = ds).
  { intros ds.
    apply (Hno "Full Marks" "Full Marks:"
               (Seq (star space) (Group (plus nonspace))) id ds)%string;
      [cbn; tauto | closed_label | closed_label | |];
      destruct Hd as [[-> ->]|[-> ->]]; closed_label. }
  assert (E5 : forall ds,
    extract "Pass Marks" (token_after "Pass Marks:") id text ds = ds).
  { intros ds.
    apply (Hno "Pass Marks" "Pass Marks:"
               (Seq (star space) (Group (plus nonspace))) id ds)%string;
      [cbn; tauto | closed_label | closed_label | |];
      destruct Hd as [[-> ->]|[-> ->]]; closed_label. }
  assert (E6 : forall ds, extract "Nature" nature_re strip text ds = ds).
  { intros ds.
    apply (Hno "Nature" "Nature of the Course:"
               (Seq (star space) (Group (plus dot))) strip ds)%string;
      [cbn; tauto | closed_label | closed_label | |];
      destruct Hd as [[-> ->]|[-> ->]]; closed_label. }
  assert (E1 : forall ds,
    extract "Course No" (token_after "Course No:") id text ds
    = dict_set ds (u "Course No") (u "CSC260")).
  { intros ds. destruct (Hab "Course No:"%string) as [Ar Am]; [cbn; tauto|].
    subst text. destruct Hd as [[-> ->]|[-> ->]].
    - apply (extract_token_at "Course No" "Course No:" [raw] [32%N] (u "CSC260")
               (u "Semester: IV" :: more) ds);
        try closed_label; auto;
        repeat constructor; auto; try closed_label.
    - apply (extract_token_at "Course No" "Course No:" [raw; u "Semester: IV"]
               [32%N] (u "CSC260") more ds);
        try closed_label; auto;
        repeat constructor; auto; try closed_label. }
  assert (E3 : forall ds,
    extract "Semester" (token_after "Semester:") id text ds
    = dict_set ds (u "Semester") (u "IV")).
  { intros ds. destruct (Hab "Semester:"%string) as [Ar Am]; [cbn; tauto|].
    subst text. destruct Hd as [[-> ->]|[-> ->]].
    - apply (extract_token_at "Semester" "Semester:"
               [raw; u "Course No: CSC260"] [32%N] (u "IV") more ds);
        try closed_label; auto;
        repeat constructor; auto; try closed_label.
    - apply (extract_token_at "Semester" "Semester:" [raw] [32%N] (u "IV")
               (u "Course No: CSC260" :: more) ds);
        try closed_label; auto;
        repeat constructor; auto; try closed_label. }
  rewrite E1, E2, E3, E4, E5, E6. reflexivity.
Qed.

Lemma details_block_next (lines : list str) (j : Z) (n : nat)
  (block : list str) (l : str) :
  line_at lines j = Ok l ->
  block = [] \/ nonempty (strip l) = true ->
  details_block lines j (S n) block
  = details_block lines (j + 1) n (block ++ [l]).
Proof.
  intros El H. cbn [details_block]. rewrite El. cbn [bind].
  destruct H as [->|H].
  - reflexivity.
  - rewrite H. cbn [negb]. rewrite andb_false_r. reflexivity.
Qed.

Lemma nth_error_line_at (lines : list str) (j : Z) (l : str) :
  (0 <= j)%Z -> nth_error lines (Z.to_nat j) = Some l ->
  line_at lines j = Ok l.
Proof.
  intros H0 H. apply line_at_nth_error in H. rewrite Z2Nat.id in H; auto.
Qed.

Lemma csc260_lines_nonempty (d1 d2 : str) :
  csc260_lines d1 d2 ->
  nonempty (strip d1) = true /\ nonempty (strip d2) = true.
Proof. intros [[-> ->]|[-> ->]]; split; vm_compute; reflexivity. Qed.

(** C7, as the code has it.  When a title is accepted on line [i] for a
    course that has no details yet, the two lines after it are
    "Course No: CSC260" and "Semester: IV", in one order or the other, and
    no other line of the window of the title holds a detail keyword, the
    details of the course are exactly "Course No" (CSC260) and "Semester"
    (IV) after the iteration.  The window is made of the title line and of
    up to six lines after it; it ends before at a blank line that is
    followed by a title-like line. *)
Theorem details_partial_any_order
  (lines : list str) (st : state) (raw title d1 d2 : str) :
  (0 <= line_idx st)%Z ->
  line_at lines (line_idx st) = Ok raw ->
  find_title lines (line_idx st) (strip raw) = Ok (Some title) ->
  (forall c, dict_get (syllabus_data st) title = Some c -> Details c = []) ->
  nth_error lines (Z.to_nat (line_idx st + 1)) = Some d1 ->
  nth_error lines (Z.to_nat (line_idx st + 2)) = Some d2 ->
  csc260_lines d1 d2 ->
  (forall j l,
     in_window lines (line_idx st) j ->
     j <> (line_idx st + 1)%Z -> j <> (line_idx st + 2)%Z ->
     nth_error lines (Z.to_nat j) = Some l ->
     found detail_keywords_re l = false) ->
  exists st' c,
    step lines st = Ok st' /\
    dict_get (syllabus_data st') title = Some c /\
    Details c = csc260_details /\
    keys (Details c) = [u "Course No"; u "Semester"].
Proof.
  intros H0 Hraw Ht Hfresh Hd1 Hd2 Hcs Hkw.
  set (i := line_idx st) in *.
  destruct (csc260_lines_nonempty _ _ Hcs) as [N1 N2].
  assert (L1 : line_at lines (i + 1) = Ok d1)
    by (apply nth_error_line_at; auto; lia).
  assert (L2 : line_at lines (i + 2) = Ok d2)
    by (apply nth_error_line_at; auto; lia).
  assert (Hlen : (i + 3 <= len lines)%Z).
  { assert (Hs : nth_error lines (Z.to_nat (i + 2)) <> None) by congruence.
    apply nth_error_Some in Hs. unfold len. lia. }
  pose proof (line_at_nth lines i raw H0 Hraw) as Nraw.
  unfold step. fold i. rewrite Hraw. cbn [bind]. rewrite Ht. cbn [bind].
  unfold start_course. fold i.
  destruct (range_len i (Z.min (i + 7) (len lines))) as [|[|[|n]]] eqn:En;
    try (unfold range_len in En; lia).
  rewrite (details_block_next lines i _ [] raw) by auto.
  rewrite (details_block_next lines (i + 1) _ _ d1) by auto.
  replace (i + 1 + 1)%Z with (i + 2)%Z by lia.
  rewrite (details_block_next lines (i + 2) _ _ d2) by auto.
  replace (i + 2 + 1)%Z with (i + 3)%Z by lia.
  cbn [app].
  destruct (details_block_ok lines n (i + 3) [raw; d1; d2]) as (b & Eb);
    [lia | unfold range_len in En; lia |].
  rewrite Eb. cbn [bind].
  apply (details_block_window lines i H0) in Eb;
    [ | lia | cbn [List.length]; lia | | unfold range_len in En; lia ].
  - destruct Eb as (more & -> & Hmore). cbn [app].
    pose proof (save_unit_no_details (syllabus_data st) (current_subject st)
                  (current_unit_content st) title Hfresh) as F1.
    eexists. eexists. split; [reflexivity|].
    cbn [advance syllabus_data].
    rewrite dd_update_get_same. rewrite dd_update_get_same. unfold id.
    split; [reflexivity|].
    cbn [set_details Details].
    match goal with |- context [extract_details _ (Details ?c)] =>
      assert (E0 : Details c = []) end.
    { destruct (dict_get (save_unit _ _ _) title) eqn:E; [auto | reflexivity]. }
    rewrite E0.
    rewrite csc260_extract; auto.
    + eapply (Hkw i); auto; try lia. split; [lia|]. intros; lia.
    + eapply Forall_impl; [|exact Hmore]. cbv beta.
      intros l (j' & Hw & Hj' & Hn). eapply (Hkw j'); auto; lia.
  - intros j' Hj'. unfold window_cut.
    assert (Hc : j' = (i + 1)%Z \/ j' = (i + 2)%Z) by lia.
    destruct Hc as [-> | ->].
    + rewrite Hd1, N1. destruct (nth_error lines (Z.to_nat (i + 1 + 1)));
        reflexivity.
    + rewrite Hd2, N2. destruct (nth_error lines (Z.to_nat (i + 2 + 1)));
        reflexivity.
Qed.

(** The theorem on the first line of a text in which the next course comes
    after a blank line: the window of the first title ends there. *)
Lemma details_partial_any_order_witness :
  exists st' c,
    step spaced_doc initial_state = Ok st' /\
    dict_get (syllabus_data st') (u "Database Management System") = Some c /\
    Details c = csc260_details /\
    keys (Details c) = [u "Course No"; u "Semester"].
Proof.
  refine (details_partial_any_order spaced_doc
            initial_state (u "Database Management System")
            (u "Database Management System")
            (u "Semester: IV") (u "Course No: CSC260") _ _ _ _ _ _ _ _).
  - simpl; lia.
  - vm_compute; reflexivity.
  - vm_compute; reflexivity.
  - intros c H; vm_compute in H; discriminate.
  - vm_compute; reflexivity.
  - vm_compute; reflexivity.
  - right; split; reflexivity.
  - intros j l [Hj Hcut] H1 H2.
    change (line_idx initial_state) with 0%Z in *.
    change (len spaced_doc) with 6%Z in Hj.
    assert (Hc : j = 0%Z \/ j = 3%Z \/ j = 4%Z \/ j = 5%Z) by lia.
    destruct Hc as [-> | [-> | [-> | ->]]].
    + intros [= <-]; vm_compute; reflexivity.
    + intros [= <-]; vm_compute; reflexivity.
    + specialize (Hcut 3%Z). vm_compute in Hcut.
      assert (true = false) by (apply Hcut; split; reflexivity). discriminate.
    + specialize (Hcut 3%Z). vm_compute in Hcut.
      assert (true = false) by (apply Hcut; split; reflexivity). discriminate.
Defined.

(** C7 does not hold of a course whose own lines are the two detail lines
    when the next course follows at once: its "Credit Hrs:" line is in the
    window of the first title, and the first course gets a third key. *)
Lemma details_window_leaks :
  exists d c,
    parse_syllabus leak_doc = Some (Ok d) /\
    dict_get d (u "Database Management System") = Some c /\
    Details c = [(u "Course No", u "CSC260"); (u "Credit Hrs", u "3");
                 (u "Semester", u "IV")] /\
    keys (Details c) <> [u "Course No"; u "Semester"].
Proof.
  eexists _, _. split; [vm_compute; reflexivity|].
  split; [vm_compute; reflexivity|].
  split; [reflexivity|]. vm_compute. discriminate.
Qed.

(** ** Units in the order of the text *)















Section Order.
Variable lines : list str.
Hypothesis lines_no_LF : Forall (fun l => ~ In LF l) lines.





End Order.




(** The three units of [units_doc] start at the lines 3, 5 and 7 and come
    back in this order; the unit that [repeated_units_doc] has twice is
    kept twice. *)
Lemma units_of_sample_documents :
  starts_of (u "Algorithms")
    (unit_starts (iterations (split_lines units_doc))
                 (split_lines units_doc) initial_state)
  = [3; 5; 7]%Z /\
  parse_syllabus units_doc
    = Some (Ok [(u "Algorithms",
                 Course [text_of_lines ["Unit I: Basics"; "1.1 Sets"]%string;
                         text_of_lines ["Unit II: Sorting";
                                        "2.1 Quick sort"]%string;
                         text_of_lines ["Unit III: Graphs";
                                        "3.1 Paths"]%string]
                        [] [(u "Course No", u "CSC300")])]) /\
  parse_syllabus repeated_units_doc
    = Some (Ok [(u "Algorithms",
                 Course [text_of_lines ["Unit I: Basics"; "1.1 Sets"]%string;
                         text_of_lines ["Unit I: Basics"; "1.1 Sets"]%string]
                        [] [(u "Course No", u "CSC300")])]).
Proof. repeat split; vm_compute; reflexivity. Qed.
